(** * Crypto agents: task registry, automation rule engine, command router

    A shallow embedding of [CryptoAgent], [AutomationAgent] and the
    price-check path of [ChatAgent] / [CryptoMessageHandler], together with
    the properties of the design document that concern them.

    Conventions of the embedding:
    - an [async] function is a computation in the exception monad [Exc]:
      a promise that resolves is [Ok v], one that rejects (or a synchronous
      [throw]) is [Throw e]; [await] is monadic bind; a thrown value is an
      [Error] object with its [message];
    - a JavaScript number is a binary64 value ([spec_float] at precision 53),
      so comparisons with NaN are false and products are rounded;
    - a value of type [string | undefined] is an [option string]; a
      parameter object is a record of the fields the handlers destructure,
      each at its declared type or [undefined];
    - a rule id is an integer, and the rule array is a list of slots that
      are [null] ([None]) or hold a rule;
    - the capability clients (market, wallet, transaction manager, contract
      manager) perform network I/O and are taken at their class interface,
      as the fields of an environment record: every statement below holds
      for every behaviour of the clients. *)

From Stdlib Require Import ZArith String Ascii Bool Lia Sorted Permutation.
From Stdlib Require Import Floats.SpecFloat.
From stdpp Require Import gmap strings list fin_maps pretty sorting.

Open Scope Z_scope.

(** ** The fragment of the JavaScript runtime the agents use *)

Module JS.

(** *** Exceptions and promises *)

Record Error := { message : string }.

Inductive Exc (A : Type) : Type :=
| Ok (a : A)
| Throw (e : Error).
Arguments Ok {A} a.
Arguments Throw {A} e.

#[global] Instance Exc_ret : MRet Exc := fun A a => Ok a.
#[global] Instance Exc_bind : MBind Exc := fun A B f m =>
  match m with
  | Ok a => f a
  | Throw e => Throw e
  end.

(** [try { body } catch (error) { handler }] *)
Definition try_catch {A} (body : Exc A) (handler : Error -> Exc A) : Exc A :=
  match body with
  | Ok a => Ok a
  | Throw e => handler e
  end.

(** [throw new Error(msg)] *)
Definition throw_new_Error {A} (msg : string) : Exc A :=
  Throw {| message := msg |}.

(** *** Numbers *)

Definition number := spec_float.
Definition prec : Z := 53.
Definition emax : Z := 1024.

(** An integer literal, rounded to binary64 (exact below 2^53). *)
Definition num (z : Z) : number := binary_normalize prec emax z 0 false.

Definition NaN : number := S754_nan.

(** [a < b] and [a > b]; both are false when an operand is NaN. *)
Definition lt (a b : number) : bool := SFltb a b.
Definition gt (a b : number) : bool := SFltb b a.

Definition mul (a b : number) : number := SFmul prec emax a b.
Definition sub (a b : number) : number := SFsub prec emax a b.

(** Truthiness of a number: +0, -0 and NaN are falsy. *)
Definition truthy (x : number) : bool :=
  match x with
  | S754_zero _ | S754_nan => false
  | _ => true
  end.

(** Truthiness of [number | undefined]. *)
Definition truthy_opt (o : option number) : bool :=
  match o with
  | Some x => truthy x
  | None => false
  end.

(** The stored form of a binary64 value: the mantissa is canonical. *)
Definition valid (x : number) : bool := valid_binary prec emax x.

(** [Math.floor] *)
Definition Math_floor (x : number) : number :=
  match x with
  | S754_finite s m e =>
      if 0 <=? e then x
      else binary_normalize prec emax
             (Z.shiftr (cond_Zopp s (Zpos m)) (- e)) 0 s
  | _ => x
  end.

(** The mathematical value of a number when it is an integer. *)
Definition integer_value (x : number) : option Z :=
  match x with
  | S754_zero _ => Some 0
  | S754_finite s m e =>
      if 0 <=? e then Some (cond_Zopp s (Zpos m * 2 ^ e))
      else if Zpos m mod 2 ^ (- e) =? 0
           then Some (cond_Zopp s (Zpos m / 2 ^ (- e)))
           else None
  | _ => None
  end.

(** [Number::toString].  Integers of magnitude below 10^21 print as their
    decimal digits; the shortest round-trip digits of every other finite
    value are produced by [digits], the runtime's digit generator. *)
Definition Number_toString (digits : number -> string) (x : number) : string :=
  match x with
  | S754_nan => "NaN"
  | S754_infinity false => "Infinity"
  | S754_infinity true => "-Infinity"
  | S754_zero _ => "0"
  | S754_finite _ _ _ =>
      match integer_value x with
      | Some z => if Z.abs z <? 10 ^ 21 then pretty z else digits x
      | None => digits x
      end
  end.

(** The nearest binary64 value of [digits * 10^e10], with sign [neg]. *)
Definition decimal_to_number (neg : bool) (digits e10 : Z) : number :=
  match digits with
  | Zpos d =>
      if 0 <=? e10 then
        binary_round prec emax neg (d * Z.to_pos (10 ^ e10)) 0
      else
        let '(q, e', l) :=
          SFdiv_core_binary prec emax (Zpos d) 0 (10 ^ (- e10)) 0 in
        binary_round_aux prec emax neg q e' l
  | _ => S754_zero neg
  end.

(** The literal [0.95]. *)
Definition num_0_95 : number := S754_finite false 8556839292003942 (-53).

(** *** Strings *)

Definition digit_of (c : ascii) : option Z :=
  let n := Z.of_N (N_of_ascii c) in
  if (48 <=? n) && (n <=? 57) then Some (n - 48) else None.

(** Reads a run of decimal digits: the accumulated value, the number of
    digits read and the rest of the string. *)
Fixpoint read_digits (s : string) (acc count : Z) : Z * Z * string :=
  match s with
  | String c s' =>
      match digit_of c with
      | Some d => read_digits s' (10 * acc + d) (count + 1)
      | None => (acc, count, s)
      end
  | EmptyString => (acc, count, s)
  end.

Definition is_white_space (c : ascii) : bool :=
  let n := N_of_ascii c in
  ((9 <=? n) && (n <=? 13) || (n =? 32))%N.

Fixpoint skip_white_space (s : string) : string :=
  match s with
  | String c s' => if is_white_space c then skip_white_space s' else s
  | EmptyString => s
  end.

(** The exponent part [e[+-]digits] of a decimal literal; 0 when absent or
    malformed (the literal then ends before the [e]). *)
Definition read_exponent (s : string) : Z :=
  match s with
  | String c r =>
      if (Ascii.eqb c "e" || Ascii.eqb c "E")%bool then
        let '(neg, r') :=
          match r with
          | String "-" t => (true, t)
          | String "+" t => (false, t)
          | _ => (false, r)
          end in
        let '(v, count, _) := read_digits r' 0 0 in
        if count =? 0 then 0 else if neg then - v else v
      else 0
  | EmptyString => 0
  end.

(** [parseFloat]: skips leading white space and converts the longest
    prefix that is a decimal literal; NaN when there is none.  White space
    is the ASCII part of the language's white-space class. *)
Definition parseFloat (s : string) : number :=
  let s1 := skip_white_space s in
  let '(neg, s2) :=
    match s1 with
    | String "-" r => (true, r)
    | String "+" r => (false, r)
    | _ => (false, s1)
    end in
  if String.prefix "Infinity" s2 then S754_infinity neg
  else
    let '(ip, n_ip, s3) := read_digits s2 0 0 in
    let '(mant, n_fp, s4) :=
      match s3 with
      | String "." r => read_digits r ip 0
      | _ => (ip, 0, s3)
      end in
    if n_ip + n_fp =? 0 then NaN
    else decimal_to_number neg mant (read_exponent s4 - n_fp).

(** [String(v)] for [v : string | undefined]. *)
Definition ToString_opt (o : option string) : string :=
  match o with
  | Some s => s
  | None => "undefined"
  end.

(** [parseFloat] applied to [string | undefined]. *)
Definition parseFloat_opt (o : option string) : number :=
  parseFloat (ToString_opt o).

(** [s.split(sep)] for a one-character separator: never empty. *)
Fixpoint split (sep : ascii) (s : string) : list string :=
  match s with
  | EmptyString => [EmptyString]
  | String c s' =>
      if Ascii.eqb c sep then EmptyString :: split sep s'
      else match split sep s' with
           | h :: t => String c h :: t
           | [] => [String c EmptyString]
           end
  end.

Definition upper_ascii (c : ascii) : ascii :=
  let n := N_of_ascii c in
  if ((97 <=? n) && (n <=? 122))%N then ascii_of_N (n - 32) else c.

(** [s.toUpperCase()] on ASCII letters. *)
Fixpoint toUpperCase (s : string) : string :=
  match s with
  | EmptyString => EmptyString
  | String c s' => String (upper_ascii c) (toUpperCase s')
  end.

(** [arr.join(sep)] *)
Fixpoint join (sep : string) (l : list string) : string :=
  match l with
  | [] => ""
  | [x] => x
  | x :: l' => x +:+ sep +:+ join sep l'
  end.

(** *** [Array.prototype.sort]

    The sort is stable; [cmp a b > 0] asks for [b] before [a].  Insertion
    from the left is the order every stable sort produces when the
    comparator is consistent. *)
Section Sort.
Context {A : Type} (cmp : A -> A -> number).

Fixpoint insert (x : A) (l : list A) : list A :=
  match l with
  | [] => [x]
  | y :: l' => if gt (cmp y x) (num 0) then x :: y :: l' else y :: insert x l'
  end.

Definition sort (l : list A) : list A :=
  fold_left (fun acc x => insert x acc) l [].
End Sort.

End JS.

Import JS.

(** [arr.includes(v)] on an array of strings, for [v : string | undefined]. *)
Definition includes (arr : list string) (v : option string) : bool :=
  match v with
  | Some s => existsb (String.eqb s) arr
  | None => false
  end.

(** ** Data exchanged with the capability clients *)

(** [PriceData] of the market client. *)
Record PriceData := {
  price : number;
  change24h : number;
  volume24h : number;
  marketCap : number
}.

(** An entry of the market client's asset listing. *)
Record Crypto := {
  coin_symbol : string;
  price_change_percentage_24h : number
}.

(** The global statistics: [stats.data.total_market_cap.usd] and
    [stats.data.market_cap_change_percentage_24h_usd]. *)
Record MarketStats := {
  total_market_cap_usd : number;
  market_cap_change_percentage_24h_usd : number
}.

(** A transaction of the history; [tx_value] is the value in the string form
    that [parseFloat] receives. *)
Record Transaction := {
  tx_hash : string;
  tx_to : option string;
  tx_value : string
}.

(** An element of the [any[]] argument list of a contract call. *)
Inductive JsValue :=
| VString (s : string)
| VNumber (n : number)
| VBoolean (b : bool)
| VNull
| VUndefined.

(** [v === s] for a string literal [s]; [undefined] when the index is out
    of range. *)
Definition strict_eq_string (v : option JsValue) (s : string) : bool :=
  match v with
  | Some (VString s') => String.eqb s' s
  | _ => false
  end.

(** The parameter object of a task.  Destructuring reads the fields a handler
    names; a field the caller did not supply is [undefined]. *)
Record TaskParams := {
  symbol : option string;
  address : option string;
  type : option string;
  amount : option string;
  token : option string;
  priceThreshold : option number;
  txHash : option string;
  abi : option (list string);
  method : option string;
  params : option (list JsValue)
}.

(** The object literal [{}]. *)
Definition no_params : TaskParams :=
  {| symbol := None; address := None; type := None; amount := None;
     token := None; priceThreshold := None; txHash := None; abi := None;
     method := None; params := None |}.

(** The object literals [{ symbol }] and [{ address }]. *)
Definition check_price_params (sym : option string) : TaskParams :=
  {| symbol := sym; address := None; type := None; amount := None;
     token := None; priceThreshold := None; txHash := None; abi := None;
     method := None; params := None |}.

Definition monitor_wallet_params (addr : option string) : TaskParams :=
  {| symbol := None; address := addr; type := None; amount := None;
     token := None; priceThreshold := None; txHash := None; abi := None;
     method := None; params := None |}.

(** The value a task handler returns. *)
Inductive TaskData :=
| PriceCheck (price change24h : number) (recommendation : string)
| WalletReport (balance : string) (recentTransactions : list Transaction)
    (securityStatus : string)
| TradeExecution (type amount token : option string) (executionPrice : number)
    (timestamp : string)
| MarketAnalysis (topPerformers : list Crypto) (marketSentiment : string)
    (recommendations : list string)
| TransactionTracking (status gasPrice recommendation : string)
| ContractInteraction (gasEstimate safetyCheck estimatedCost : string).

Record TaskResult := {
  success : bool;
  data : option TaskData;
  error : option string
}.

(** The capability clients and the ambient runtime. *)
Record Env := {
  market_getPrice : option string -> Exc PriceData;
  market_getTopCryptos : Z -> Exc (list Crypto);
  market_getMarketStats : Exc MarketStats;
  wallet_getBalance : option string -> Exc string;
  transactionManager_getTransactionHistory : option string -> Exc (list Transaction);
  transactionManager_getTransactionStatus : option string -> Exc string;
  transactionManager_getGasPrice : Exc string;
  contractManager_estimateContractGas :
    option string -> option (list string) -> option string -> list JsValue -> Exc string;
  (** [new Date().toISOString()] *)
  Date_toISOString : string;
  (** digit generation of [Number::toString] *)
  number_digits : number -> string
}.

(** ** CryptoAgent: the task registry *)

Module CryptoAgent.

Abbreviation Task := (TaskParams -> Exc TaskData).

(** [new Map(entries)]: entries are set in order. *)
Definition Map_of_entries {V} (entries : list (string * V)) : gmap string V :=
  fold_left (fun m kv => <[kv.1 := kv.2]> m) entries ∅.

Section WithEnv.
Variable env : Env.

Definition analyzePriceMovement (priceData : PriceData) : string :=
  if gt (change24h priceData) (num 5) then "Consider Taking Profits"
  else if lt (change24h priceData) (num (-5)) then "Potential Buying Opportunity"
  else "Market Stable".

Definition checkPrice (p : TaskParams) : Exc TaskData :=
  priceData ← market_getPrice env (symbol p);
  mret (PriceCheck (price priceData) (change24h priceData)
          (analyzePriceMovement priceData)).

Definition assessWalletSecurity (transactions : list Transaction) : string :=
  let uniqueRecipients := length (remove_dups (map tx_to transactions)) in
  let largeTransactions :=
    length (List.filter (fun tx => gt (parseFloat (tx_value tx)) (num 1))
              transactions) in
  if ((10 <? uniqueRecipients)%nat && (5 <? largeTransactions)%nat)%bool
  then "High Activity - Enhanced Security Recommended"
  else "Normal Activity".

Definition monitorWallet (p : TaskParams) : Exc TaskData :=
  balance ← wallet_getBalance env (address p);
  transactions ← transactionManager_getTransactionHistory env (address p);
  mret (WalletReport balance
          (drop (length transactions - 5)%nat transactions)
          (assessWalletSecurity transactions)).

Definition executeTrade (p : TaskParams) : Exc TaskData :=
  currentPrice ← market_getPrice env (token p);
  _ ← (if truthy_opt (priceThreshold p) then
         let threshold := default NaN (priceThreshold p) in
         if bool_decide (type p = Some "buy")
            && gt (price currentPrice) threshold
         then throw_new_Error "Price above threshold"
         else if bool_decide (type p = Some "sell")
                 && lt (price currentPrice) threshold
         then throw_new_Error "Price below threshold"
         else mret tt
       else mret tt);
  mret (TradeExecution (type p) (amount p) (token p) (price currentPrice)
          (Date_toISOString env)).

Definition cmp_change_desc (a b : Crypto) : number :=
  sub (price_change_percentage_24h b) (price_change_percentage_24h a).

Definition identifyTopPerformers (cryptos : list Crypto) : list Crypto :=
  take 3
    (sort cmp_change_desc
       (List.filter (fun crypto => gt (price_change_percentage_24h crypto) (num 0))
          cryptos)).

Definition calculateMarketSentiment (stats : MarketStats) : string :=
  let marketCapChange := market_cap_change_percentage_24h_usd stats in
  if gt marketCapChange (num 5) then "Bullish"
  else if lt marketCapChange (num (-5)) then "Bearish"
  else "Neutral".

Definition generateMarketRecommendations
    (cryptos : list Crypto) (stats : MarketStats) : list string :=
  let sentiment := calculateMarketSentiment stats in
  if String.eqb sentiment "Bullish" then ["Consider increasing portfolio exposure"]
  else if String.eqb sentiment "Bearish" then ["Consider reducing risk"]
  else [].

Definition analyzeMarket (p : TaskParams) : Exc TaskData :=
  topCryptos ← market_getTopCryptos env 10;
  marketStats ← market_getMarketStats env;
  mret (MarketAnalysis (identifyTopPerformers topCryptos)
          (calculateMarketSentiment marketStats)
          (generateMarketRecommendations topCryptos marketStats)).

Definition provideTransactionInsights (status gasPrice : string) : string :=
  if String.eqb status "Pending" && gt (parseFloat gasPrice) (num 100)
  then "Consider increasing gas price for faster confirmation"
  else "Transaction progressing normally".

Definition trackTransaction (p : TaskParams) : Exc TaskData :=
  status ← transactionManager_getTransactionStatus env (txHash p);
  gasPrice ← transactionManager_getGasPrice env;
  mret (TransactionTracking status gasPrice
          (provideTransactionInsights status gasPrice)).

Definition infinite_approval : string :=
  "0xffffffffffffffffffffffffffffffffffffffff".

Definition validateHighRiskOperation
    (method : option string) (params : list JsValue) : Exc unit :=
  if bool_decide (method = Some "approve")
     && strict_eq_string (params !! 1%nat) infinite_approval
  then throw_new_Error
         "Infinite approval detected - consider limiting approval amount"
  else mret tt.

Definition riskyMethods : list string := ["transfer"; "approve"; "mint"].

Definition validateContractInteraction
    (method : option string) (params : list JsValue) : Exc unit :=
  if includes riskyMethods method
  then validateHighRiskOperation method params
  else mret tt.

Definition calculateTransactionCost (gasEstimate : string) : string :=
  "Estimated cost: " +:+ gasEstimate +:+ " gas units".

(** Spreading [...params] when [params] is [undefined] is a TypeError
    raised before the call. *)
Definition spread_error : Error :=
  {| message := "Spread syntax requires ...iterable[Symbol.iterator] to be a function" |}.

Definition interactWithContract (p : TaskParams) : Exc TaskData :=
  args ← match params p with
         | Some args => mret args
         | None => Throw spread_error
         end;
  gasEstimate ←
    contractManager_estimateContractGas env (address p) (abi p) (method p) args;
  _ ← validateContractInteraction (method p) args;
  mret (ContractInteraction gasEstimate "Passed"
          (calculateTransactionCost gasEstimate)).

Definition initializeTasks : gmap string Task :=
  Map_of_entries
    [ ("check_price", checkPrice);
      ("monitor_wallet", monitorWallet);
      ("execute_trade", executeTrade);
      ("analyze_market", analyzeMarket);
      ("track_transaction", trackTransaction);
      ("smart_contract_interaction", interactWithContract) ].

Definition tasks : gmap string Task := initializeTasks.

Definition executeTask (taskName : string) (p : TaskParams) : Exc TaskResult :=
  match tasks !! taskName with
  | None =>
      mret {| success := false; data := None;
              error := Some ("Task '" +:+ taskName +:+ "' not found") |}
  | Some task =>
      try_catch
        (result ← task p;
         mret {| success := true; data := Some result; error := None |})
        (fun error =>
           mret {| success := false; data := None;
                   error := Some (message error) |})
  end.

End WithEnv.

End CryptoAgent.

(** ** AutomationAgent: the rule engine *)

Record AutomationRule := {
  condition : string;
  action : string;
  rule_params : TaskParams;
  interval : option number
}.

Module AutomationAgent.

(** The handle [setInterval] returns. *)
Definition Timeout := positive.

(** An entry of [getActiveRules()]. *)
Record ActiveRule := {
  ruleId : Z;
  rule : option AutomationRule
}.

(** The agent's fields, and the interval timers of the event loop: every
    live timer with the rule its callback evaluates and its period. *)
Record State := {
  rules : list (option AutomationRule);
  activeMonitors : gmap Z Timeout;
  timers : gmap Timeout (AutomationRule * number);
  next_timeout : Timeout
}.

Definition init : State :=
  {| rules := []; activeMonitors := ∅; timers := ∅; next_timeout := 1%positive |}.

(** [this.rules[ruleId]]: [undefined] outside the array, else the slot. *)
Definition rules_at (st : State) (ruleId : Z) : option (option AutomationRule) :=
  if 0 <=? ruleId then rules st !! Z.to_nat ruleId else None.

Definition startMonitoring (ruleId : Z) (st : State) : State :=
  match rules_at st ruleId with
  | Some (Some rule) =>
      if truthy_opt (interval rule) then
        let monitor := next_timeout st in
        {| rules := rules st;
           activeMonitors := <[ruleId := monitor]> (activeMonitors st);
           timers := <[monitor := (rule, default NaN (interval rule))]> (timers st);
           next_timeout := Pos.succ monitor |}
      else st
  | _ => st
  end.

Definition stopMonitoring (ruleId : Z) (st : State) : State :=
  match activeMonitors st !! ruleId with
  | Some monitor =>
      {| rules := rules st;
         activeMonitors := delete ruleId (activeMonitors st);
         timers := delete monitor (timers st);
         next_timeout := next_timeout st |}
  | None => st
  end.

Definition addRule (rule : AutomationRule) (st : State) : Z * State :=
  let ruleId := Z.of_nat (length (rules st)) in
  let st1 := {| rules := rules st ++ [Some rule];
                activeMonitors := activeMonitors st;
                timers := timers st;
                next_timeout := next_timeout st |} in
  (ruleId, if truthy_opt (interval rule) then startMonitoring ruleId st1 else st1).

Definition removeRule (ruleId : Z) (st : State) : bool * State :=
  if (0 <=? ruleId) && (ruleId <? Z.of_nat (length (rules st))) then
    let st1 := {| rules := <[Z.to_nat ruleId := None]> (rules st);
                  activeMonitors := activeMonitors st;
                  timers := timers st;
                  next_timeout := next_timeout st |} in
    (true, stopMonitoring ruleId st1)
  else (false, st).

Definition getActiveRules (st : State) : list ActiveRule :=
  List.filter (fun entry => bool_decide (is_Some (rule entry)))
    (imap (fun index rule => {| ruleId := Z.of_nat index; rule := rule |})
       (rules st)).

(** [activeMonitors.forEach]: each entry present when it is visited is
    stopped; the callback deletes only the entry being visited. *)
Definition stopAllMonitoring (st : State) : State :=
  fold_left (fun st entry => stopMonitoring entry.1 st)
    (map_to_list (activeMonitors st)) st.

(** [obj.price] and [obj.balance] on a task's data: [undefined] when the
    object has no such property. *)
Definition data_price (d : TaskData) : option number :=
  match d with
  | PriceCheck price _ _ => Some price
  | _ => None
  end.

Definition data_balance (d : TaskData) : option string :=
  match d with
  | WalletReport balance _ _ => Some balance
  | _ => None
  end.

(** Reading a property of [undefined]. *)
Definition undefined_property_error : Error :=
  {| message := "Cannot read properties of undefined" |}.

Section WithEnv.
Variable env : Env.

Definition evaluateCondition (condition : string) : Exc bool :=
  match split ":" condition with
  | type :: params =>
      if String.eqb type "price_below_threshold" then
        let symbol := params !! 0%nat in
        let threshold := params !! 1%nat in
        priceData ← CryptoAgent.executeTask env "check_price"
                      (check_price_params symbol);
        if success priceData then
          match data priceData with
          | Some d => mret (lt (default NaN (data_price d)) (parseFloat_opt threshold))
          | None => Throw undefined_property_error
          end
        else mret false
      else if String.eqb type "wallet_balance_above" then
        let address := params !! 0%nat in
        let minBalance := params !! 1%nat in
        walletData ← CryptoAgent.executeTask env "monitor_wallet"
                       (monitor_wallet_params address);
        if success walletData then
          match data walletData with
          | Some d => mret (gt (parseFloat_opt (data_balance d)) (parseFloat_opt minBalance))
          | None => Throw undefined_property_error
          end
        else mret false
      else mret false
  | [] => mret false
  end.

Definition executeAction (action : string) (p : TaskParams) : Exc TaskResult :=
  CryptoAgent.executeTask env action p.

(** One tick of a rule's timer; an error is logged and dropped. *)
Definition evaluateRule (rule : AutomationRule) : Exc unit :=
  try_catch
    (conditionMet ← evaluateCondition (condition rule);
     if conditionMet : bool then
       _ ← executeAction (action rule) (rule_params rule); mret tt
     else mret tt)
    (fun error => mret tt).

Definition setupPriceAlert (symbol : string) (threshold : number)
    (interval : option number) : State -> Z * State :=
  addRule
    {| condition := "price_below_threshold:" +:+ symbol +:+ ":"
                      +:+ Number_toString (number_digits env) threshold;
       action := "execute_trade";
       rule_params :=
         {| symbol := None; address := None; type := Some "buy";
            amount := Some "0.1"; token := Some symbol;
            priceThreshold := Some threshold; txHash := None; abi := None;
            method := None; params := None |};
       interval := Some (default (num 60000) interval) |}.

Definition setupWalletMonitor (address minBalance : string)
    (interval : option number) : State -> Z * State :=
  addRule
    {| condition := "wallet_balance_above:" +:+ address +:+ ":" +:+ minBalance;
       action := "monitor_wallet";
       rule_params :=
         {| symbol := None; address := Some address; type := None;
            amount := None; token := None; priceThreshold := None;
            txHash := None; abi := None; method := None; params := None |};
       interval := Some (default (num 300000) interval) |}.

Definition setupMarketAnalysis (interval : option number) : State -> Z * State :=
  addRule
    {| condition := "market_analysis";
       action := "analyze_market";
       rule_params := no_params;
       interval := Some (default (num 3600000) interval) |}.

End WithEnv.

(** *** Operation histories *)

Inductive Op :=
| OpAddRule (rule : AutomationRule)
| OpRemoveRule (ruleId : Z)
| OpStopAllMonitoring.

Definition step (op : Op) (st : State) : State :=
  match op with
  | OpAddRule rule => (addRule rule st).2
  | OpRemoveRule ruleId => (removeRule ruleId st).2
  | OpStopAllMonitoring => stopAllMonitoring st
  end.

(** The rule ids an operation explicitly stops: [removeRule] stops its
    argument when it names a slot, [stopAllMonitoring] every id allocated
    so far. *)
Definition stops (op : Op) (st : State) : gset Z :=
  match op with
  | OpAddRule _ => ∅
  | OpRemoveRule ruleId =>
      if (0 <=? ruleId) && (ruleId <? Z.of_nat (length (rules st)))
      then {[ ruleId ]} else ∅
  | OpStopAllMonitoring =>
      list_to_set (seqZ 0 (Z.of_nat (length (rules st))))
  end.

(** Runs a history from [st]; the second component collects the ids that
    were stopped after they had been added. *)
Fixpoint run (ops : list Op) (st : State) (stopped : gset Z) : State * gset Z :=
  match ops with
  | [] => (st, stopped)
  | op :: ops' => run ops' (step op st) (stopped ∪ stops op st)
  end.

End AutomationAgent.

(** ** The command routers: the price-check handler *)

Record ChatResponse := {
  response_message : string;
  response_data : option TaskData;
  suggestions : list string
}.

Definition data_change24h (d : TaskData) : option number :=
  match d with
  | PriceCheck _ change24h _ => Some change24h
  | _ => None
  end.

Definition data_recommendation (d : TaskData) : option string :=
  match d with
  | PriceCheck _ _ recommendation => Some recommendation
  | TransactionTracking _ _ recommendation => Some recommendation
  | _ => None
  end.

(** A [number | undefined] inside a template literal. *)
Definition template_number (env : Env) (o : option number) : string :=
  match o with
  | Some x => Number_toString (number_digits env) x
  | None => "undefined"
  end.

Definition newline : string := String (ascii_of_nat 10) EmptyString.

(** [symbol.toUpperCase()]: a TypeError when [symbol] is [undefined]. *)
Definition toUpperCase_opt (o : option string) : Exc string :=
  match o with
  | Some s => mret (toUpperCase s)
  | None => Throw AutomationAgent.undefined_property_error
  end.

(** The alert threshold the routers suggest after a price check:
    [Math.floor(result.data.price * 0.95)]. *)
Definition alert_threshold (d : TaskData) : number :=
  Math_floor (mul (default NaN (AutomationAgent.data_price d)) num_0_95).

Definition price_information (env : Env) (upper : string) (d : TaskData) : string :=
  upper +:+ " Price Information:" +:+ newline
  +:+ "• Current Price: $" +:+ template_number env (AutomationAgent.data_price d) +:+ newline
  +:+ "• 24h Change: " +:+ template_number env (data_change24h d) +:+ "%" +:+ newline
  +:+ "• Recommendation: " +:+ ToString_opt (data_recommendation d).

(** The object literal [{ type, token: symbol, amount }] of an order. *)
Definition order_params (type symbol amount : option string) : TaskParams :=
  {| symbol := None; address := None; type := type; amount := amount;
     token := symbol; priceThreshold := None; txHash := None; abi := None;
     method := None; params := None |}.

(** The text of an executed order: [result.data] is read as a trade
    record, and [token.toUpperCase()] needs a token. *)
Definition order_executed (env : Env) (title : string) (d : TaskData) : Exc string :=
  match d with
  | TradeExecution _ amount token executionPrice timestamp =>
      upper ← toUpperCase_opt token;
      mret (title +:+ newline
            +:+ "• Token: " +:+ upper +:+ newline
            +:+ "• Amount: $" +:+ ToString_opt amount +:+ newline
            +:+ "• Price: $" +:+ Number_toString (number_digits env) executionPrice
            +:+ newline
            +:+ "• Time: " +:+ timestamp)
  | _ => Throw AutomationAgent.undefined_property_error
  end.

(** The lines [SYMBOL: change%] of the top performers. *)
Definition top_performer_lines (env : Env) (topPerformers : list Crypto) : string :=
  join newline
    (map (fun coin =>
            toUpperCase (coin_symbol coin) +:+ ": "
            +:+ Number_toString (number_digits env) (price_change_percentage_24h coin)
            +:+ "%")
       topPerformers).

(** The text of a market analysis. *)
Definition market_analysis_text (env : Env) (topPerformers : list Crypto)
    (marketSentiment : string) (recommendations : list string) : string :=
  "Market Analysis:" +:+ newline
  +:+ "• Sentiment: " +:+ marketSentiment +:+ newline
  +:+ "• Top Performers:" +:+ newline
  +:+ top_performer_lines env topPerformers +:+ newline
  +:+ "• Recommendations:" +:+ newline
  +:+ join newline recommendations.

(** The text that confirms a price alert. *)
Definition price_alert_text (symbol price : string) (ruleId : Z) : string :=
  "Price alert set for " +:+ toUpperCase symbol +:+ " at $" +:+ price +:+ newline
  +:+ "• Alert ID: " +:+ pretty ruleId +:+ newline
  +:+ "• You will be notified when the price crosses this threshold".


Module ChatAgent.

Definition handlePriceCheck (env : Env) (match_ : list string) : Exc ChatResponse :=
  let symbol := match_ !! 1%nat in
  result ← CryptoAgent.executeTask env "check_price" (check_price_params symbol);
  if negb (success result) then
    mret {| response_message :=
              "Failed to get price for " +:+ ToString_opt symbol +:+ ": "
                +:+ ToString_opt (error result);
            response_data := None;
            suggestions := ["Try another cryptocurrency"; "Check market analysis"] |}
  else
    upper ← toUpperCase_opt symbol;
    d ← match data result with
        | Some d => mret d
        | None => Throw AutomationAgent.undefined_property_error
        end;
    mret {| response_message := price_information env upper d;
            response_data := Some d;
            suggestions :=
              [ "set price alert for " +:+ ToString_opt symbol +:+ " at "
                  +:+ Number_toString (number_digits env) (alert_threshold d);
                "analyze market";
                "buy " +:+ ToString_opt symbol +:+ " for 100" ] |}.

(** [symbol] and [price] are the two groups of a match of the alert
    pattern; both take part in every match. *)
Definition handlePriceAlert (env : Env) (symbol price : string)
    (st : AutomationAgent.State) : Exc ChatResponse * AutomationAgent.State :=
  let '(ruleId, st') :=
    AutomationAgent.setupPriceAlert env symbol (parseFloat price) None st in
  (mret {| response_message := price_alert_text symbol price ruleId;
           response_data := None;
           suggestions := ["check price of " +:+ symbol; "show active rules"; "analyze market"] |},
   st').

Definition handleMarketAnalysis (env : Env) : Exc ChatResponse :=
  result ← CryptoAgent.executeTask env "analyze_market" no_params;
  if negb (success result) then
    mret {| response_message :=
              "Failed to analyze market: " +:+ ToString_opt (error result);
            response_data := None;
            suggestions := ["Try again later"; "check price of bitcoin"] |}
  else
    match data result with
    | Some (MarketAnalysis topPerformers marketSentiment recommendations as d) =>
        mret {| response_message :=
                  market_analysis_text env topPerformers marketSentiment
                    recommendations;
                response_data := Some d;
                suggestions :=
                  [ "check price of "
                      +:+ ToString_opt (coin_symbol <$> topPerformers !! 0%nat);
                    "set price alert";
                    "show active rules" ] |}
    | _ => Throw AutomationAgent.undefined_property_error
    end.

Definition handleBuyOrder (env : Env) (match_ : list string) : Exc ChatResponse :=
  let symbol := match_ !! 1%nat in
  let amount := match_ !! 2%nat in
  result ← CryptoAgent.executeTask env "execute_trade"
             (order_params (Some "buy") symbol amount);
  if negb (success result) then
    mret {| response_message :=
              "Failed to execute buy order: " +:+ ToString_opt (error result);
            response_data := None;
            suggestions := ["Try a different amount"; "check price first"] |}
  else
    d ← match data result with
        | Some d => mret d
        | None => Throw AutomationAgent.undefined_property_error
        end;
    text ← order_executed env "Buy Order Executed:" d;
    mret {| response_message := text;
            response_data := Some d;
            suggestions := [ "set price alert for " +:+ ToString_opt symbol;
                             "show active rules";
                             "analyze market" ] |}.

Definition handleSellOrder (env : Env) (match_ : list string) : Exc ChatResponse :=
  let symbol := match_ !! 1%nat in
  let amount := match_ !! 2%nat in
  result ← CryptoAgent.executeTask env "execute_trade"
             (order_params (Some "sell") symbol amount);
  if negb (success result) then
    mret {| response_message :=
              "Failed to execute sell order: " +:+ ToString_opt (error result);
            response_data := None;
            suggestions := ["Try a different amount"; "check price first"] |}
  else
    d ← match data result with
        | Some d => mret d
        | None => Throw AutomationAgent.undefined_property_error
        end;
    text ← order_executed env "Sell Order Executed:" d;
    mret {| response_message := text;
            response_data := Some d;
            suggestions := ["analyze market"; "show active rules"] |}.

End ChatAgent.

Module CryptoMessageHandler.

Definition handlePriceCheck (env : Env) (match_ : list string) : Exc ChatResponse :=
  let symbol := match_ !! 1%nat in
  result ← CryptoAgent.executeTask env "check_price" (check_price_params symbol);
  if negb (success result) then
    mret {| response_message :=
              "Failed to get price for " +:+ ToString_opt symbol +:+ ": "
                +:+ ToString_opt (error result);
            response_data := None;
            suggestions := ["Try 'crypto price bitcoin'"; "Try 'crypto market'"] |}
  else
    upper ← toUpperCase_opt symbol;
    d ← match data result with
        | Some d => mret d
        | None => Throw AutomationAgent.undefined_property_error
        end;
    mret {| response_message := price_information env upper d;
            response_data := Some d;
            suggestions :=
              [ "crypto alert " +:+ ToString_opt symbol +:+ " at "
                  +:+ Number_toString (number_digits env) (alert_threshold d);
                "crypto market";
                "crypto buy " +:+ ToString_opt symbol +:+ " 100" ] |}.

(** [symbol] and [price] are the two groups of a match of the alert
    pattern; both take part in every match. *)
Definition handlePriceAlert (env : Env) (symbol price : string)
    (st : AutomationAgent.State) : Exc ChatResponse * AutomationAgent.State :=
  let '(ruleId, st') :=
    AutomationAgent.setupPriceAlert env symbol (parseFloat price) None st in
  (mret {| response_message := price_alert_text symbol price ruleId;
           response_data := None;
           suggestions := ["crypto price " +:+ symbol; "crypto rules"; "crypto market"] |},
   st').

Definition handleMarketAnalysis (env : Env) : Exc ChatResponse :=
  result ← CryptoAgent.executeTask env "analyze_market" no_params;
  if negb (success result) then
    mret {| response_message :=
              "Failed to analyze market: " +:+ ToString_opt (error result);
            response_data := None;
            suggestions := ["Try again later"; "crypto price bitcoin"] |}
  else
    match data result with
    | Some (MarketAnalysis topPerformers marketSentiment recommendations as d) =>
        mret {| response_message :=
                  market_analysis_text env topPerformers marketSentiment
                    recommendations;
                response_data := Some d;
                suggestions :=
                  [ "crypto price "
                      +:+ ToString_opt (coin_symbol <$> topPerformers !! 0%nat);
                    "crypto alert";
                    "crypto rules" ] |}
    | _ => Throw AutomationAgent.undefined_property_error
    end.

Definition handleBuyOrder (env : Env) (match_ : list string) : Exc ChatResponse :=
  let symbol := match_ !! 1%nat in
  let amount := match_ !! 2%nat in
  result ← CryptoAgent.executeTask env "execute_trade"
             (order_params (Some "buy") symbol amount);
  if negb (success result) then
    mret {| response_message :=
              "Failed to execute buy order: " +:+ ToString_opt (error result);
            response_data := None;
            suggestions := ["Try a different amount"; "crypto price first"] |}
  else
    d ← match data result with
        | Some d => mret d
        | None => Throw AutomationAgent.undefined_property_error
        end;
    text ← order_executed env "Buy Order Executed:" d;
    mret {| response_message := text;
            response_data := Some d;
            suggestions := [ "crypto alert " +:+ ToString_opt symbol;
                             "crypto rules";
                             "crypto market" ] |}.

Definition handleSellOrder (env : Env) (match_ : list string) : Exc ChatResponse :=
  let symbol := match_ !! 1%nat in
  let amount := match_ !! 2%nat in
  result ← CryptoAgent.executeTask env "execute_trade"
             (order_params (Some "sell") symbol amount);
  if negb (success result) then
    mret {| response_message :=
              "Failed to execute sell order: " +:+ ToString_opt (error result);
            response_data := None;
            suggestions := ["Try a different amount"; "crypto price first"] |}
  else
    d ← match data result with
        | Some d => mret d
        | None => Throw AutomationAgent.undefined_property_error
        end;
    text ← order_executed env "Sell Order Executed:" d;
    mret {| response_message := text;
            response_data := Some d;
            suggestions := ["crypto market"; "crypto rules"] |}.

End CryptoMessageHandler.

(** ** The blockchain clients over the JSON-RPC provider *)

(** A transaction as the provider reports it; [to] is [null] for a contract
    creation, [value] is in wei. *)
Record TransactionResponse := {
  tr_hash : string;
  tr_from : string;
  tr_to : option string;
  tr_value : Z
}.

Record Block := { transactions : list TransactionResponse }.

(** [receipt.status]: 1, 0, or absent on receipts that predate it. *)
Record TransactionReceipt := { receipt_status : option number }.

(** The calls the clients make on [ethers]: the methods of [this.provider],
    with [null] for an unknown transaction or a missing receipt, and the
    formatting utilities.  Block numbers and wei amounts are integers. *)
Record Provider := {
  provider_getBlockNumber : Exc Z;
  provider_getBlockWithTransactions : Z -> Exc Block;
  provider_getTransaction : option string -> Exc (option TransactionResponse);
  provider_getTransactionReceipt : option string -> Exc (option TransactionReceipt);
  provider_getGasPrice : Exc Z;
  provider_getBalance : string -> Exc Z;
  utils_formatUnits : Z -> string -> string;
  utils_formatEther : Z -> string
}.

(** Truthiness of [string | undefined]: the empty string is falsy. *)
Definition truthy_string (o : option string) : bool :=
  match o with
  | Some s => negb (String.eqb s "")
  | None => false
  end.

Module TransactionManager.
Section WithProvider.
Variable provider : Provider.

(** [tx.from === address || tx.to === address] *)
Definition relevant (address : option string) (tx : TransactionResponse) : bool :=
  match address with
  | Some a =>
      String.eqb (tr_from tx) a
      || match tr_to tx with
         | Some to => String.eqb to a
         | None => false
         end
  | None => false
  end.

(** The loop [for (let i = ...; i <= currentBlock; i++)] from its state
    [i], [history]; [fuel] bounds the number of iterations. *)
Fixpoint for_blocks (fuel : nat) (address : option string) (currentBlock i : Z)
    (history : list TransactionResponse) : Exc (list TransactionResponse) :=
  match fuel with
  | O => mret history
  | S fuel' =>
      if i <=? currentBlock then
        block ← provider_getBlockWithTransactions provider i;
        let relevantTxs := List.filter (relevant address) (transactions block) in
        for_blocks fuel' address currentBlock (i + 1) (history ++ relevantTxs)
      else mret history
  end.

(** The loop runs [currentBlock - startBlock + 1] times, or not at all. *)
Definition getTransactionHistory (address : option string) (startBlock : Z)
    : Exc (list TransactionResponse) :=
  currentBlock ← provider_getBlockNumber provider;
  for_blocks (Z.to_nat (currentBlock - startBlock + 1)) address currentBlock
    startBlock [].

Definition getTransactionStatus (txHash : option string) : Exc string :=
  tx ← provider_getTransaction provider txHash;
  match tx with
  | None => mret "Not Found"
  | Some _ =>
      receipt ← provider_getTransactionReceipt provider txHash;
      match receipt with
      | None => mret "Pending"
      | Some receipt =>
          mret (if truthy_opt (receipt_status receipt) then "Confirmed" else "Failed")
      end
  end.

Definition getGasPrice : Exc string :=
  gasPrice ← provider_getGasPrice provider;
  mret (utils_formatUnits provider gasPrice "gwei").

End WithProvider.
End TransactionManager.

Module CryptoWallet.
Section WithProvider.
Variable provider : Provider.

(** [wallet] is [this.wallet?.address]: [undefined] while no wallet was
    created or imported. *)
Definition getBalance (wallet : option string) (address : option string)
    : Exc string :=
  let targetAddress := if truthy_string address then address else wallet in
  match targetAddress with
  | Some target =>
      if String.eqb target "" then throw_new_Error "No wallet address specified"
      else
        balance ← provider_getBalance provider target;
        mret (utils_formatEther provider balance)
  | None => throw_new_Error "No wallet address specified"
  end.

End WithProvider.
End CryptoWallet.

(** ** A concrete environment for running the model *)

Definition sample_price (p c : number) : PriceData :=
  {| price := p; change24h := c; volume24h := num 0; marketCap := num 0 |}.

(** Every client answers; the price client reports [pd]. *)
Definition sample_env (pd : PriceData) : Env :=
  {| market_getPrice := fun _ => Ok pd;
     market_getTopCryptos := fun _ => Ok [];
     market_getMarketStats :=
       Ok {| total_market_cap_usd := num 0;
             market_cap_change_percentage_24h_usd := num 0 |};
     wallet_getBalance := fun _ => Ok "1.5";
     transactionManager_getTransactionHistory := fun _ => Ok [];
     transactionManager_getTransactionStatus := fun _ => Ok "Pending";
     transactionManager_getGasPrice := Ok "20.0";
     contractManager_estimateContractGas := fun _ _ _ _ => Ok "21000";
     Date_toISOString := "2024-01-01T00:00:00.000Z";
     number_digits := fun _ => "" |}.

(** Every client fails with [msg]. *)
Definition failing_env (msg : string) : Env :=
  {| market_getPrice := fun _ => throw_new_Error msg;
     market_getTopCryptos := fun _ => throw_new_Error msg;
     market_getMarketStats := throw_new_Error msg;
     wallet_getBalance := fun _ => throw_new_Error msg;
     transactionManager_getTransactionHistory := fun _ => throw_new_Error msg;
     transactionManager_getTransactionStatus := fun _ => throw_new_Error msg;
     transactionManager_getGasPrice := throw_new_Error msg;
     contractManager_estimateContractGas := fun _ _ _ _ => throw_new_Error msg;
     Date_toISOString := "2024-01-01T00:00:00.000Z";
     number_digits := fun _ => "" |}.

(** A transfer of 5 wei. *)
Definition sample_transfer (hash from to : string) : TransactionResponse :=
  {| tr_hash := hash; tr_from := from; tr_to := Some to; tr_value := 5 |}.

(** A chain in which [0xa1] sends to [0xb2] in block 0 and receives from it
    in block 2. *)
Definition sample_block (i : Z) : Block :=
  if i =? 0 then {| transactions := [sample_transfer "0xt0" "0xa1" "0xb2";
                                     sample_transfer "0xt1" "0xc3" "0xd4"] |}
  else if i =? 2 then {| transactions := [sample_transfer "0xt2" "0xb2" "0xa1"] |}
  else {| transactions := [sample_transfer "0xt3" "0xc3" "0xd4"] |}.

(** A provider over that chain, at block 2; the transaction [0xt1] is known
    and has no receipt. *)
Definition sample_provider : Provider :=
  {| provider_getBlockNumber := Ok 2;
     provider_getBlockWithTransactions := fun i => Ok (sample_block i);
     provider_getTransaction := fun hash =>
       Ok (if bool_decide (hash = Some "0xt1")
           then Some (sample_transfer "0xt1" "0xc3" "0xd4") else None);
     provider_getTransactionReceipt := fun _ => Ok None;
     provider_getGasPrice := Ok 150000000000;
     provider_getBalance := fun _ => Ok 1500000000000000000;
     utils_formatUnits := fun _ _ => "150.0";
     utils_formatEther := fun _ => "1.5" |}.

(** The transaction client of [env] is a [TransactionManager] over
    [provider]. *)
Definition agent_transaction_status (provider : Provider) (env : Env) : Prop :=
  transactionManager_getTransactionStatus env
  = TransactionManager.getTransactionStatus provider.

(** The wallet client of [env] is the [CryptoWallet] an agent constructs
    over [provider]: no wallet is ever created or imported on it. *)
Definition agent_wallet_balance (provider : Provider) (env : Env) : Prop :=
  wallet_getBalance env = CryptoWallet.getBalance provider None.

(** [sample_env] with the wallet and transaction clients over [provider]. *)
Definition provider_env (provider : Provider) : Env :=
  {| market_getPrice := fun _ => Ok (sample_price (num 100) (num 0));
     market_getTopCryptos := fun _ => Ok [];
     market_getMarketStats :=
       Ok {| total_market_cap_usd := num 0;
             market_cap_change_percentage_24h_usd := num 0 |};
     wallet_getBalance := CryptoWallet.getBalance provider None;
     transactionManager_getTransactionHistory := fun _ => Ok [];
     transactionManager_getTransactionStatus :=
       TransactionManager.getTransactionStatus provider;
     transactionManager_getGasPrice := TransactionManager.getGasPrice provider;
     contractManager_estimateContractGas := fun _ _ _ _ => Ok "21000";
     Date_toISOString := "2024-01-01T00:00:00.000Z";
     number_digits := fun _ => "" |}.

(** * Vocabulary of the properties *)

(** The names [initializeTasks] registers. *)
Definition registered_names : list string :=
  ["check_price"; "monitor_wallet"; "execute_trade"; "analyze_market";
   "track_transaction"; "smart_contract_interaction"].

(** The record a trade reports for the price datum [pd]. *)
Definition trade_record (env : Env) (p : TaskParams) (pd : PriceData) : TaskData :=
  TradeExecution (type p) (amount p) (token p) (price pd) (Date_toISOString env).

(** The parameter object [p] with its [priceThreshold] replaced. *)
Definition with_priceThreshold (p : TaskParams) (t : option number) : TaskParams :=
  {| symbol := symbol p; address := address p; type := type p; amount := amount p;
     token := token p; priceThreshold := t; txHash := txHash p; abi := abi p;
     method := method p; params := params p |}.

(** A trade request as the routers and the price alert build it. *)
Definition trade_params (ty tok amt : string) (t : option number) : TaskParams :=
  {| symbol := None; address := None; type := Some ty; amount := Some amt;
     token := Some tok; priceThreshold := t; txHash := None; abi := None;
     method := None; params := None |}.

(** C4 as worded: whenever a threshold is given, a buy above it
    and a sell below it fail, and every other call returns the record. *)
Definition execute_trade_claim (env : Env) (p : TaskParams) (th : number)
    (pd : PriceData) : Prop :=
  priceThreshold p = Some th ->
  market_getPrice env (token p) = Ok pd ->
  (type p = Some "buy" -> gt (price pd) th = true ->
     CryptoAgent.executeTrade env p = throw_new_Error "Price above threshold") /\
  (type p = Some "sell" -> lt (price pd) th = true ->
     CryptoAgent.executeTrade env p = throw_new_Error "Price below threshold") /\
  ((type p = Some "buy" -> gt (price pd) th = false) ->
   (type p = Some "sell" -> lt (price pd) th = false) ->
     CryptoAgent.executeTrade env p = Ok (trade_record env p pd)).

Definition infinite_approval_message : string :=
  "Infinite approval detected - consider limiting approval amount".


(** A contract call [method(args...)] on [addr]. *)
Definition contract_params (addr method : string) (args : list JsValue) : TaskParams :=
  {| symbol := None; address := Some addr; type := None; amount := None;
     token := None; priceThreshold := None; txHash := None; abi := Some [];
     method := Some method; params := Some args |}.


(** The string has no [:]. *)
Fixpoint colon_free (s : string) : bool :=
  match s with
  | EmptyString => true
  | String c s' => negb (Ascii.eqb c ":") && colon_free s'
  end.

(** A rule as [setupMarketAnalysis] stores it, with the given interval. *)
Definition market_rule (interval : option number) : AutomationRule :=
  {| condition := "market_analysis"; action := "analyze_market";
     rule_params := no_params; interval := interval |}.

(** A number above zero. *)
Definition positive_number (x : number) : Prop := gt x (num 0) = true.

(** The assets with a strictly positive 24h change, in input order. *)
Definition positive_changes (cryptos : list Crypto) : list Crypto :=
  List.filter (fun crypto => gt (price_change_percentage_24h crypto) (num 0)) cryptos.

(** [a] does not have a smaller 24h change than [b]. *)
Definition change_not_below (a b : Crypto) : Prop :=
  lt (price_change_percentage_24h a) (price_change_percentage_24h b) = false.

(** Every 24h change of the listing is a stored binary64 value. *)
Definition valid_changes (cryptos : list Crypto) : Prop :=
  Forall (fun crypto => valid (price_change_percentage_24h crypto) = true) cryptos.

Definition market_stats (change : number) : MarketStats :=
  {| total_market_cap_usd := num 0; market_cap_change_percentage_24h_usd := change |}.

Definition crypto (name : string) (change : number) : Crypto :=
  {| coin_symbol := name; price_change_percentage_24h := change |}.

(** A market client that reports the listing [cryptos] and a global
    market-cap change of [change]. *)
Definition market_env (cryptos : list Crypto) (change : number) : Env :=
  {| market_getPrice := fun _ => throw_new_Error "unused";
     market_getTopCryptos := fun _ => Ok cryptos;
     market_getMarketStats := Ok (market_stats change);
     wallet_getBalance := fun _ => throw_new_Error "unused";
     transactionManager_getTransactionHistory := fun _ => throw_new_Error "unused";
     transactionManager_getTransactionStatus := fun _ => throw_new_Error "unused";
     transactionManager_getGasPrice := throw_new_Error "unused";
     contractManager_estimateContractGas := fun _ _ _ _ => throw_new_Error "unused";
     Date_toISOString := "2024-01-01T00:00:00.000Z";
     number_digits := fun _ => "" |}.

(** C6 as worded, on the part that fails: the recommendations
    of every analysis hold exactly one line. *)
Definition analyze_market_claim (env : Env) : Prop :=
  forall cryptos stats,
    market_getTopCryptos env 10 = Ok cryptos ->
    market_getMarketStats env = Ok stats ->
    exists line,
      CryptoAgent.analyzeMarket env no_params =
        Ok (MarketAnalysis (CryptoAgent.identifyTopPerformers cryptos)
              (CryptoAgent.calculateMarketSentiment stats) [line]).

(** [a] does not rank below [b] in the strict order [below]. *)
Definition not_below {A : Type} (below : A -> A -> bool) (a b : A) : Prop :=
  below a b = false.

Section RuleVocabulary.
Import AutomationAgent.

(** C2 as worded: after a successful [removeRule(id)] the id is
    absent from [getActiveRules()], and a second [removeRule(id)] returns
    false. *)
Definition removeRule_claim (st : State) (id : Z) : Prop :=
  0 <= id < Z.of_nat (length (rules st)) ->
  fst (removeRule id st) = true /\
  (id ∉ map ruleId (getActiveRules (snd (removeRule id st)))) /\
  fst (removeRule id (snd (removeRule id st))) = false.

(** The monitor invariant, for a predicate [set] saying when a rule's
    interval counts as set: a monitor exists for [r] iff slot [r] holds a
    rule whose interval is set and [r] was not stopped since it was added.
    Only allocated ids are ever stopped. *)
Definition monitor_invariant (set : option number -> Prop)
    (st : State) (stopped : gset Z) : Prop :=
  (forall r, r ∈ stopped -> 0 <= r < Z.of_nat (length (rules st))) /\
  (forall r,
     is_Some (activeMonitors st !! r) <->
     exists rule, rules_at st r = Some (Some rule)
                  /\ set (interval rule) /\ r ∉ stopped).

(** The interval passes the guard [if (rule.interval)]. *)
Definition interval_truthy (i : option number) : Prop := truthy_opt i = true.

(** The interval is present, whatever its value. *)
Definition interval_present (i : option number) : Prop := is_Some i.

(** C3 as worded, with "interval is set" read as "present". *)
Definition monitor_claim (ops : list Op) : Prop :=
  monitor_invariant interval_present
    (fst (run ops init ∅)) (snd (run ops init ∅)).

(** The timer table agrees with the monitor map: every monitor's handle is
    a live timer issued earlier, every live timer is the handle of a monitor,
    and no two monitors share a handle. *)
Definition timers_owned (st : State) : Prop :=
  (forall r t, activeMonitors st !! r = Some t ->
     (t < next_timeout st)%positive /\ is_Some (timers st !! t)) /\
  (forall t, is_Some (timers st !! t) ->
     exists r, activeMonitors st !! r = Some t) /\
  (forall r1 r2 t, activeMonitors st !! r1 = Some t ->
     activeMonitors st !! r2 = Some t -> r1 = r2).

(** The number of [addRule] calls of a history. *)
Fixpoint count_adds (ops : list Op) : nat :=
  match ops with
  | [] => 0
  | OpAddRule _ :: ops' => S (count_adds ops')
  | _ :: ops' => count_adds ops'
  end.

End RuleVocabulary.

(** The transactions of the blocks [startBlock .. currentBlock] that involve
    [address], in block order, when block [i] is [blocks i]. *)
Definition relevant_history (address : option string) (blocks : Z -> Block)
    (startBlock currentBlock : Z) : list TransactionResponse :=
  flat_map (fun i => List.filter (TransactionManager.relevant address)
                       (transactions (blocks i)))
    (seqZ startBlock (currentBlock - startBlock + 1)).

(** The four statuses [getTransactionStatus] reports. *)
Definition transaction_statuses : list string :=
  ["Not Found"; "Pending"; "Confirmed"; "Failed"].

Definition increase_gas_price : string :=
  "Consider increasing gas price for faster confirmation".

Section SetupVocabulary.
Import AutomationAgent.

(** The outcome [r] of a setup call on [st]: the rule is stored under the
    next id, with interval [period], and a fresh timer of that period
    evaluates it. *)
Definition monitored_with (period : number) (st : State) (r : Z * State) : Prop :=
  fst r = Z.of_nat (length (rules st)) /\
  exists rule,
    rules_at (snd r) (fst r) = Some (Some rule) /\
    interval rule = Some period /\
    activeMonitors (snd r) !! fst r = Some (next_timeout st) /\
    timers (snd r) !! next_timeout st = Some (rule, period).

(** The outcome [r] of a setup call on [st]: the rule is stored under the
    next id, with interval [period], and no monitor or timer was created. *)
Definition stored_unmonitored (period : number) (st : State) (r : Z * State) : Prop :=
  fst r = Z.of_nat (length (rules st)) /\
  (exists rule, rules_at (snd r) (fst r) = Some (Some rule)
                /\ interval rule = Some period) /\
  activeMonitors (snd r) = activeMonitors st /\
  timers (snd r) = timers st.

End SetupVocabulary.

(** [z] is the greatest integer not above the value of [x]. *)
Definition floor_of (x : number) (z : Z) : Prop :=
  match x with
  | S754_zero _ => z = 0
  | S754_finite s m e =>
      z * 2 ^ Z.max 0 (- e) <= cond_Zopp s (Zpos m) * 2 ^ Z.max 0 e
        < (z + 1) * 2 ^ Z.max 0 (- e)
  | _ => False
  end.


(** * Properties *)

(** ** The task registry *)

Section Registry.
Variable env : Env.

Lemma tasks_check_price :
  CryptoAgent.tasks env !! "check_price" = Some (CryptoAgent.checkPrice env).
Proof. reflexivity. Qed.

Lemma tasks_monitor_wallet :
  CryptoAgent.tasks env !! "monitor_wallet" = Some (CryptoAgent.monitorWallet env).
Proof. reflexivity. Qed.

Lemma tasks_execute_trade :
  CryptoAgent.tasks env !! "execute_trade" = Some (CryptoAgent.executeTrade env).
Proof. reflexivity. Qed.

Lemma tasks_analyze_market :
  CryptoAgent.tasks env !! "analyze_market" = Some (CryptoAgent.analyzeMarket env).
Proof. reflexivity. Qed.

Lemma tasks_smart_contract_interaction :
  CryptoAgent.tasks env !! "smart_contract_interaction"
  = Some (CryptoAgent.interactWithContract env).
Proof. reflexivity. Qed.

(** The registry holds exactly the six built-in names. *)
Lemma tasks_registered (name : string) :
  is_Some (CryptoAgent.tasks env !! name) <-> name ∈ registered_names.
Proof.
  unfold CryptoAgent.tasks, CryptoAgent.initializeTasks, CryptoAgent.Map_of_entries.
  unfold registered_names. cbn [fold_left fst snd].
  rewrite !lookup_insert_is_Some, lookup_empty, is_Some_alt.
  rewrite !elem_of_cons, elem_of_nil.
  intuition congruence.
Qed.

Lemma tasks_unregistered (name : string) :
  name ∉ registered_names -> CryptoAgent.tasks env !! name = None.
Proof.
  intros Hname. apply eq_None_not_Some. now rewrite tasks_registered.
Qed.

(** What [executeTask] returns once the registry lookup and the handler's
    outcome are known. *)
Lemma executeTask_handler (name : string) (p : TaskParams) (task : CryptoAgent.Task) :
  CryptoAgent.tasks env !! name = Some task ->
  CryptoAgent.executeTask env name p =
    match task p with
    | Ok v => Ok {| success := true; data := Some v; error := None |}
    | Throw e => Ok {| success := false; data := None; error := Some (message e) |}
    end.
Proof.
  intros Hreg. unfold CryptoAgent.executeTask. rewrite Hreg.
  destruct (task p); reflexivity.
Qed.

End Registry.

(** C1. [executeTask(name, params)] never raises.  For a name that is not
    registered (none of the six built-in names) it returns
    [{success:false, error:"Task '<name>' not found"}]; for a registered name
    whose handler completes with [v] it returns [{success:true, data:v}]; for
    a registered name whose handler throws it returns
    [{success:false, error:<the error's message>}]. *)
Theorem executeTask_uniform_result (env : Env) (name : string) (p : TaskParams) :
  (exists r, CryptoAgent.executeTask env name p = Ok r) /\
  (name ∉ registered_names \/ CryptoAgent.tasks env !! name = None ->
   CryptoAgent.executeTask env name p =
     Ok {| success := false; data := None;
           error := Some ("Task '" +:+ name +:+ "' not found") |}) /\
  (forall task v,
     CryptoAgent.tasks env !! name = Some task -> task p = Ok v ->
     CryptoAgent.executeTask env name p =
       Ok {| success := true; data := Some v; error := None |}) /\
  (forall task e,
     CryptoAgent.tasks env !! name = Some task -> task p = Throw e ->
     CryptoAgent.executeTask env name p =
       Ok {| success := false; data := None; error := Some (message e) |}).
Proof.
  split; [|split; [|split]].
  - unfold CryptoAgent.executeTask.
    destruct (CryptoAgent.tasks env !! name) as [task|]; [|eauto].
    destruct (task p); cbn; eauto.
  - intros Hname.
    assert (CryptoAgent.tasks env !! name = None) as Hnone
      by (destruct Hname as [Hname|Hname]; [now apply tasks_unregistered|exact Hname]).
    unfold CryptoAgent.executeTask. now rewrite Hnone.
  - intros task v Hreg Hv. rewrite (executeTask_handler env name p task Hreg).
    now rewrite Hv.
  - intros task e Hreg He. rewrite (executeTask_handler env name p task Hreg).
    now rewrite He.
Qed.

(** The three cases of C1 on concrete calls: an unknown name, a price check
    that completes, and a price check whose client fails. *)
Lemma executeTask_uniform_result_witness :
  CryptoAgent.executeTask (failing_env "timeout") "mine_bitcoin" no_params
    = Ok {| success := false; data := None;
            error := Some "Task 'mine_bitcoin' not found" |} /\
  CryptoAgent.executeTask (sample_env (sample_price (num 100) (num 0)))
      "check_price" (check_price_params (Some "btc"))
    = Ok {| success := true;
            data := Some (PriceCheck (num 100) (num 0) "Market Stable");
            error := None |} /\
  CryptoAgent.executeTask (failing_env "timeout")
      "check_price" (check_price_params (Some "btc"))
    = Ok {| success := false; data := None; error := Some "timeout" |}.
Proof.
  split; [|split].
  - apply (proj1 (proj2 (executeTask_uniform_result
                           (failing_env "timeout") "mine_bitcoin" no_params))).
    left. unfold registered_names. rewrite !elem_of_cons, elem_of_nil.
    intros Hin. repeat (destruct Hin as [Hin|Hin]; [discriminate Hin|]). exact Hin.
  - apply (proj1 (proj2 (proj2 (executeTask_uniform_result
                           (sample_env (sample_price (num 100) (num 0)))
                           "check_price" (check_price_params (Some "btc")))))
             (CryptoAgent.checkPrice (sample_env (sample_price (num 100) (num 0))))).
    + reflexivity.
    + reflexivity.
  - apply (proj2 (proj2 (proj2 (executeTask_uniform_result
                           (failing_env "timeout")
                           "check_price" (check_price_params (Some "btc")))))
             (CryptoAgent.checkPrice (failing_env "timeout"))
             {| message := "timeout" |}).
    + reflexivity.
    + reflexivity.
Defined.

(** ** Thresholds on the 24h change *)

(** A number above 5 is not below -5: the two comparisons read the sign. *)
Lemma above5_not_below_minus5 (c : number) :
  gt c (num 5) = true -> lt c (num (-5)) = false.
Proof.
  destruct c as [s|s| |s m e]; try destruct s; cbn; try discriminate; reflexivity.
Qed.

(** The three-way split on a percentage that the price recommendation and
    the market sentiment share. *)
Lemma threshold_split (c : number) (hi lo mid : string) :
  hi <> lo -> hi <> mid -> lo <> mid ->
  let r := if gt c (num 5) then hi else if lt c (num (-5)) then lo else mid in
  (r = hi <-> gt c (num 5) = true) /\
  (r = lo <-> lt c (num (-5)) = true) /\
  (r = mid <-> gt c (num 5) = false /\ lt c (num (-5)) = false).
Proof.
  intros Hhl Hhm Hlm r. subst r.
  pose proof (above5_not_below_minus5 c) as Hex.
  destruct (gt c (num 5)) eqn:Hgt.
  - rewrite (Hex eq_refl).
    repeat split; try congruence; intros [? ?]; congruence.
  - destruct (lt c (num (-5))) eqn:Hlt;
      repeat split; try congruence; intros [? ?]; congruence.
Qed.

(** C5. The recommendation of [check_price] is "Consider Taking Profits"
    iff [change24h > 5], "Potential Buying Opportunity" iff
    [change24h < -5], and "Market Stable" otherwise; at [change24h = 5]
    exactly it is not "Consider Taking Profits"; and [check_price] reports
    exactly this recommendation for the datum the market client returns. *)
Theorem check_price_recommendation (env : Env) (p : TaskParams) (priceData : PriceData) :
  (CryptoAgent.analyzePriceMovement priceData = "Consider Taking Profits"
     <-> gt (change24h priceData) (num 5) = true) /\
  (CryptoAgent.analyzePriceMovement priceData = "Potential Buying Opportunity"
     <-> lt (change24h priceData) (num (-5)) = true) /\
  (CryptoAgent.analyzePriceMovement priceData = "Market Stable"
     <-> gt (change24h priceData) (num 5) = false
         /\ lt (change24h priceData) (num (-5)) = false) /\
  (change24h priceData = num 5 ->
     CryptoAgent.analyzePriceMovement priceData = "Market Stable") /\
  (market_getPrice env (symbol p) = Ok priceData ->
     CryptoAgent.checkPrice env p =
       Ok (PriceCheck (price priceData) (change24h priceData)
             (CryptoAgent.analyzePriceMovement priceData))).
Proof.
  pose proof (threshold_split (change24h priceData)
                "Consider Taking Profits" "Potential Buying Opportunity"
                "Market Stable") as H.
  cbv zeta in H. fold (CryptoAgent.analyzePriceMovement priceData) in H.
  destruct H as (H1 & H2 & H3); try discriminate.
  repeat split; try tauto.
  - intros Hc. unfold CryptoAgent.analyzePriceMovement. now rewrite Hc.
  - intros Hget. unfold CryptoAgent.checkPrice. now rewrite Hget.
Qed.

(** C5 at the boundary: a change of exactly 5 is "Market Stable"; the next
    binary64 value above 5, and 5.0001, are "Consider Taking Profits". *)
Lemma check_price_recommendation_witness :
  CryptoAgent.analyzePriceMovement (sample_price (num 100) (num 5)) = "Market Stable" /\
  CryptoAgent.analyzePriceMovement
    (sample_price (num 100) (S754_finite false 5629499534213121 (-50)))
    = "Consider Taking Profits" /\
  CryptoAgent.analyzePriceMovement (sample_price (num 100) (parseFloat "5.0001"))
    = "Consider Taking Profits" /\
  CryptoAgent.checkPrice (sample_env (sample_price (num 100) (num (-6))))
      (check_price_params (Some "btc"))
    = Ok (PriceCheck (num 100) (num (-6)) "Potential Buying Opportunity").
Proof.
  pose proof (check_price_recommendation
                (sample_env (sample_price (num 100) (num 5)))
                (check_price_params (Some "btc"))
                (sample_price (num 100) (num 5))) as (_ & _ & _ & H5 & _).
  pose proof (check_price_recommendation
                (sample_env (sample_price (num 100) (num 5)))
                (check_price_params (Some "btc"))
                (sample_price (num 100) (S754_finite false 5629499534213121 (-50))))
    as (Habove & _).
  pose proof (check_price_recommendation
                (sample_env (sample_price (num 100) (num 5)))
                (check_price_params (Some "btc"))
                (sample_price (num 100) (parseFloat "5.0001")))
    as (Hspec & _).
  pose proof (check_price_recommendation
                (sample_env (sample_price (num 100) (num (-6))))
                (check_price_params (Some "btc"))
                (sample_price (num 100) (num (-6)))) as (_ & _ & _ & _ & Hrun).
  split; [|split; [|split]].
  - apply H5. reflexivity.
  - apply Habove. reflexivity.
  - apply Hspec. reflexivity.
  - rewrite (Hrun eq_refl). reflexivity.
Defined.

(** ** execute_trade *)

Lemma executeTrade_unguarded (env : Env) (p : TaskParams) (pd : PriceData) :
  truthy_opt (priceThreshold p) = false ->
  market_getPrice env (token p) = Ok pd ->
  CryptoAgent.executeTrade env p = Ok (trade_record env p pd).
Proof.
  intros Hth Hget. unfold CryptoAgent.executeTrade. rewrite Hget. cbn.
  now rewrite Hth.
Qed.

Lemma executeTrade_guarded (env : Env) (p : TaskParams) (th : number) (pd : PriceData) :
  priceThreshold p = Some th -> truthy th = true ->
  market_getPrice env (token p) = Ok pd ->
  CryptoAgent.executeTrade env p =
    if bool_decide (type p = Some "buy") && gt (price pd) th
    then throw_new_Error "Price above threshold"
    else if bool_decide (type p = Some "sell") && lt (price pd) th
    then throw_new_Error "Price below threshold"
    else Ok (trade_record env p pd).
Proof.
  intros Hth Htruthy Hget. unfold CryptoAgent.executeTrade.
  rewrite Hget, Hth. cbn. rewrite Htruthy.
  destruct (bool_decide (type p = Some "buy") && gt (price pd) th); [reflexivity|].
  destruct (bool_decide (type p = Some "sell") && lt (price pd) th); reflexivity.
Qed.

(** Counterexample to C4 as worded: a buy of a token priced 100 with
    [priceThreshold] 0 is above the threshold, yet it is executed. *)
Lemma execute_trade_claim_fails_at_zero :
  ~ execute_trade_claim (sample_env (sample_price (num 100) (num 0)))
      (trade_params "buy" "eth" "0.1" (Some (num 0)))
      (num 0) (sample_price (num 100) (num 0)).
Proof.
  intros H. destruct (H eq_refl eq_refl) as (Hbuy & _).
  specialize (Hbuy eq_refl eq_refl). discriminate Hbuy.
Qed.

(** C4, amended: for a threshold that is given and is not zero, a buy at a
    price strictly above it fails with "Price above threshold", a sell at a
    price strictly below it fails with "Price below threshold", and every
    other call returns [{type, amount, token, executionPrice, timestamp}]
    with the fetched price as [executionPrice]; [executeTask] reports the
    handler's outcome in the uniform result. *)
Theorem execute_trade_threshold (env : Env) (p : TaskParams) (th : number)
    (pd : PriceData) :
  (forall s, th <> S754_zero s) ->
  priceThreshold p = Some th ->
  market_getPrice env (token p) = Ok pd ->
  (type p = Some "buy" -> gt (price pd) th = true ->
     CryptoAgent.executeTrade env p = throw_new_Error "Price above threshold"
     /\ CryptoAgent.executeTask env "execute_trade" p =
          Ok {| success := false; data := None;
                error := Some "Price above threshold" |}) /\
  (type p = Some "sell" -> lt (price pd) th = true ->
     CryptoAgent.executeTrade env p = throw_new_Error "Price below threshold"
     /\ CryptoAgent.executeTask env "execute_trade" p =
          Ok {| success := false; data := None;
                error := Some "Price below threshold" |}) /\
  ((type p = Some "buy" -> gt (price pd) th = false) ->
   (type p = Some "sell" -> lt (price pd) th = false) ->
     CryptoAgent.executeTrade env p = Ok (trade_record env p pd)
     /\ CryptoAgent.executeTask env "execute_trade" p =
          Ok {| success := true; data := Some (trade_record env p pd);
                error := None |}).
Proof.
  intros Hnz Hth Hget.
  rewrite (executeTask_handler env "execute_trade" p _ (tasks_execute_trade env)).
  destruct (truthy th) eqn:Htruthy.
  - rewrite (executeTrade_guarded env p th pd Hth Htruthy Hget).
    split; [|split].
    + intros Hbuy Habove. rewrite Hbuy, Habove.
      rewrite bool_decide_eq_true_2 by reflexivity. split; reflexivity.
    + intros Hsell Hbelow. rewrite Hsell, Hbelow.
      rewrite bool_decide_eq_false_2 by discriminate.
      rewrite bool_decide_eq_true_2 by reflexivity. split; reflexivity.
    + intros Hbuy Hsell.
      case_bool_decide as Hb; [rewrite (Hbuy Hb)|];
        (case_bool_decide as Hs; [rewrite (Hsell Hs)|]); split; reflexivity.
  - assert (th = NaN) as ->.
    { destruct th as [s| | |]; try discriminate; [|reflexivity].
      now destruct (Hnz s). }
    assert (truthy_opt (priceThreshold p) = false) as Hfalsy by now rewrite Hth.
    rewrite (executeTrade_unguarded env p pd Hfalsy Hget).
    assert (forall x, gt x NaN = false) as Hgt by (intros []; reflexivity).
    assert (forall x, lt x NaN = false) as Hlt by (intros []; reflexivity).
    split; [|split].
    + intros _ Habove. rewrite Hgt in Habove. discriminate Habove.
    + intros _ Hbelow. rewrite Hlt in Hbelow. discriminate Hbelow.
    + intros _ _. split; reflexivity.
Qed.

(** C4 on concrete calls with threshold 3000: a buy at 3500 fails, a sell at
    2500 fails, a buy at 2500 is executed at 2500. *)
Lemma execute_trade_threshold_witness :
  CryptoAgent.executeTask (sample_env (sample_price (num 3500) (num 0)))
      "execute_trade" (trade_params "buy" "eth" "0.1" (Some (num 3000)))
    = Ok {| success := false; data := None; error := Some "Price above threshold" |} /\
  CryptoAgent.executeTask (sample_env (sample_price (num 2500) (num 0)))
      "execute_trade" (trade_params "sell" "eth" "0.1" (Some (num 3000)))
    = Ok {| success := false; data := None; error := Some "Price below threshold" |} /\
  CryptoAgent.executeTrade (sample_env (sample_price (num 2500) (num 0)))
      (trade_params "buy" "eth" "0.1" (Some (num 3000)))
    = Ok (TradeExecution (Some "buy") (Some "0.1") (Some "eth") (num 2500)
            "2024-01-01T00:00:00.000Z").
Proof.
  assert (forall s, num 3000 <> S754_zero s) as Hnz by (intros s; discriminate).
  split; [|split].
  - apply (execute_trade_threshold
             (sample_env (sample_price (num 3500) (num 0)))
             (trade_params "buy" "eth" "0.1" (Some (num 3000)))
             (num 3000) (sample_price (num 3500) (num 0)) Hnz eq_refl eq_refl);
      reflexivity.
  - apply (execute_trade_threshold
             (sample_env (sample_price (num 2500) (num 0)))
             (trade_params "sell" "eth" "0.1" (Some (num 3000)))
             (num 3000) (sample_price (num 2500) (num 0)) Hnz eq_refl eq_refl);
      reflexivity.
  - apply (execute_trade_threshold
             (sample_env (sample_price (num 2500) (num 0)))
             (trade_params "buy" "eth" "0.1" (Some (num 3000)))
             (num 3000) (sample_price (num 2500) (num 0)) Hnz eq_refl eq_refl).
    + intros _. reflexivity.
    + intros Hsell. discriminate Hsell.
Defined.

(** C10. With [priceThreshold] equal to 0 (of either sign), [execute_trade]
    behaves exactly as with no threshold: the guard is skipped, and whenever
    the price is fetched the trade is executed and reported as a success at
    that price, for a buy as for a sell. *)
Theorem execute_trade_zero_threshold (env : Env) (p : TaskParams) (s : bool) :
  priceThreshold p = Some (S754_zero s) ->
  CryptoAgent.executeTrade env p
    = CryptoAgent.executeTrade env (with_priceThreshold p None) /\
  CryptoAgent.executeTask env "execute_trade" p
    = CryptoAgent.executeTask env "execute_trade" (with_priceThreshold p None) /\
  (forall pd, market_getPrice env (token p) = Ok pd ->
     CryptoAgent.executeTrade env p = Ok (trade_record env p pd) /\
     CryptoAgent.executeTask env "execute_trade" p =
       Ok {| success := true; data := Some (trade_record env p pd);
             error := None |}).
Proof.
  intros Hth.
  assert (CryptoAgent.executeTrade env p
          = CryptoAgent.executeTrade env (with_priceThreshold p None)) as Heq.
  { unfold CryptoAgent.executeTrade. rewrite Hth. reflexivity. }
  rewrite !(executeTask_handler env "execute_trade" _ _ (tasks_execute_trade env)).
  split; [exact Heq|]. split; [now rewrite Heq|].
  intros pd Hget.
  assert (truthy_opt (priceThreshold p) = false) as Hfalsy by now rewrite Hth.
  now rewrite (executeTrade_unguarded env p pd Hfalsy Hget).
Qed.

(** C10 on a concrete call: a buy with threshold 0 of a token priced 100 is
    executed at 100. *)
Lemma execute_trade_zero_threshold_witness :
  CryptoAgent.executeTask (sample_env (sample_price (num 100) (num 0)))
      "execute_trade" (trade_params "buy" "eth" "0.1" (Some (num 0)))
    = Ok {| success := true;
            data := Some (TradeExecution (Some "buy") (Some "0.1") (Some "eth")
                            (num 100) "2024-01-01T00:00:00.000Z");
            error := None |}.
Proof.
  apply (proj2 (proj2 (execute_trade_zero_threshold
           (sample_env (sample_price (num 100) (num 0)))
           (trade_params "buy" "eth" "0.1" (Some (num 0))) false eq_refl))
           (sample_price (num 100) (num 0)) eq_refl).
Defined.

(** ** smart_contract_interaction *)

(** The validation pass on an [approve] of the all-f value. *)
Lemma validateContractInteraction_infinite (args : list JsValue) :
  args !! 1%nat = Some (VString CryptoAgent.infinite_approval) ->
  CryptoAgent.validateContractInteraction (Some "approve") args
    = throw_new_Error infinite_approval_message.
Proof.
  intros Harg. unfold CryptoAgent.validateContractInteraction.
  cbn [includes CryptoAgent.riskyMethods existsb].
  replace (String.eqb "approve" "transfer") with false by reflexivity.
  replace (String.eqb "approve" "approve") with true by reflexivity.
  cbn [orb]. unfold CryptoAgent.validateHighRiskOperation.
  rewrite Harg. reflexivity.
Qed.




(** ** The alert threshold suggested after a price check *)

(** [num_0_95] is the binary64 value of the literal [0.95]: the conversion of
    the decimal gives it, and it lies within half a unit in the last place of
    95/100. *)
Lemma num_0_95_is_literal :
  parseFloat "0.95" = num_0_95 /\
  valid num_0_95 = true /\
  2 * Z.abs (100 * 8556839292003942 - 95 * 2 ^ 53) <= 100.
Proof. split; [reflexivity|]. split; [reflexivity|]. vm_compute. discriminate. Qed.

(** The suggested thresholds for the prices 100 and 50000. *)
Lemma alert_threshold_examples (digits : number -> string) :
  Math_floor (mul (num 100) num_0_95) = num 95 /\
  Number_toString digits (Math_floor (mul (num 100) num_0_95)) = "95" /\
  Math_floor (mul (num 50000) num_0_95) = num 47500 /\
  Number_toString digits (Math_floor (mul (num 50000) num_0_95)) = "47500".
Proof. repeat split; reflexivity. Qed.


(** ** Rule conditions *)

Lemma split_nonempty (sep : ascii) (s : string) : split sep s <> [].
Proof.
  destruct s as [|c s]; cbn; [discriminate|].
  destruct (Ascii.eqb c sep); [discriminate|].
  destruct (split sep s); discriminate.
Qed.

(** Splitting at the first colon. *)
Lemma split_first (s t : string) :
  colon_free s = true ->
  split ":" (s +:+ String ":" t) = s :: split ":" t.
Proof.
  induction s as [|c s IH]; intros Hfree.
  - reflexivity.
  - cbn in Hfree. apply andb_prop in Hfree as [Hc Hs].
    change (String c s +:+ String ":" t) with (String c (s +:+ String ":" t)).
    cbn [split]. apply negb_true_iff in Hc. rewrite Hc.
    now rewrite (IH Hs).
Qed.

Lemma split_colon_free (s : string) :
  colon_free s = true -> split ":" s = [s].
Proof.
  induction s as [|c s IH]; intros Hfree.
  - reflexivity.
  - cbn in Hfree. apply andb_prop in Hfree as [Hc Hs].
    cbn [split]. apply negb_true_iff in Hc. rewrite Hc.
    now rewrite (IH Hs).
Qed.

(** A condition [type:arg1:arg2] splits into its three parts. *)
Lemma split_condition (type arg1 arg2 : string) :
  colon_free type = true -> colon_free arg1 = true -> colon_free arg2 = true ->
  split ":" (type +:+ String ":" (arg1 +:+ String ":" arg2)) = [type; arg1; arg2].
Proof.
  intros Ht H1 H2.
  now rewrite (split_first _ _ Ht), (split_first _ _ H1), (split_colon_free _ H2).
Qed.

Section Conditions.
Variable env : Env.

(** The price check, as a function of what the market client answers. *)
Lemma executeTask_check_price (sym : option string) :
  CryptoAgent.executeTask env "check_price" (check_price_params sym) =
    match market_getPrice env sym with
    | Ok pd =>
        Ok {| success := true;
              data := Some (PriceCheck (price pd) (change24h pd)
                              (CryptoAgent.analyzePriceMovement pd));
              error := None |}
    | Throw e => Ok {| success := false; data := None; error := Some (message e) |}
    end.
Proof.
  rewrite (executeTask_handler env "check_price" _ _ (tasks_check_price env)).
  unfold CryptoAgent.checkPrice, check_price_params. cbn.
  destruct (market_getPrice env sym); reflexivity.
Qed.

(** The wallet check, as a function of what the wallet and the transaction
    manager answer. *)
Lemma executeTask_monitor_wallet (addr : option string) :
  CryptoAgent.executeTask env "monitor_wallet" (monitor_wallet_params addr) =
    match wallet_getBalance env addr with
    | Ok balance =>
        match transactionManager_getTransactionHistory env addr with
        | Ok txs =>
            Ok {| success := true;
                  data := Some (WalletReport balance
                                  (drop (length txs - 5)%nat txs)
                                  (CryptoAgent.assessWalletSecurity txs));
                  error := None |}
        | Throw e => Ok {| success := false; data := None; error := Some (message e) |}
        end
    | Throw e => Ok {| success := false; data := None; error := Some (message e) |}
    end.
Proof.
  rewrite (executeTask_handler env "monitor_wallet" _ _ (tasks_monitor_wallet env)).
  unfold CryptoAgent.monitorWallet, monitor_wallet_params. cbn.
  destruct (wallet_getBalance env addr); [|reflexivity]. cbn.
  destruct (transactionManager_getTransactionHistory env addr); reflexivity.
Qed.

(** [evaluateCondition] on a condition whose parts are known. *)
Lemma evaluateCondition_price (condition : string) (args : list string) :
  split ":" condition = "price_below_threshold" :: args ->
  AutomationAgent.evaluateCondition env condition =
    match market_getPrice env (args !! 0%nat) with
    | Ok pd => Ok (lt (price pd) (parseFloat_opt (args !! 1%nat)))
    | Throw _ => Ok false
    end.
Proof.
  intros Hsplit. unfold AutomationAgent.evaluateCondition. rewrite Hsplit.
  replace (String.eqb "price_below_threshold" "price_below_threshold")
    with true by reflexivity.
  rewrite executeTask_check_price.
  destruct (market_getPrice env (args !! 0%nat)); reflexivity.
Qed.

Lemma evaluateCondition_wallet (condition : string) (args : list string) :
  split ":" condition = "wallet_balance_above" :: args ->
  AutomationAgent.evaluateCondition env condition =
    match wallet_getBalance env (args !! 0%nat) with
    | Ok balance =>
        match transactionManager_getTransactionHistory env (args !! 0%nat) with
        | Ok _ => Ok (gt (parseFloat balance) (parseFloat_opt (args !! 1%nat)))
        | Throw _ => Ok false
        end
    | Throw _ => Ok false
    end.
Proof.
  intros Hsplit. unfold AutomationAgent.evaluateCondition. rewrite Hsplit.
  replace (String.eqb "wallet_balance_above" "price_below_threshold")
    with false by reflexivity.
  replace (String.eqb "wallet_balance_above" "wallet_balance_above")
    with true by reflexivity.
  rewrite executeTask_monitor_wallet.
  destruct (wallet_getBalance env (args !! 0%nat)); [|reflexivity].
  destruct (transactionManager_getTransactionHistory env (args !! 0%nat));
    reflexivity.
Qed.

Lemma evaluateCondition_unknown (condition type : string) (args : list string) :
  split ":" condition = type :: args ->
  type <> "price_below_threshold" -> type <> "wallet_balance_above" ->
  AutomationAgent.evaluateCondition env condition = Ok false.
Proof.
  intros Hsplit Hp Hw. unfold AutomationAgent.evaluateCondition. rewrite Hsplit.
  apply String.eqb_neq in Hp, Hw. now rewrite Hp, Hw.
Qed.

End Conditions.

(** C7. [price_below_threshold:symbol:threshold] evaluates to true iff the
    price check for [symbol] succeeds and the returned price is strictly less
    than [threshold]; [wallet_balance_above:address:minBalance] evaluates to
    true iff the wallet check succeeds and the returned balance is strictly
    greater than [minBalance]; a condition whose type is neither evaluates
    to false.  No evaluation raises. *)
Theorem rule_condition_evaluation (env : Env) :
  (forall symbol threshold,
     colon_free symbol = true -> colon_free threshold = true ->
     exists b,
       AutomationAgent.evaluateCondition env
         ("price_below_threshold:" +:+ symbol +:+ ":" +:+ threshold) = Ok b /\
       (b = true <->
        exists r p c rec,
          CryptoAgent.executeTask env "check_price" (check_price_params (Some symbol))
            = Ok r
          /\ success r = true
          /\ data r = Some (PriceCheck p c rec)
          /\ lt p (parseFloat threshold) = true)) /\
  (forall address minBalance,
     colon_free address = true -> colon_free minBalance = true ->
     exists b,
       AutomationAgent.evaluateCondition env
         ("wallet_balance_above:" +:+ address +:+ ":" +:+ minBalance) = Ok b /\
       (b = true <->
        exists r balance txs status,
          CryptoAgent.executeTask env "monitor_wallet"
            (monitor_wallet_params (Some address)) = Ok r
          /\ success r = true
          /\ data r = Some (WalletReport balance txs status)
          /\ gt (parseFloat balance) (parseFloat minBalance) = true)) /\
  (forall condition type args,
     split ":" condition = type :: args ->
     type <> "price_below_threshold" -> type <> "wallet_balance_above" ->
     AutomationAgent.evaluateCondition env condition = Ok false).
Proof.
  split; [|split].
  - intros sym threshold Hsym Hth.
    change ("price_below_threshold:" +:+ sym +:+ ":" +:+ threshold)
      with ("price_below_threshold" +:+ String ":" (sym +:+ String ":" threshold)).
    rewrite (evaluateCondition_price env _ [sym; threshold]
               (split_condition "price_below_threshold" _ _ eq_refl Hsym Hth)).
    rewrite executeTask_check_price. cbn [lookup list_lookup parseFloat_opt ToString_opt].
    destruct (market_getPrice env (Some sym)) as [pd|e].
    + eexists. split; [reflexivity|]. split.
      * intros Hlt. do 4 eexists. repeat split; try reflexivity. exact Hlt.
      * intros (r & p & c & rec & [= <-] & _ & [= <- _ _] & Hlt). exact Hlt.
    + exists false. split; [reflexivity|]. split; [discriminate|].
      intros (r & p & c & rec & [= <-] & Hok & _). discriminate Hok.
  - intros addr minBalance Haddr Hmin.
    change ("wallet_balance_above:" +:+ addr +:+ ":" +:+ minBalance)
      with ("wallet_balance_above" +:+ String ":" (addr +:+ String ":" minBalance)).
    rewrite (evaluateCondition_wallet env _ [addr; minBalance]
               (split_condition "wallet_balance_above" _ _ eq_refl Haddr Hmin)).
    rewrite executeTask_monitor_wallet. cbn [lookup list_lookup parseFloat_opt ToString_opt].
    destruct (wallet_getBalance env (Some addr)) as [balance|e].
    + destruct (transactionManager_getTransactionHistory env (Some addr)) as [txs|e].
      * eexists. split; [reflexivity|]. split.
        -- intros Hgt. do 4 eexists. repeat split; try reflexivity. exact Hgt.
        -- intros (r & b & t & s & [= <-] & _ & [= <- _ _] & Hgt). exact Hgt.
      * exists false. split; [reflexivity|]. split; [discriminate|].
        intros (r & b & t & s & [= <-] & Hok & _). discriminate Hok.
    + exists false. split; [reflexivity|]. split; [discriminate|].
      intros (r & b & t & s & [= <-] & Hok & _). discriminate Hok.
  - intros condition type args. apply evaluateCondition_unknown.
Qed.

(** C7 on concrete conditions: the alert at 3000 fires at price 2500 and not
    at 3500; a balance of 1.5 is above 1.0; an unknown type is false. *)
Lemma rule_condition_evaluation_witness :
  AutomationAgent.evaluateCondition (sample_env (sample_price (num 2500) (num 0)))
    "price_below_threshold:eth:3000" = Ok true /\
  AutomationAgent.evaluateCondition (sample_env (sample_price (num 3500) (num 0)))
    "price_below_threshold:eth:3000" = Ok false /\
  AutomationAgent.evaluateCondition (sample_env (sample_price (num 3500) (num 0)))
    "wallet_balance_above:0xabc:1.0" = Ok true /\
  AutomationAgent.evaluateCondition (failing_env "timeout")
    "bogus_condition:x:y" = Ok false.
Proof.
  pose proof (proj1 (rule_condition_evaluation
                       (sample_env (sample_price (num 2500) (num 0))))
                "eth" "3000" eq_refl eq_refl) as (b1 & Hrun1 & Hiff1).
  pose proof (proj1 (rule_condition_evaluation
                       (sample_env (sample_price (num 3500) (num 0))))
                "eth" "3000" eq_refl eq_refl) as (b2 & Hrun2 & Hiff2).
  pose proof (proj1 (proj2 (rule_condition_evaluation
                       (sample_env (sample_price (num 3500) (num 0)))))
                "0xabc" "1.0" eq_refl eq_refl) as (b3 & Hrun3 & Hiff3).
  split; [|split; [|split]].
  - transitivity (Ok b1); [exact Hrun1|]. f_equal. apply Hiff1.
    do 4 eexists. repeat split; reflexivity.
  - transitivity (Ok b2); [exact Hrun2|]. f_equal. destruct b2; [|reflexivity].
    destruct (proj1 Hiff2 eq_refl) as (r & p & c & rec & Hr & _ & Hd & Hlt).
    vm_compute in Hr. injection Hr as <-. injection Hd as <- _ _.
    discriminate Hlt.
  - transitivity (Ok b3); [exact Hrun3|]. f_equal. apply Hiff3.
    do 4 eexists. repeat split; reflexivity.
  - apply (proj2 (proj2 (rule_condition_evaluation (failing_env "timeout")))
             "bogus_condition:x:y" "bogus_condition" ["x"; "y"] eq_refl);
      discriminate.
Defined.

(** ** The rule store *)

Section RuleStore.
Import AutomationAgent.

Lemma stopMonitoring_rules (k : Z) (st : State) :
  rules (stopMonitoring k st) = rules st.
Proof. unfold stopMonitoring. now destruct (activeMonitors st !! k). Qed.

Lemma stopMonitoring_monitors (k : Z) (st : State) :
  activeMonitors (stopMonitoring k st) = delete k (activeMonitors st).
Proof.
  unfold stopMonitoring. destruct (activeMonitors st !! k) eqn:Hk; [reflexivity|].
  symmetry. now apply delete_id.
Qed.

(** Stopping a rule that has no monitor changes nothing. *)
Lemma stopMonitoring_absent (k : Z) (st : State) :
  activeMonitors st !! k = None -> stopMonitoring k st = st.
Proof. intros Hk. unfold stopMonitoring. now rewrite Hk. Qed.

Lemma startMonitoring_rules (k : Z) (st : State) :
  rules (startMonitoring k st) = rules st.
Proof.
  unfold startMonitoring. destruct (rules_at st k) as [[rule|]|]; try reflexivity.
  now destruct (truthy_opt (interval rule)).
Qed.

Lemma addRule_rules (rule : AutomationRule) (st : State) :
  rules (addRule rule st).2 = rules st ++ [Some rule].
Proof.
  unfold addRule. cbn [snd].
  destruct (truthy_opt (interval rule)); [|reflexivity].
  now rewrite startMonitoring_rules.
Qed.

Lemma addRule_id (rule : AutomationRule) (st : State) :
  (addRule rule st).1 = Z.of_nat (length (rules st)).
Proof. reflexivity. Qed.

(** The slot of a freshly appended rule. *)
Lemma rules_at_appended (rule : AutomationRule) (st st1 : State) :
  rules st1 = rules st ++ [Some rule] ->
  rules_at st1 (Z.of_nat (length (rules st))) = Some (Some rule).
Proof.
  intros Hrules. unfold rules_at. rewrite Hrules.
  destruct (Z.leb_spec 0 (Z.of_nat (length (rules st)))); [|lia].
  rewrite Nat2Z.id, lookup_app_r, Nat.sub_diag by lia. reflexivity.
Qed.

(** [addRule] registers a monitor for the new id exactly when the rule's
    interval is truthy, and touches no other monitor. *)
Lemma addRule_monitors (rule : AutomationRule) (st : State) :
  activeMonitors (addRule rule st).2 =
    if truthy_opt (interval rule)
    then <[Z.of_nat (length (rules st)) := next_timeout st]> (activeMonitors st)
    else activeMonitors st.
Proof.
  unfold addRule. cbn [snd].
  destruct (truthy_opt (interval rule)) eqn:Htruthy; [|reflexivity].
  unfold startMonitoring.
  erewrite rules_at_appended by reflexivity.
  now rewrite Htruthy.
Qed.

Lemma removeRule_in_range (k : Z) (st : State) :
  0 <= k < Z.of_nat (length (rules st)) ->
  removeRule k st =
    (true, stopMonitoring k
             {| rules := <[Z.to_nat k := None]> (rules st);
                activeMonitors := activeMonitors st;
                timers := timers st;
                next_timeout := next_timeout st |}).
Proof.
  intros [Hlo Hhi]. unfold removeRule.
  destruct (Z.leb_spec 0 k); [|lia].
  destruct (Z.ltb_spec k (Z.of_nat (length (rules st)))); [|lia].
  reflexivity.
Qed.

Lemma removeRule_out_of_range (k : Z) (st : State) :
  ~ (0 <= k < Z.of_nat (length (rules st))) ->
  removeRule k st = (false, st).
Proof.
  intros Hout. unfold removeRule.
  destruct (Z.leb_spec 0 k); [|reflexivity].
  destruct (Z.ltb_spec k (Z.of_nat (length (rules st)))); [lia|reflexivity].
Qed.

(** The entries of [getActiveRules()] are the filled slots with their index. *)
Lemma getActiveRules_spec (st : State) (entry : ActiveRule) :
  entry ∈ getActiveRules st <->
  exists (i : nat) (r : AutomationRule),
    rules st !! i = Some (Some r)
    /\ entry = {| ruleId := Z.of_nat i; rule := Some r |}.
Proof.
  unfold getActiveRules.
  rewrite list_elem_of_In, filter_In, <- list_elem_of_In, elem_of_lookup_imap.
  rewrite bool_decide_eq_true. split.
  - intros ((i & slot & -> & Hslot) & [r Hr]). cbn in Hr. subst slot. eauto.
  - intros (i & r & Hslot & ->). split; [eauto|]. cbn. eauto.
Qed.

(** The ids of [getActiveRules()] ascend. *)
Lemma getActiveRules_ascending (st : State) :
  StronglySorted Z.lt (map ruleId (getActiveRules st)).
Proof.
  unfold getActiveRules.
  assert (forall (l : list (option AutomationRule)) (k : nat),
            StronglySorted Z.lt
              (map ruleId
                 (List.filter (fun entry => bool_decide (is_Some (rule entry)))
                    (imap (fun index rule =>
                             {| ruleId := Z.of_nat (k + index); rule := rule |}) l)))
            /\ Forall (fun z => Z.of_nat k <= z)
                 (map ruleId
                    (List.filter (fun entry => bool_decide (is_Some (rule entry)))
                       (imap (fun index rule =>
                                {| ruleId := Z.of_nat (k + index); rule := rule |}) l))))
    as Hgen.
  { induction l as [|slot l IH]; intros k.
    - split; constructor.
    - cbn [imap]. rewrite (imap_ext _ (fun index rule =>
          {| ruleId := Z.of_nat (S k + index); rule := rule |}))
        by (intros; cbn; f_equal; f_equal; lia).
      destruct (IH (S k)) as [Hsorted Hbound].
      cbn [List.filter rule].
      destruct (bool_decide (is_Some slot)); cbn [map ruleId].
      + split.
        * constructor; [exact Hsorted|].
          eapply Forall_impl; [exact Hbound|]. cbn. intros; lia.
        * constructor; [lia|].
          eapply Forall_impl; [exact Hbound|]. cbn. intros; lia.
      + split; [exact Hsorted|].
        eapply Forall_impl; [exact Hbound|]. cbn. intros; lia. }
  apply (Hgen (rules st) 0%nat).
Qed.

End RuleStore.

Section RemoveRule.
Import AutomationAgent.

(** Counterexample to C2 as worded: with one rule stored,
    [removeRule(0)] returns true both times, because the slot stays in the
    array and only the range of the id is tested. *)
Lemma removeRule_claim_fails_on_second_call :
  ~ removeRule_claim (snd (addRule (market_rule (Some (num 1000))) init)) 0.
Proof.
  intros H. destruct H as (_ & _ & Hsecond); [rewrite addRule_rules; cbn; lia|].
  vm_compute in Hsecond. discriminate Hsecond.
Qed.

(** C2, amended: for every id in [0, rule-count), [removeRule(id)] returns
    true and the id is absent from [getActiveRules()] afterwards; a second
    [removeRule(id)] returns true again and leaves the agent unchanged. *)
Theorem removeRule_twice (st : State) (id : Z) :
  0 <= id < Z.of_nat (length (rules st)) ->
  fst (removeRule id st) = true /\
  (id ∉ map ruleId (getActiveRules (snd (removeRule id st)))) /\
  rules_at (snd (removeRule id st)) id = Some None /\
  activeMonitors (snd (removeRule id st)) !! id = None /\
  removeRule id (snd (removeRule id st)) = (true, (snd (removeRule id st))).
Proof.
  intros Hrange. rewrite (removeRule_in_range id st Hrange). cbn [fst snd].
  set (st1 := stopMonitoring id _).
  assert (rules st1 = <[Z.to_nat id := None]> (rules st)) as Hrules
    by (subst st1; now rewrite stopMonitoring_rules).
  assert (activeMonitors st1 !! id = None) as Hmon
    by (subst st1; rewrite stopMonitoring_monitors; apply lookup_delete_eq).
  assert (rules_at st1 id = Some None) as Hslot.
  { unfold rules_at. destruct (Z.leb_spec 0 id); [|lia].
    rewrite Hrules. apply list_lookup_insert_eq. lia. }
  split; [reflexivity|]. split; [|split; [exact Hslot|split; [exact Hmon|]]].
  - intros Hin. apply list_elem_of_fmap in Hin as (entry & Hid & Hentry).
    apply getActiveRules_spec in Hentry as (i & r & Hi & ->). cbn in Hid. subst id.
    unfold rules_at in Hslot. destruct (Z.leb_spec 0 (Z.of_nat i)); [|lia].
    rewrite Nat2Z.id in Hslot. congruence.
  - rewrite removeRule_in_range
      by (rewrite Hrules, length_insert; exact Hrange).
    f_equal. rewrite Hrules, list_insert_insert_eq, <- Hrules.
    rewrite stopMonitoring_absent by exact Hmon.
    now destruct st1.
Qed.

(** C2 on a store holding one monitored rule. *)
Lemma removeRule_twice_witness :
  fst (removeRule 0 (snd (addRule (market_rule (Some (num 1000))) init))) = true /\
  getActiveRules (snd (removeRule 0 (snd (addRule (market_rule (Some (num 1000))) init)))) = [] /\
  fst (removeRule 0 (snd (removeRule 0 (snd (addRule (market_rule (Some (num 1000))) init)))))
    = true.
Proof.
  pose proof (removeRule_twice (snd (addRule (market_rule (Some (num 1000))) init)) 0)
    as H.
  destruct H as (Hfirst & _ & _ & _ & Hsecond); [rewrite addRule_rules; cbn; lia|].
  split; [exact Hfirst|]. split; [reflexivity|].
  now rewrite Hsecond.
Defined.

End RemoveRule.

Section Monitors.
Import AutomationAgent.

(** Stopping the rules of a list of entries: the rules stay, monitors only
    disappear, and the monitor of every listed entry is gone. *)
Lemma stop_entries_rules (l : list (Z * Timeout)) (st : State) :
  rules (fold_left (fun st entry => stopMonitoring (fst entry) st) l st) = rules st.
Proof.
  revert st. induction l as [|entry l IH]; intros st; [reflexivity|].
  cbn [fold_left]. now rewrite IH, stopMonitoring_rules.
Qed.

Lemma stop_entries_absent (l : list (Z * Timeout)) (st : State) (r : Z) :
  activeMonitors st !! r = None ->
  activeMonitors (fold_left (fun st entry => stopMonitoring (fst entry) st) l st) !! r
    = None.
Proof.
  revert st. induction l as [|entry l IH]; intros st Hr; [exact Hr|].
  cbn [fold_left]. apply IH. rewrite stopMonitoring_monitors.
  destruct (decide (fst entry = r)) as [->|Hne].
  - apply lookup_delete_eq.
  - now rewrite lookup_delete_ne.
Qed.

Lemma stop_entries_listed (l : list (Z * Timeout)) (st : State) (r : Z) (t : Timeout) :
  (r, t) ∈ l ->
  activeMonitors (fold_left (fun st entry => stopMonitoring (fst entry) st) l st) !! r
    = None.
Proof.
  revert st. induction l as [|entry l IH]; intros st Hin.
  - now apply elem_of_nil in Hin.
  - cbn [fold_left]. apply elem_of_cons in Hin as [<-|Hin].
    + apply stop_entries_absent. rewrite stopMonitoring_monitors.
      apply lookup_delete_eq.
    + now apply IH.
Qed.

(** [stopAllMonitoring] leaves no monitor and keeps the rules. *)
Lemma stopAllMonitoring_monitors (st : State) (r : Z) :
  activeMonitors (stopAllMonitoring st) !! r = None.
Proof.
  unfold stopAllMonitoring.
  destruct (activeMonitors st !! r) as [t|] eqn:Hr.
  - apply (stop_entries_listed _ _ r t). now apply elem_of_map_to_list.
  - now apply stop_entries_absent.
Qed.

Lemma stopAllMonitoring_rules (st : State) :
  rules (stopAllMonitoring st) = rules st.
Proof. apply stop_entries_rules. Qed.

(** The slot of an id after an append, for the ids that were there. *)
Lemma rules_at_old (rule : AutomationRule) (st st1 : State) (r : Z) :
  rules st1 = rules st ++ [Some rule] ->
  r <> Z.of_nat (length (rules st)) ->
  forall x, rules_at st1 r = Some (Some x) <-> rules_at st r = Some (Some x).
Proof.
  intros Hrules Hne x. unfold rules_at. rewrite Hrules.
  destruct (Z.leb_spec 0 r); [|tauto].
  destruct (Z.ltb_spec r (Z.of_nat (length (rules st)))) as [Hlt|Hge].
  - now rewrite lookup_app_l by lia.
  - rewrite !lookup_ge_None_2; [tauto|lia|rewrite length_app; cbn; lia].
Qed.

(** A filled or emptied slot has an allocated id. *)
Lemma rules_at_allocated (st : State) (r : Z) (slot : option AutomationRule) :
  rules_at st r = Some slot -> 0 <= r < Z.of_nat (length (rules st)).
Proof.
  unfold rules_at. destruct (Z.leb_spec 0 r); [|discriminate].
  intros Hslot. apply lookup_lt_Some in Hslot. lia.
Qed.

(** Counterexample to C3 as worded: a rule added with interval 0 is stored,
    its interval is present and it was never stopped, yet it has no
    monitor. *)
Lemma monitor_claim_fails_at_interval_zero :
  ~ monitor_claim [OpAddRule (market_rule (Some (num 0)))].
Proof.
  intros [_ Hiff]. destruct (proj2 (Hiff 0)) as [t Ht].
  - exists (market_rule (Some (num 0))). split; [reflexivity|].
    split; [now exists (num 0)|]. cbn. rewrite union_empty_r_L.
    apply not_elem_of_empty.
  - vm_compute in Ht. discriminate Ht.
Qed.

Lemma monitor_invariant_init : monitor_invariant interval_truthy init ∅.
Proof.
  split.
  - intros r Hr. now apply not_elem_of_empty in Hr.
  - intros r. cbn. rewrite lookup_empty. split.
    + intros [? ?]; discriminate.
    + intros (rule & Hslot & _). unfold rules_at in Hslot. cbn in Hslot.
      destruct (0 <=? r); [|discriminate]. now rewrite lookup_nil in Hslot.
Qed.

Lemma monitor_invariant_addRule (rule : AutomationRule) (st : State) (stopped : gset Z) :
  monitor_invariant interval_truthy st stopped ->
  monitor_invariant interval_truthy (snd (addRule rule st)) stopped.
Proof.
  intros [Hstopped Hiff].
  pose proof (addRule_rules rule st) as Hrules.
  pose proof (addRule_monitors rule st) as Hmon.
  split.
  - intros r Hr. rewrite Hrules, length_app. cbn. specialize (Hstopped r Hr). lia.
  - intros r. rewrite Hmon.
    destruct (decide (r = Z.of_nat (length (rules st)))) as [->|Hne].
    + rewrite (rules_at_appended rule st _ Hrules). split.
      * intros Hsome. exists rule. split; [reflexivity|]. split.
        -- unfold interval_truthy. destruct (truthy_opt (interval rule)); [done|].
           apply Hiff in Hsome as (x & Hslot & _).
           apply rules_at_allocated in Hslot. lia.
        -- intros Hin. specialize (Hstopped _ Hin). lia.
      * intros (x & [= <-] & Htruthy & _). unfold interval_truthy in Htruthy.
        rewrite Htruthy, lookup_insert_eq. eauto.
    + assert (is_Some
                ((if truthy_opt (interval rule)
                  then <[Z.of_nat (length (rules st)) := next_timeout st]>
                         (activeMonitors st)
                  else activeMonitors st) !! r)
              <-> is_Some (activeMonitors st !! r)) as ->.
      { destruct (truthy_opt (interval rule)); [|tauto].
        now rewrite lookup_insert_ne. }
      rewrite Hiff. split; intros (x & Hslot & Hrest); exists x;
        (split; [|exact Hrest]); now apply (rules_at_old rule st _ r Hrules Hne).
Qed.

Lemma monitor_invariant_removeRule (id : Z) (st : State) (stopped : gset Z) :
  monitor_invariant interval_truthy st stopped ->
  monitor_invariant interval_truthy (snd (removeRule id st))
    (stopped ∪ stops (OpRemoveRule id) st).
Proof.
  intros [Hstopped Hiff]. cbn [stops].
  destruct (decide (0 <= id < Z.of_nat (length (rules st)))) as [Hrange|Hout].
  - rewrite (removeRule_in_range id st Hrange). cbn [snd].
    destruct (Z.leb_spec 0 id); [|lia].
    destruct (Z.ltb_spec id (Z.of_nat (length (rules st)))); [|lia]. cbn [andb].
    set (st1 := stopMonitoring id _).
    assert (rules st1 = <[Z.to_nat id := None]> (rules st)) as Hrules
      by (subst st1; now rewrite stopMonitoring_rules).
    assert (activeMonitors st1 = delete id (activeMonitors st)) as Hmon
      by (subst st1; now rewrite stopMonitoring_monitors).
    split.
    + intros r Hr. rewrite Hrules, length_insert.
      apply elem_of_union in Hr as [Hr|Hr]; [now apply Hstopped|].
      apply elem_of_singleton in Hr. lia.
    + intros r. rewrite Hmon. destruct (decide (r = id)) as [->|Hne].
      * rewrite lookup_delete_eq. split; [intros [? ?]; discriminate|].
        intros (x & _ & _ & Hnot). exfalso. apply Hnot.
        now apply elem_of_union_r, elem_of_singleton.
      * rewrite lookup_delete_ne by congruence. rewrite Hiff.
        assert (forall x, rules_at st1 r = Some (Some x)
                          <-> rules_at st r = Some (Some x)) as Hslots.
        { intros x. unfold rules_at. rewrite Hrules.
          destruct (Z.leb_spec 0 r); [|tauto].
          now rewrite list_lookup_insert_ne by lia. }
        split; intros (x & Hslot & Hset & Hnot); exists x;
          (split; [now apply Hslots|]); (split; [exact Hset|]).
        -- intros Hin. apply elem_of_union in Hin as [Hin|Hin]; [now apply Hnot|].
           now apply elem_of_singleton in Hin.
        -- intros Hin. apply Hnot. now apply elem_of_union_l.
  - rewrite (removeRule_out_of_range id st Hout). cbn [snd].
    assert ((0 <=? id) && (id <? Z.of_nat (length (rules st))) = false) as ->.
    { destruct (Z.leb_spec 0 id); [|reflexivity].
      destruct (Z.ltb_spec id (Z.of_nat (length (rules st)))); [lia|reflexivity]. }
    rewrite union_empty_r_L. now split.
Qed.

Lemma monitor_invariant_stopAllMonitoring (st : State) (stopped : gset Z) :
  monitor_invariant interval_truthy st stopped ->
  monitor_invariant interval_truthy (stopAllMonitoring st)
    (stopped ∪ stops OpStopAllMonitoring st).
Proof.
  intros [Hstopped Hiff]. cbn [stops]. split.
  - intros r Hr. rewrite stopAllMonitoring_rules.
    apply elem_of_union in Hr as [Hr|Hr]; [now apply Hstopped|].
    apply elem_of_list_to_set, elem_of_seqZ in Hr. lia.
  - intros r. rewrite stopAllMonitoring_monitors. split.
    + intros [? ?]; discriminate.
    + intros (x & Hslot & _ & Hnot). exfalso. apply Hnot.
      unfold rules_at in Hslot. rewrite stopAllMonitoring_rules in Hslot.
      fold (rules_at st r) in Hslot. apply rules_at_allocated in Hslot.
      apply elem_of_union_r, elem_of_list_to_set, elem_of_seqZ. lia.
Qed.

Lemma monitor_invariant_step (op : Op) (st : State) (stopped : gset Z) :
  monitor_invariant interval_truthy st stopped ->
  monitor_invariant interval_truthy (step op st) (stopped ∪ stops op st).
Proof.
  intros Hinv. destruct op as [rule|id|].
  - cbn [step stops]. rewrite union_empty_r_L. now apply monitor_invariant_addRule.
  - now apply monitor_invariant_removeRule.
  - now apply monitor_invariant_stopAllMonitoring.
Qed.

Lemma monitor_invariant_step_run (ops : list Op) :
  monitor_invariant interval_truthy (fst (run ops init ∅)) (snd (run ops init ∅)).
Proof.
  generalize monitor_invariant_init. generalize init (∅ : gset Z).
  induction ops as [|op ops IH]; intros st stopped Hinv; [exact Hinv|].
  cbn [run]. apply IH, monitor_invariant_step, Hinv.
Qed.

(** C3, amended: the invariant holds initially, is preserved by [addRule],
    [removeRule] and [stopAllMonitoring], and so holds after every history
    of operations: a monitor exists for [r] iff slot [r] holds a non-null
    rule whose interval is truthy (set, and neither 0 nor NaN) and neither
    [removeRule(r)] nor [stopAllMonitoring] happened since the rule was
    added. *)
Theorem monitor_invariant_preserved :
  monitor_invariant interval_truthy init ∅ /\
  (forall op st stopped,
     monitor_invariant interval_truthy st stopped ->
     monitor_invariant interval_truthy (step op st) (stopped ∪ stops op st)) /\
  (forall ops,
     monitor_invariant interval_truthy
       (fst (run ops init ∅)) (snd (run ops init ∅))).
Proof.
  split; [exact monitor_invariant_init|]. split; [exact monitor_invariant_step|].
  intros ops. generalize monitor_invariant_init.
  generalize init (∅ : gset Z).
  induction ops as [|op ops IH]; intros st stopped Hinv; [exact Hinv|].
  cbn [run]. apply IH, monitor_invariant_step, Hinv.
Qed.

(** C3 on a history: a monitored rule, a rule with interval 0, a removal and
    a global stop.  After [addRule] the first rule is monitored and the
    second is not; after the whole history no monitor is left and the second
    rule is still stored. *)
Lemma monitor_invariant_preserved_witness :
  monitor_invariant interval_truthy
    (step (OpAddRule (market_rule (Some (num 1000)))) init)
    (∅ ∪ stops (OpAddRule (market_rule (Some (num 1000)))) init) /\
  is_Some (activeMonitors
             (step (OpAddRule (market_rule (Some (num 1000)))) init) !! 0) /\
  monitor_invariant interval_truthy
    (fst (run [OpAddRule (market_rule (Some (num 1000)));
               OpAddRule (market_rule (Some (num 0)));
               OpRemoveRule 0; OpStopAllMonitoring] init ∅))
    (snd (run [OpAddRule (market_rule (Some (num 1000)));
               OpAddRule (market_rule (Some (num 0)));
               OpRemoveRule 0; OpStopAllMonitoring] init ∅)).
Proof.
  destruct monitor_invariant_preserved as (Hinit & Hstep & Hrun).
  split; [exact (Hstep _ _ _ Hinit)|]. split; [|exact (Hrun _)].
  apply (proj2 (Hstep (OpAddRule (market_rule (Some (num 1000)))) _ _ Hinit)).
  exists (market_rule (Some (num 1000))). split; [reflexivity|].
  split; [reflexivity|]. cbn [stops]. rewrite union_empty_r_L.
  apply not_elem_of_empty.
Defined.

(** *** The interval timers *)

Lemma timers_owned_init : timers_owned init.
Proof.
  split; [|split]; cbn.
  - intros r t Hr. rewrite lookup_empty in Hr. discriminate Hr.
  - intros t [x Hx]. rewrite lookup_empty in Hx. discriminate Hx.
  - intros r1 r2 t Hr1. rewrite lookup_empty in Hr1. discriminate Hr1.
Qed.

(** Cancelling a monitor cancels its timer and no other. *)
Lemma timers_owned_stopMonitoring (k : Z) (st : State) :
  timers_owned st -> timers_owned (stopMonitoring k st).
Proof.
  intros (Hlive & Howned & Hinj). unfold stopMonitoring.
  destruct (activeMonitors st !! k) as [tk|] eqn:Hk;
    [|exact (conj Hlive (conj Howned Hinj))].
  split; [|split]; cbn.
  - intros r t Hr. apply lookup_delete_Some in Hr as [Hne Hr].
    destruct (Hlive r t Hr) as [Hlt Hsome]. split; [exact Hlt|].
    rewrite lookup_delete_ne; [exact Hsome|].
    intros <-. apply Hne. exact (Hinj k r tk Hk Hr).
  - intros t [x Ht]. apply lookup_delete_Some in Ht as [Hne Ht].
    destruct (Howned t (ex_intro _ x Ht)) as [r Hr]. exists r.
    rewrite lookup_delete_ne; [exact Hr|].
    intros <-. rewrite Hk in Hr. congruence.
  - intros r1 r2 t Hr1 Hr2.
    apply lookup_delete_Some in Hr1 as [_ Hr1].
    apply lookup_delete_Some in Hr2 as [_ Hr2].
    exact (Hinj r1 r2 t Hr1 Hr2).
Qed.

Lemma timers_owned_stop_entries (l : list (Z * Timeout)) (st : State) :
  timers_owned st ->
  timers_owned (fold_left (fun st entry => stopMonitoring (fst entry) st) l st).
Proof.
  revert st. induction l as [|entry l IH]; intros st Hst; [exact Hst|].
  cbn [fold_left]. now apply IH, timers_owned_stopMonitoring.
Qed.

(** Starting a monitor under an id that has none issues a fresh timer. *)
Lemma timers_owned_addRule (rule : AutomationRule) (st : State) :
  activeMonitors st !! Z.of_nat (length (rules st)) = None ->
  timers_owned st -> timers_owned (snd (addRule rule st)).
Proof.
  intros Hfresh (Hlive & Howned & Hinj). unfold addRule. cbn [snd].
  destruct (truthy_opt (interval rule)) eqn:Htruthy;
    [|exact (conj Hlive (conj Howned Hinj))].
  unfold startMonitoring. erewrite rules_at_appended by reflexivity.
  rewrite Htruthy. cbn [rules]. set (k := Z.of_nat (length (rules st))) in *.
  assert (timers st !! next_timeout st = None) as Hunused.
  { destruct (timers st !! next_timeout st) as [x|] eqn:Hx; [|reflexivity].
    destruct (Howned _ (ex_intro _ x Hx)) as [r Hr].
    destruct (Hlive r _ Hr) as [Hlt _]. lia. }
  split; [|split]; cbn.
  - intros r t Hr. apply lookup_insert_Some in Hr as [[<- <-]|[Hne Hr]].
    + split; [lia|]. rewrite lookup_insert_eq. eauto.
    + destruct (Hlive r t Hr) as [Hlt Hsome]. split; [lia|].
      rewrite lookup_insert_ne by lia. exact Hsome.
  - intros t [x Ht]. apply lookup_insert_Some in Ht as [[<- _]|[Hne Ht]].
    + exists k. apply lookup_insert_eq.
    + destruct (Howned t (ex_intro _ x Ht)) as [r Hr]. exists r.
      rewrite lookup_insert_ne; [exact Hr|]. intros <-. congruence.
  - intros r1 r2 t Hr1 Hr2.
    apply lookup_insert_Some in Hr1 as [[<- <-]|[Hne1 Hr1]];
      apply lookup_insert_Some in Hr2 as [[<- Heq]|[Hne2 Hr2]]; try reflexivity.
    + destruct (Hlive r2 _ Hr2) as [Hlt _]. lia.
    + destruct (Hlive r1 _ Hr1) as [Hlt _]. lia.
    + exact (Hinj r1 r2 t Hr1 Hr2).
Qed.

(** After every history the live timers are exactly the handles of the
    monitors: removing a rule or stopping all monitoring leaves no timer
    running for a stopped rule. *)
Lemma timers_owned_reachable (ops : list Op) :
  timers_owned (fst (run ops init ∅)).
Proof.
  assert (forall st stopped,
            monitor_invariant interval_truthy st stopped -> timers_owned st ->
            timers_owned (fst (run ops st stopped))) as Hgen.
  { induction ops as [|op ops IH]; intros st stopped Hinv Hown; [exact Hown|].
    cbn [run]. apply IH.
    - now apply monitor_invariant_step.
    - destruct op as [rule|id|]; cbn [step].
      + apply timers_owned_addRule; [|exact Hown].
        destruct (activeMonitors st !! Z.of_nat (length (rules st))) as [t|] eqn:Ht;
          [|reflexivity].
        destruct Hinv as [_ Hiff].
        destruct (proj1 (Hiff _) (ex_intro _ t Ht)) as (x & Hslot & _).
        apply rules_at_allocated in Hslot. lia.
      + unfold removeRule.
        destruct ((0 <=? id) && (id <? Z.of_nat (length (rules st)))); [|exact Hown].
        cbn [snd]. apply timers_owned_stopMonitoring.
        exact Hown.
      + now apply timers_owned_stop_entries. }
  apply Hgen; [exact monitor_invariant_init|exact timers_owned_init].
Qed.

(** [stopAllMonitoring] cancels every live timer of a reachable agent. *)
Lemma stopAllMonitoring_cancels_timers (ops : list Op) (t : Timeout) :
  timers (stopAllMonitoring (fst (run ops init ∅))) !! t = None.
Proof.
  pose proof (timers_owned_stop_entries
                (map_to_list (activeMonitors (fst (run ops init ∅))))
                _ (timers_owned_reachable ops)) as (_ & Howned & _).
  fold (stopAllMonitoring (fst (run ops init ∅))) in Howned.
  destruct (timers (stopAllMonitoring (fst (run ops init ∅))) !! t) as [x|] eqn:Ht;
    [|reflexivity].
  destruct (Howned t (ex_intro _ x Ht)) as [r Hr].
  now rewrite stopAllMonitoring_monitors in Hr.
Qed.

End Monitors.

(** ** analyze_market *)

Section FloatFacts.

(** The number of binary digits of a mantissa. *)
Lemma digits2_pos_size (m : positive) : digits2_pos m = Pos.size m.
Proof. induction m as [m IH|m IH|]; cbn; congruence. Qed.

Lemma digits2_pos_bounds (m : positive) :
  2 ^ (Zpos (digits2_pos m) - 1) <= Zpos m < 2 ^ Zpos (digits2_pos m).
Proof.
  rewrite digits2_pos_size.
  pose proof (Pos.size_gt m) as Hgt. pose proof (Pos.size_le m) as Hle.
  apply Pos2Z.pos_lt_pos in Hgt. apply Pos2Z.pos_le_pos in Hle.
  rewrite Pos2Z.inj_pow in Hgt, Hle.
  change (Zpos m~0) with (2 * Zpos m) in Hle.
  replace (Zpos (Pos.size m)) with (Z.succ (Zpos (Pos.size m) - 1)) in Hle by lia.
  rewrite Z.pow_succ_r in Hle by lia. lia.
Qed.

(** Shifting a mantissa left. *)
Lemma iter_xO (m d : positive) : Zpos (Pos.iter xO m d) = Zpos m * 2 ^ Zpos d.
Proof.
  induction d as [|d IH] using Pos.peano_ind.
  - cbn. lia.
  - rewrite Pos.iter_succ, Pos2Z.inj_succ, Z.pow_succ_r by lia.
    change (Zpos (Pos.iter xO m d)~0) with (2 * Zpos (Pos.iter xO m d)). lia.
Qed.

Lemma shl_align_value (m : positive) (e e' : Z) :
  e' <= e ->
  Zpos (fst (shl_align m e e')) = Zpos m * 2 ^ (e - e').
Proof.
  intros Hle. unfold shl_align.
  destruct (e' - e) as [|d|d] eqn:Hd; cbn [fst].
  - replace (e - e') with 0 by lia. cbn. lia.
  - lia.
  - rewrite iter_xO. f_equal. f_equal. lia.
Qed.

(** Shifting a rounding record right: the mantissa is halved each step. *)
Lemma shr_1_m (mrs : shr_record) :
  0 <= shr_m mrs -> shr_m (shr_1 mrs) = shr_m mrs / 2.
Proof.
  destruct mrs as [m r s]. cbn [shr_m]. intros Hm.
  destruct m as [|[p|p|]|p]; cbn [shr_1 shr_m]; try lia; try reflexivity.
  - rewrite Pos2Z.inj_xI. apply Z.div_unique with (r := 1); lia.
  - rewrite Pos2Z.inj_xO. apply Z.div_unique with (r := 0); lia.
Qed.

Lemma iter_shr_1_m (p : positive) (mrs : shr_record) :
  0 <= shr_m mrs ->
  shr_m (SpecFloat.iter_pos shr_1 p mrs) = shr_m mrs / 2 ^ Zpos p.
Proof.
  revert mrs. induction p as [p IH|p IH|]; intros mrs Hm; cbn [SpecFloat.iter_pos].
  - assert (0 < 2 ^ Zpos p) as Hpow by (apply Z.pow_pos_nonneg; lia).
    assert (0 <= shr_m (shr_1 mrs)) as H1
      by (rewrite shr_1_m by exact Hm; apply Z.div_pos; lia).
    assert (0 <= shr_m (SpecFloat.iter_pos shr_1 p (shr_1 mrs))) as H2
      by (rewrite IH by exact H1; apply Z.div_pos; lia).
    rewrite IH, IH, shr_1_m by assumption.
    rewrite !Z.div_div by lia. f_equal.
    replace (Zpos p~1) with (1 + Zpos p + Zpos p) by lia.
    rewrite !Z.pow_add_r by lia. rewrite Z.pow_1_r. ring.
  - assert (0 < 2 ^ Zpos p) as Hpow by (apply Z.pow_pos_nonneg; lia).
    assert (0 <= shr_m (SpecFloat.iter_pos shr_1 p mrs)) as H2
      by (rewrite IH by exact Hm; apply Z.div_pos; lia).
    rewrite IH, IH by assumption.
    rewrite !Z.div_div by lia. f_equal.
    replace (Zpos p~0) with (Zpos p + Zpos p) by lia.
    rewrite !Z.pow_add_r by lia. reflexivity.
  - rewrite shr_1_m by exact Hm. reflexivity.
Qed.

Lemma shr_record_of_loc_m (m : Z) (l : location) :
  shr_m (shr_record_of_loc m l) = m.
Proof. destruct l as [|[]]; reflexivity. Qed.

(** Rounding to the format never flushes a mantissa that sits at or above
    the least exponent: at most the digits beyond the 53rd are shifted out. *)
Lemma shr_fexp_positive (m : positive) (e : Z) (l : location) :
  emin prec emax <= e ->
  0 < shr_m (fst (shr_fexp prec emax (Zpos m) e l))
  /\ emin prec emax <= snd (shr_fexp prec emax (Zpos m) e l).
Proof.
  intros He. unfold shr_fexp, shr.
  pose proof (digits2_pos_bounds m) as [Hlo Hhi].
  cbn [Zdigits2]. set (d := Zpos (digits2_pos m)) in *.
  destruct (fexp prec emax (d + e) - e) as [|n|n] eqn:Hn; cbn [fst snd].
  - rewrite shr_record_of_loc_m. lia.
  - rewrite iter_shr_1_m by (rewrite shr_record_of_loc_m; lia).
    rewrite shr_record_of_loc_m.
    unfold fexp, emin, prec, emax in *.
    assert (Zpos n = d - 53) as Hshift by lia.
    split; [|lia].
    apply Z.div_str_pos. split; [apply Z.pow_pos_nonneg; lia|].
    etransitivity; [|exact Hlo]. apply Z.pow_le_mono_r; lia.
  - rewrite shr_record_of_loc_m. lia.
Qed.

Lemma round_nearest_even_ge (m : Z) (l : location) :
  m <= round_nearest_even m l.
Proof.
  destruct l as [|[]]; cbn; try lia. destruct (Z.even m); lia.
Qed.

(** The sign of a rounded value is the sign it was given. *)
Lemma binary_round_aux_negative (m e : Z) (l : location) :
  SFltb (S754_zero false) (binary_round_aux prec emax true m e l) = false.
Proof.
  unfold binary_round_aux.
  destruct (shr_fexp prec emax m e l) as [mrs' e'].
  destruct (shr_fexp prec emax _ e' loc_Exact) as [mrs'' e''].
  destruct (shr_m mrs''); [reflexivity| |reflexivity].
  destruct (e'' <=? emax - prec); reflexivity.
Qed.

Lemma binary_round_aux_positive (m : positive) (e : Z) (l : location) :
  emin prec emax <= e ->
  SFltb (S754_zero false) (binary_round_aux prec emax false (Zpos m) e l) = true.
Proof.
  intros He. unfold binary_round_aux.
  destruct (shr_fexp_positive m e l He) as [Hm He'].
  destruct (shr_fexp prec emax (Zpos m) e l) as [mrs' e']. cbn [fst snd] in *.
  pose proof (round_nearest_even_ge (shr_m mrs') (loc_of_shr_record mrs')) as Hround.
  destruct (round_nearest_even (shr_m mrs') (loc_of_shr_record mrs')) as [|m1|m1];
    try lia.
  destruct (shr_fexp_positive m1 e' loc_Exact He') as [Hm'' _].
  destruct (shr_fexp prec emax (Zpos m1) e' loc_Exact) as [mrs'' e''].
  cbn [fst] in Hm''.
  destruct (shr_m mrs''); try lia.
  destruct (e'' <=? emax - prec); reflexivity.
Qed.

Lemma binary_round_positive (m : positive) (e : Z) :
  emin prec emax <= e ->
  SFltb (S754_zero false) (binary_round prec emax false m e) = true.
Proof.
  intros He. unfold binary_round.
  destruct (shl_align m e (fexp prec emax (Zpos (digits2_pos m) + e)))
    as [mz ez] eqn:Halign.
  apply binary_round_aux_positive.
  unfold shl_align in Halign.
  destruct (fexp prec emax (Zpos (digits2_pos m) + e) - e) eqn:Hd;
    injection Halign as <- <-; try exact He.
  unfold fexp. lia.
Qed.

(** A rounded integer is above zero exactly when the integer is. *)
Lemma binary_normalize_positive (z e : Z) :
  emin prec emax <= e ->
  SFltb (S754_zero false) (binary_normalize prec emax z e false) = (0 <? z).
Proof.
  intros He. destruct z as [|p|p]; cbn [binary_normalize].
  - reflexivity.
  - now rewrite binary_round_positive.
  - unfold binary_round. destruct (shl_align p e _) as [mz ez].
    now rewrite binary_round_aux_negative.
Qed.

(** What the stored form says about a mantissa and its exponent. *)
Lemma valid_finite (s : bool) (m : positive) (e : Z) :
  valid (S754_finite s m e) = true ->
  emin prec emax <= e
  /\ Zpos m < 2 ^ 53
  /\ (emin prec emax < e -> 2 ^ 52 <= Zpos m).
Proof.
  unfold valid, valid_binary, bounded, canonical_mantissa.
  intros [Hcanon _]%andb_prop. apply Z.eqb_eq in Hcanon.
  pose proof (digits2_pos_bounds m) as [Hlo Hhi].
  set (d := Zpos (digits2_pos m)) in *.
  unfold fexp, emin, prec, emax in *.
  split; [lia|]. split.
  - eapply Z.lt_le_trans; [exact Hhi|]. apply Z.pow_le_mono_r; lia.
  - intros He. assert (d = 53) as Hd by lia. rewrite Hd in Hlo. exact Hlo.
Qed.

(** On stored positive numbers the sign of the rounded difference [b - a]
    decides [a < b]: the difference of two distinct values is never rounded
    to zero. *)
Lemma sub_positive_iff_lt (a b : number) :
  valid a = true -> valid b = true ->
  positive_number a -> positive_number b ->
  gt (sub b a) (num 0) = lt a b.
Proof.
  unfold positive_number.
  destruct a as [sa|sa| |sa ma ea]; try discriminate;
    destruct b as [sb|sb| |sb mb eb]; try discriminate;
    destruct sa; try discriminate; destruct sb; try discriminate;
    intros Ha Hb _ _; try reflexivity.
  apply valid_finite in Ha as (Hea & Hma & Hna).
  apply valid_finite in Hb as (Heb & Hmb & Hnb).
  unfold gt, lt, sub, SFsub. change (num 0) with (S754_zero false).
  rewrite binary_normalize_positive by lia.
  cbn [cond_Zopp SFltb SFcompare].
  rewrite !shl_align_value by lia.
  assert (forall k, 0 < k -> 2 <= 2 ^ k) as Hpow.
  { intros k Hk. change 2 with (2 ^ 1) at 1. apply Z.pow_le_mono_r; lia. }
  change (2 ^ 53) with 9007199254740992 in *.
  change (2 ^ 52) with 4503599627370496 in *.
  destruct (Z.compare_spec ea eb) as [->|Hlt|Hgt].
  - rewrite Z.min_id, Z.sub_diag. cbn [Z.pow]. rewrite !Z.mul_1_r.
    change (Pos.compare_cont Eq ma mb) with (Pos.compare ma mb).
    destruct (Pos.compare_spec ma mb);
      destruct (Z.ltb_spec 0 (Zpos mb - Zpos ma)); try reflexivity; lia.
  - rewrite Z.min_r, Z.sub_diag by lia. cbn [Z.pow]. rewrite Z.mul_1_r.
    specialize (Hpow (eb - ea)). specialize (Hnb ltac:(lia)).
    destruct (Z.ltb_spec 0 (Zpos mb * 2 ^ (eb - ea) - Zpos ma)); [reflexivity|nia].
  - rewrite Z.min_l, Z.sub_diag by lia. cbn [Z.pow]. rewrite Z.mul_1_r.
    specialize (Hpow (ea - eb)). specialize (Hna ltac:(lia)).
    destruct (Z.ltb_spec 0 (Zpos mb - Zpos ma * 2 ^ (ea - eb))); [nia|reflexivity].
Qed.

End FloatFacts.

(** *** The order of positive numbers *)

Lemma positive_number_cases (x : number) :
  positive_number x ->
  x = S754_infinity false \/ exists m e, x = S754_finite false m e.
Proof.
  unfold positive_number.
  destruct x as [s|s| |s m e]; try destruct s; try discriminate; eauto.
Qed.

Lemma lt_finite (ma mb : positive) (ea eb : Z) :
  lt (S754_finite false ma ea) (S754_finite false mb eb) = true <->
  ea < eb \/ (ea = eb /\ (ma < mb)%positive).
Proof.
  unfold lt, SFltb. cbn [SFcompare].
  change (Pos.compare_cont Eq ma mb) with (Pos.compare ma mb).
  destruct (Z.compare_spec ea eb); destruct (Pos.compare_spec ma mb);
    split; try discriminate; try reflexivity; lia.
Qed.

Lemma lt_positive_asym (a b : number) :
  positive_number a -> positive_number b ->
  lt a b = true -> lt b a = false.
Proof.
  intros [->|(ma & ea & ->)]%positive_number_cases
         [->|(mb & eb & ->)]%positive_number_cases; try reflexivity; try discriminate.
  intros Hab%lt_finite. apply not_true_is_false. intros Hba%lt_finite. lia.
Qed.

Lemma lt_positive_trans (a b c : number) :
  positive_number a -> positive_number b -> positive_number c ->
  lt a b = true -> lt b c = true -> lt a c = true.
Proof.
  intros [->|(ma & ea & ->)]%positive_number_cases
         [->|(mb & eb & ->)]%positive_number_cases
         [->|(mc & ec & ->)]%positive_number_cases;
    try reflexivity; try discriminate.
  intros Hab%lt_finite Hbc%lt_finite. apply lt_finite. lia.
Qed.

(** *** Insertion sort under a comparator that agrees with an order *)

Section SortSpec.
Context {A : Type} (cmp : A -> A -> number).

Lemma insert_Permutation (x : A) (l : list A) :
  Permutation (insert cmp x l) (x :: l).
Proof.
  induction l as [|y l IH]; cbn [insert]; [reflexivity|].
  destruct (gt (cmp y x) (num 0)); [reflexivity|].
  rewrite IH. apply perm_swap.
Qed.

Lemma sort_from_Permutation (l acc : list A) :
  Permutation (fold_left (fun acc x => insert cmp x acc) l acc) (acc ++ l).
Proof.
  revert acc. induction l as [|x l IH]; intros acc; cbn [fold_left].
  - now rewrite app_nil_r.
  - rewrite IH, insert_Permutation. apply Permutation_middle.
Qed.

(** The sorted array is a rearrangement of the array. *)
Lemma sort_Permutation (l : list A) : Permutation (sort cmp l) l.
Proof. apply (sort_from_Permutation l []). Qed.

(** [below y x]: the element [y] ranks below [x].  On the elements that
    satisfy [P] the comparator asks for [x] before [y] exactly when [y] is
    below [x], and [below] is a strict order. *)
Variable P : A -> Prop.
Variable below : A -> A -> bool.
Hypothesis cmp_sign :
  forall x y, P x -> P y -> gt (cmp y x) (num 0) = below y x.
Hypothesis below_asym :
  forall x y, P x -> P y -> below x y = true -> below y x = false.
Hypothesis below_trans :
  forall x y z, P x -> P y -> P z ->
    below x y = true -> below y z = true -> below x z = true.

Lemma insert_sorted (x : A) (l : list A) :
  P x -> Forall P l ->
  StronglySorted (not_below below) l -> StronglySorted (not_below below) (insert cmp x l).
Proof.
  intros Hx. induction l as [|y l IH]; intros HP Hsorted; cbn [insert].
  - repeat constructor.
  - apply Forall_cons in HP as [Hy HP].
    apply StronglySorted_inv in Hsorted as [Hsorted Hhead].
    rewrite (cmp_sign x y Hx Hy). destruct (below y x) eqn:Hyx.
    + constructor; [now constructor|]. constructor.
      * now apply below_asym.
      * rewrite Forall_forall in Hhead, HP |- *. intros z Hz.
        unfold not_below. destruct (below x z) eqn:Hxz; [|reflexivity].
        rewrite <- (Hhead z Hz). symmetry.
        apply (below_trans y x z); auto.
    + constructor; [now apply IH|].
      rewrite insert_Permutation. now constructor.
Qed.

Lemma sort_from_sorted (l acc : list A) :
  Forall P l -> Forall P acc -> StronglySorted (not_below below) acc ->
  StronglySorted (not_below below) (fold_left (fun acc x => insert cmp x acc) l acc).
Proof.
  revert acc. induction l as [|x l IH]; intros acc Hl Hacc Hsorted; cbn [fold_left].
  - exact Hsorted.
  - apply Forall_cons in Hl as [Hx Hl]. apply IH; [exact Hl| |].
    + rewrite insert_Permutation. now constructor.
    + now apply insert_sorted.
Qed.

(** No element of the sorted array ranks below a later one. *)
Lemma sort_sorted (l : list A) :
  Forall P l -> StronglySorted (not_below below) (sort cmp l).
Proof.
  intros Hl. apply sort_from_sorted; [exact Hl|constructor|constructor].
Qed.

End SortSpec.

(** *** The market analysis *)

(** Counterexample to C6 as worded: with a global change of 0 the sentiment
    is "Neutral" and the recommendations are empty. *)
Lemma analyze_market_claim_fails_when_neutral :
  ~ analyze_market_claim (market_env [crypto "btc" (num 2)] (num 0)).
Proof.
  intros H. destruct (H _ _ eq_refl eq_refl) as [line Hline].
  vm_compute in Hline. discriminate Hline.
Qed.

Lemma identifyTopPerformers_sorted (cryptos : list Crypto) :
  valid_changes cryptos ->
  StronglySorted change_not_below
    (sort CryptoAgent.cmp_change_desc (positive_changes cryptos)).
Proof.
  intros Hvalid.
  apply (sort_sorted CryptoAgent.cmp_change_desc
           (fun c => valid (price_change_percentage_24h c) = true
                     /\ positive_number (price_change_percentage_24h c))
           (fun a b => lt (price_change_percentage_24h a) (price_change_percentage_24h b))).
  - intros x y [Hvx Hpx] [Hvy Hpy]. unfold CryptoAgent.cmp_change_desc.
    now apply sub_positive_iff_lt.
  - intros x y [_ Hpx] [_ Hpy]. now apply lt_positive_asym.
  - intros x y z [_ Hpx] [_ Hpy] [_ Hpz]. now apply lt_positive_trans.
  - unfold positive_changes. rewrite Forall_forall. intros c Hc.
    apply list_elem_of_In, filter_In in Hc as [Hc Hpos].
    split; [|exact Hpos].
    unfold valid_changes in Hvalid. rewrite Forall_forall in Hvalid.
    now apply Hvalid, list_elem_of_In.
Qed.

(** C6, amended.  When both fetches succeed, [analyze_market] returns
    - topPerformers: the assets with a strictly positive 24h change, sorted
      descending by 24h change, cut to the first 3: they are positives of
      the listing, no one has a smaller change than a later one or than a
      positive left out, and there are min(3, number of positives) of them;
    - marketSentiment: "Bullish" iff the global change is strictly above 5,
      "Bearish" iff strictly below -5, "Neutral" otherwise;
    - recommendations: the one fixed line of the sentiment when it is
      "Bullish" or "Bearish", and no line when it is "Neutral". *)
Theorem analyze_market_result (env : Env) (p : TaskParams)
    (cryptos : list Crypto) (stats : MarketStats) :
  market_getTopCryptos env 10 = Ok cryptos ->
  market_getMarketStats env = Ok stats ->
  let top := CryptoAgent.identifyTopPerformers cryptos in
  let sentiment := CryptoAgent.calculateMarketSentiment stats in
  let recommendations := CryptoAgent.generateMarketRecommendations cryptos stats in
  let change := market_cap_change_percentage_24h_usd stats in
  CryptoAgent.analyzeMarket env p = Ok (MarketAnalysis top sentiment recommendations) /\
  (exists rest,
     Permutation (top ++ rest) (positive_changes cryptos) /\
     (valid_changes cryptos ->
      StronglySorted change_not_below top /\
      forall a b, a ∈ top -> b ∈ rest -> change_not_below a b)) /\
  length top = Nat.min 3 (length (positive_changes cryptos)) /\
  (sentiment = "Bullish" <-> gt change (num 5) = true) /\
  (sentiment = "Bearish" <-> lt change (num (-5)) = true) /\
  (sentiment = "Neutral" <-> gt change (num 5) = false /\ lt change (num (-5)) = false) /\
  (sentiment = "Bullish" ->
     recommendations = ["Consider increasing portfolio exposure"]) /\
  (sentiment = "Bearish" -> recommendations = ["Consider reducing risk"]) /\
  (sentiment = "Neutral" -> recommendations = []).
Proof.
  intros Htop Hstats top sentiment recommendations change.
  split.
  { unfold CryptoAgent.analyzeMarket. now rewrite Htop, Hstats. }
  split.
  { exists (drop 3 (sort CryptoAgent.cmp_change_desc (positive_changes cryptos))).
    subst top. unfold CryptoAgent.identifyTopPerformers.
    fold (positive_changes cryptos). rewrite take_drop. split.
    - apply sort_Permutation.
    - intros Hvalid. pose proof (identifyTopPerformers_sorted cryptos Hvalid) as Hsorted.
      rewrite <- (take_drop 3 (sort _ _)) in Hsorted. split.
      + now apply StronglySorted_app_1_l in Hsorted.
      + intros a b Ha Hb.
        exact (StronglySorted_app_1_elem_of _ _ _ a b Hsorted Ha Hb). }
  split.
  { subst top. unfold CryptoAgent.identifyTopPerformers.
    fold (positive_changes cryptos).
    rewrite length_take, (Permutation_length (sort_Permutation _ _)). reflexivity. }
  pose proof (threshold_split change "Bullish" "Bearish" "Neutral") as H.
  cbv zeta in H. fold (CryptoAgent.calculateMarketSentiment stats) in H.
  destruct H as (H1 & H2 & H3); try discriminate.
  fold sentiment in H1, H2, H3.
  split; [exact H1|]. split; [exact H2|]. split; [exact H3|].
  subst recommendations. unfold CryptoAgent.generateMarketRecommendations.
  fold sentiment.
  repeat split; intros ->; reflexivity.
Qed.

(** C6 on a listing of five assets in a bullish market: the top performers
    are the three largest positive changes in descending order. *)
Lemma analyze_market_result_witness :
  CryptoAgent.analyzeMarket
    (market_env [crypto "a" (num 2); crypto "b" (num (-3)); crypto "c" (num 7);
                 crypto "d" (num 1); crypto "e" (num 4)] (num 6))
    no_params
  = Ok (MarketAnalysis
          [crypto "c" (num 7); crypto "e" (num 4); crypto "a" (num 2)]
          "Bullish" ["Consider increasing portfolio exposure"]) /\
  StronglySorted change_not_below
    (CryptoAgent.identifyTopPerformers
       [crypto "a" (num 2); crypto "b" (num (-3)); crypto "c" (num 7);
        crypto "d" (num 1); crypto "e" (num 4)]).
Proof.
  pose proof (analyze_market_result
                (market_env [crypto "a" (num 2); crypto "b" (num (-3));
                             crypto "c" (num 7); crypto "d" (num 1);
                             crypto "e" (num 4)] (num 6))
                no_params _ _ eq_refl eq_refl) as (Hrun & (rest & _ & Hsorted) & _).
  split.
  - rewrite Hrun. reflexivity.
  - apply Hsorted. repeat constructor.
Defined.

(** * Further properties of the agents *)

(** ** The rule store: adding, removing, listing *)

Section RuleStoreMore.
Import AutomationAgent.

(** The entries of a rule array whose first index is [k]. *)
Lemma active_entries_bound (k : nat) (l : list (option AutomationRule)) :
  Forall (fun entry => Z.of_nat k <= ruleId entry)
    (List.filter (fun entry => bool_decide (is_Some (rule entry)))
       (imap (fun index rule => {| ruleId := Z.of_nat (k + index); rule := rule |}) l)).
Proof.
  rewrite Forall_forall. intros entry Hentry.
  apply list_elem_of_In, filter_In in Hentry as [Hentry _].
  apply list_elem_of_In, elem_of_lookup_imap in Hentry as (i & slot & -> & _).
  cbn. lia.
Qed.

(** Filtering a list by a predicate that holds of all its elements. *)
Lemma filter_all {A : Type} (f : A -> bool) (l : list A) :
  Forall (fun x => f x = true) l -> List.filter f l = l.
Proof.
  induction 1 as [|x l Hx _ IH]; [reflexivity|].
  cbn. now rewrite Hx, IH.
Qed.

(** Emptying slot [n] of a rule array removes the entry of that slot from
    the listing and no other. *)
Lemma active_entries_insert_None (l : list (option AutomationRule)) (k n : nat) :
  List.filter (fun entry => bool_decide (is_Some (rule entry)))
    (imap (fun index rule => {| ruleId := Z.of_nat (k + index); rule := rule |})
       (<[n := None]> l))
  = List.filter (fun entry => negb (ruleId entry =? Z.of_nat (k + n)))
      (List.filter (fun entry => bool_decide (is_Some (rule entry)))
         (imap (fun index rule => {| ruleId := Z.of_nat (k + index); rule := rule |}) l)).
Proof.
  revert k n. induction l as [|slot l IH]; intros k n; [now destruct n|].
  assert (forall j (l' : list (option AutomationRule)),
            imap (fun index rule =>
                    {| ruleId := Z.of_nat (j + S index); rule := rule |}) l'
            = imap (fun index rule =>
                    {| ruleId := Z.of_nat (S j + index); rule := rule |}) l') as Hshift
    by (intros j l'; apply imap_ext; intros; f_equal; lia).
  destruct n as [|n].
  - change (<[0%nat := None]> (slot :: l)) with (@None AutomationRule :: l).
    cbn [imap List.filter rule]. unfold compose. rewrite !Hshift.
    rewrite (bool_decide_eq_false_2 (is_Some (@None AutomationRule)))
      by (intros [x Hx]; discriminate Hx).
    pose proof (active_entries_bound (S k) l) as Hbound.
    assert (List.filter (fun entry => negb (ruleId entry =? Z.of_nat (k + 0)))
              (List.filter (fun entry => bool_decide (is_Some (rule entry)))
                 (imap (fun index rule =>
                          {| ruleId := Z.of_nat (S k + index); rule := rule |}) l))
            = List.filter (fun entry => bool_decide (is_Some (rule entry)))
                (imap (fun index rule =>
                         {| ruleId := Z.of_nat (S k + index); rule := rule |}) l))
      as Hkeep.
    { apply filter_all. eapply Forall_impl; [exact Hbound|]. cbn.
      intros entry Hentry. apply negb_true_iff, Z.eqb_neq. lia. }
    destruct (bool_decide (is_Some slot)); cbn [List.filter ruleId].
    + replace (Z.of_nat (k + 0) =? Z.of_nat (k + 0)) with true
        by (symmetry; apply Z.eqb_refl).
      cbn [negb]. now rewrite Hkeep.
    + now rewrite Hkeep.
  - change (<[S n := None]> (slot :: l)) with (slot :: <[n := None]> l).
    cbn [imap List.filter rule]. unfold compose. rewrite !Hshift, (IH (S k) n).
    replace (S k + n)%nat with (k + S n)%nat by lia.
    destruct (bool_decide (is_Some slot)); cbn [List.filter ruleId]; [|reflexivity].
    replace (Z.of_nat (k + 0) =? Z.of_nat (k + S n)) with false
      by (symmetry; apply Z.eqb_neq; lia).
    reflexivity.
Qed.

End RuleStoreMore.

Section RuleListing.
Import AutomationAgent.

(** Every listed id names a slot of the array. *)
Lemma getActiveRules_in_range (st : State) (entry : ActiveRule) :
  entry ∈ getActiveRules st -> 0 <= ruleId entry < Z.of_nat (length (rules st)).
Proof.
  intros (i & r & Hslot & ->)%getActiveRules_spec.
  apply lookup_lt_Some in Hslot. cbn. lia.
Qed.

Lemma removeRule_rule_count (id : Z) (st : State) :
  length (rules (snd (removeRule id st))) = length (rules st).
Proof.
  destruct (decide (0 <= id < Z.of_nat (length (rules st)))) as [Hrange|Hout].
  - rewrite (removeRule_in_range id st Hrange). cbn [snd].
    rewrite stopMonitoring_rules. cbn [rules]. apply length_insert.
  - now rewrite (removeRule_out_of_range id st Hout).
Qed.

(** X1. [addRule] returns the rule count before the call as the new id, and
    afterwards [getActiveRules()] is the former listing followed by exactly
    one new entry, the rule under that id; a monitor is registered for the
    id exactly when the rule's interval is truthy, and no other monitor is
    touched. *)
Theorem addRule_extends_listing (rule : AutomationRule) (st : State) :
  fst (addRule rule st) = Z.of_nat (length (rules st)) /\
  getActiveRules (snd (addRule rule st))
    = getActiveRules st
      ++ [{| ruleId := Z.of_nat (length (rules st)); rule := Some rule |}] /\
  (is_Some (activeMonitors (snd (addRule rule st)) !! Z.of_nat (length (rules st)))
     <-> truthy_opt (interval rule) = true
         \/ is_Some (activeMonitors st !! Z.of_nat (length (rules st)))) /\
  (forall r, r <> Z.of_nat (length (rules st)) ->
     activeMonitors (snd (addRule rule st)) !! r = activeMonitors st !! r).
Proof.
  split; [reflexivity|]. split; [|split].
  - unfold getActiveRules. rewrite addRule_rules, imap_app, List.filter_app.
    f_equal. cbn [imap List.filter AutomationAgent.rule].
    rewrite bool_decide_eq_true_2 by eauto.
    now rewrite Nat.add_0_r.
  - rewrite addRule_monitors. destruct (truthy_opt (interval rule)).
    + rewrite lookup_insert_eq. split; [now left|eauto].
    + split; [now right|]. intros [Hfalse|Hold]; [discriminate Hfalse|exact Hold].
  - intros r Hne. rewrite addRule_monitors.
    destruct (truthy_opt (interval rule)); [|reflexivity].
    now rewrite lookup_insert_ne.
Qed.

(** X2. [removeRule(id)] returns true exactly for the ids in
    [0, rule-count); it never changes the rule count; afterwards
    [getActiveRules()] is the former listing without the entry of [id], in
    the same order; and when it returns false nothing has changed. *)
Theorem removeRule_listing (id : Z) (st : State) :
  (fst (removeRule id st) = true <-> 0 <= id < Z.of_nat (length (rules st))) /\
  length (rules (snd (removeRule id st))) = length (rules st) /\
  getActiveRules (snd (removeRule id st))
    = List.filter (fun entry => negb (ruleId entry =? id)) (getActiveRules st) /\
  (fst (removeRule id st) = false -> snd (removeRule id st) = st).
Proof.
  destruct (decide (0 <= id < Z.of_nat (length (rules st)))) as [Hrange|Hout].
  - rewrite (removeRule_in_range id st Hrange). cbn [fst snd].
    split; [tauto|]. split; [|split; [|discriminate]].
    + rewrite stopMonitoring_rules. cbn [rules]. apply length_insert.
    + unfold getActiveRules. rewrite stopMonitoring_rules. cbn [rules].
      pose proof (active_entries_insert_None (rules st) 0 (Z.to_nat id)) as Hins.
      cbn [Nat.add] in Hins. rewrite Z2Nat.id in Hins by lia. exact Hins.
  - rewrite (removeRule_out_of_range id st Hout). cbn [fst snd].
    split; [split; [discriminate|tauto]|]. split; [reflexivity|].
    split; [|reflexivity].
    symmetry. apply filter_all. rewrite Forall_forall. intros entry Hentry.
    apply getActiveRules_in_range in Hentry.
    apply negb_true_iff, Z.eqb_neq. lia.
Qed.

Lemma step_rule_count (op : Op) (st : State) :
  length (rules (step op st))
  = (length (rules st) + count_adds [op])%nat.
Proof.
  destruct op as [rule|id|]; cbn [step count_adds].
  - rewrite addRule_rules, length_app. reflexivity.
  - rewrite removeRule_rule_count. lia.
  - rewrite stopAllMonitoring_rules. lia.
Qed.

Lemma run_rule_count (ops : list Op) (st : State) (stopped : gset Z) :
  length (rules (fst (run ops st stopped)))
  = (length (rules st) + count_adds ops)%nat.
Proof.
  revert st stopped. induction ops as [|op ops IH]; intros st stopped.
  - cbn. lia.
  - cbn [run]. rewrite IH, step_rule_count.
    destruct op; cbn [count_adds]; lia.
Qed.

(** X3. Rule ids are never reused: after any history of [addRule],
    [removeRule] and [stopAllMonitoring] calls on a fresh agent the rule
    count is the number of [addRule] calls, whatever was removed, so the
    next [addRule] returns that number and the ids handed out are
    0, 1, 2, ... in order. *)
Theorem rule_ids_never_reused (ops : list Op) (rule : AutomationRule) :
  length (rules (fst (run ops init ∅))) = count_adds ops /\
  fst (addRule rule (fst (run ops init ∅))) = Z.of_nat (count_adds ops) /\
  (forall entry, entry ∈ getActiveRules (fst (run ops init ∅)) ->
     0 <= ruleId entry < Z.of_nat (count_adds ops)).
Proof.
  pose proof (run_rule_count ops init ∅) as Hcount. cbn [init rules length] in Hcount.
  split; [exact Hcount|]. split.
  - unfold addRule. cbn [fst]. now rewrite Hcount.
  - intros entry Hentry. apply getActiveRules_in_range in Hentry.
    now rewrite Hcount in Hentry.
Qed.

(** X4. [stopAllMonitoring] removes every monitor and cancels every timer
    but does not touch the rules: [getActiveRules()] is unchanged, and a
    second call changes nothing. *)
Theorem stopAllMonitoring_keeps_rules (st : State) :
  rules (stopAllMonitoring st) = rules st /\
  getActiveRules (stopAllMonitoring st) = getActiveRules st /\
  activeMonitors (stopAllMonitoring st) = ∅ /\
  stopAllMonitoring (stopAllMonitoring st) = stopAllMonitoring st.
Proof.
  assert (activeMonitors (stopAllMonitoring st) = ∅) as Hempty.
  { apply map_eq. intros r. rewrite lookup_empty. apply stopAllMonitoring_monitors. }
  split; [apply stopAllMonitoring_rules|]. split; [|split; [exact Hempty|]].
  - unfold getActiveRules. now rewrite stopAllMonitoring_rules.
  - unfold stopAllMonitoring at 1. rewrite Hempty, map_to_list_empty. reflexivity.
Qed.

(** X5. No interval timer is leaked: after any history on a fresh agent
    the live timers are exactly the handles held in the monitor map, each
    held by one rule id, so a rule that was removed has no timer left; and
    [stopAllMonitoring] then leaves no live timer at all. *)
Theorem interval_timers_owned (ops : list Op) :
  timers_owned (fst (run ops init ∅)) /\
  (forall id,
     activeMonitors (snd (removeRule id (fst (run ops init ∅)))) !! id = None) /\
  (forall id, 0 <= id < Z.of_nat (length (rules (fst (run ops init ∅)))) ->
     timers_owned (snd (removeRule id (fst (run ops init ∅))))) /\
  timers (stopAllMonitoring (fst (run ops init ∅))) = ∅.
Proof.
  split; [apply timers_owned_reachable|]. split; [|split].
  - intros id.
    destruct (activeMonitors (snd (removeRule id (fst (run ops init ∅)))) !! id)
      as [t|] eqn:Ht; [exfalso|reflexivity].
    unfold removeRule in Ht.
    destruct ((0 <=? id) && (id <? Z.of_nat (length (rules (fst (run ops init ∅))))))
      eqn:Hrange; cbn [snd] in Ht.
    + rewrite stopMonitoring_monitors, lookup_delete_eq in Ht. discriminate Ht.
    + pose proof (proj2 (monitor_invariant_step_run ops) id) as Hiff.
      destruct (proj1 Hiff (ex_intro _ t Ht)) as (x & Hslot & _).
      apply rules_at_allocated in Hslot.
      apply andb_false_iff in Hrange as [Hlo|Hhi];
        [apply Z.leb_gt in Hlo|apply Z.ltb_ge in Hhi]; lia.
  - intros id Hrange. rewrite (removeRule_in_range id _ Hrange). cbn [snd].
    apply timers_owned_stopMonitoring. exact (timers_owned_reachable ops).
  - apply map_eq. intros t. rewrite lookup_empty.
    apply stopAllMonitoring_cancels_timers.
Qed.

(** X1 to X5 on a history: two alerts are added, the first is removed, all
    monitoring is stopped, and a third rule is added. *)
Lemma addRule_extends_listing_witness :
  getActiveRules (snd (addRule (market_rule (Some (num 1000)))
                         (snd (addRule (market_rule None) init))))
  = [{| ruleId := 0; rule := Some (market_rule None) |};
     {| ruleId := 1; rule := Some (market_rule (Some (num 1000))) |}] /\
  is_Some (activeMonitors
             (snd (addRule (market_rule (Some (num 1000)))
                     (snd (addRule (market_rule None) init)))) !! 1) /\
  activeMonitors (snd (addRule (market_rule (Some (num 1000)))
                         (snd (addRule (market_rule None) init)))) !! 0 = None.
Proof.
  destruct (addRule_extends_listing (market_rule (Some (num 1000)))
              (snd (addRule (market_rule None) init)))
    as (_ & Hlist & Hmon & Hother).
  split; [rewrite Hlist; reflexivity|]. split.
  - apply Hmon. left. reflexivity.
  - rewrite (Hother 0); [reflexivity|]. discriminate.
Defined.

Lemma removeRule_listing_witness :
  fst (removeRule 0 (snd (addRule (market_rule None) init))) = true /\
  fst (removeRule 1 (snd (addRule (market_rule None) init))) = false /\
  snd (removeRule (-1) (snd (addRule (market_rule None) init)))
    = snd (addRule (market_rule None) init).
Proof.
  split; [|split].
  - apply (proj1 (removeRule_listing 0 (snd (addRule (market_rule None) init)))).
    cbn. lia.
  - destruct (fst (removeRule 1 (snd (addRule (market_rule None) init)))) eqn:Hret;
      [|reflexivity].
    apply (proj1 (removeRule_listing 1 (snd (addRule (market_rule None) init))))
      in Hret. cbn in Hret. lia.
  - apply (proj2 (proj2 (proj2
             (removeRule_listing (-1) (snd (addRule (market_rule None) init)))))).
    reflexivity.
Defined.

Lemma rule_ids_never_reused_witness :
  fst (addRule (market_rule None)
         (fst (run [OpAddRule (market_rule None); OpRemoveRule 0;
                    OpAddRule (market_rule None); OpStopAllMonitoring] init ∅)))
  = 2.
Proof.
  apply (proj1 (proj2 (rule_ids_never_reused
           [OpAddRule (market_rule None); OpRemoveRule 0;
            OpAddRule (market_rule None); OpStopAllMonitoring]
           (market_rule None)))).
Defined.

Lemma interval_timers_owned_witness :
  timers_owned
    (snd (removeRule 0
            (fst (run [OpAddRule (market_rule (Some (num 1000)));
                       OpAddRule (market_rule (Some (num 2000)))] init ∅)))).
Proof.
  apply (proj1 (proj2 (proj2 (interval_timers_owned
           [OpAddRule (market_rule (Some (num 1000)));
            OpAddRule (market_rule (Some (num 2000)))]))) 0).
  rewrite run_rule_count. cbn. lia.
Defined.

End RuleListing.

(** ** The remaining task handlers *)

Lemma remove_dups_length {A : Type} `{EqDecision A} (l : list A) :
  (length (remove_dups l) <= length l)%nat.
Proof.
  induction l as [|x l IH]; [reflexivity|].
  cbn. destruct (decide_rel elem_of x l); cbn; lia.
Qed.

Lemma filter_length_le {A : Type} (f : A -> bool) (l : list A) :
  (length (List.filter f l) <= length l)%nat.
Proof.
  induction l as [|x l IH]; [reflexivity|].
  cbn. destruct (f x); cbn; lia.
Qed.

(** X6. [monitor_wallet]: a failing balance lookup is reported with its own
    message, and so is a failing history lookup after a balance was read.
    When both succeed the report carries the balance, the last
    min(5, n) transactions of the history in their order, and a status that
    is "High Activity - Enhanced Security Recommended" iff more than 10
    distinct recipients and more than 5 transactions of value above 1 occur,
    and "Normal Activity" otherwise; a history of at most 10 transactions is
    always "Normal Activity". *)
Theorem monitor_wallet_report (env : Env) (p : TaskParams) :
  (forall e, wallet_getBalance env (address p) = Throw e ->
     CryptoAgent.executeTask env "monitor_wallet" p
       = Ok {| success := false; data := None; error := Some (message e) |}) /\
  (forall balance e,
     wallet_getBalance env (address p) = Ok balance ->
     transactionManager_getTransactionHistory env (address p) = Throw e ->
     CryptoAgent.executeTask env "monitor_wallet" p
       = Ok {| success := false; data := None; error := Some (message e) |}) /\
  (forall balance txs,
     wallet_getBalance env (address p) = Ok balance ->
     transactionManager_getTransactionHistory env (address p) = Ok txs ->
     exists older recent status,
       CryptoAgent.executeTask env "monitor_wallet" p
         = Ok {| success := true;
                 data := Some (WalletReport balance recent status);
                 error := None |}
       /\ txs = older ++ recent
       /\ length recent = Nat.min 5 (length txs)
       /\ (status = "High Activity - Enhanced Security Recommended" <->
           (10 < length (remove_dups (map tx_to txs)))%nat
           /\ (5 < length (List.filter
                             (fun tx => gt (parseFloat (tx_value tx)) (num 1))
                             txs))%nat)
       /\ (status = "High Activity - Enhanced Security Recommended"
           \/ status = "Normal Activity")
       /\ ((length txs <= 10)%nat -> status = "Normal Activity")).
Proof.
  rewrite (executeTask_handler env "monitor_wallet" p _ (tasks_monitor_wallet env)).
  unfold CryptoAgent.monitorWallet.
  split; [|split].
  - intros e Hbal. now rewrite Hbal.
  - intros balance e Hbal Hhist. rewrite Hbal. cbn. now rewrite Hhist.
  - intros balance txs Hbal Hhist. rewrite Hbal. cbn [mbind Exc_bind].
    rewrite Hhist. cbn [mbind mret Exc_bind Exc_ret].
    exists (take (length txs - 5)%nat txs), (drop (length txs - 5)%nat txs),
           (CryptoAgent.assessWalletSecurity txs).
    split; [reflexivity|]. split; [now rewrite take_drop|].
    split; [rewrite length_drop; lia|].
    unfold CryptoAgent.assessWalletSecurity.
    pose proof (remove_dups_length (map tx_to txs)) as Hunique.
    rewrite length_map in Hunique.
    destruct (Nat.ltb_spec 10 (length (remove_dups (map tx_to txs))));
      destruct (Nat.ltb_spec 5
                  (length (List.filter
                             (fun tx => gt (parseFloat (tx_value tx)) (num 1)) txs)));
      cbn [andb].
    + split; [split; [intros _; split; assumption|reflexivity]|].
      split; [now left|]. intros Hsmall. lia.
    + split; [split; [discriminate|intros [_ Hlarge]; lia]|].
      split; [now right|]. reflexivity.
    + split; [split; [discriminate|intros [Hmany _]; lia]|].
      split; [now right|]. reflexivity.
    + split; [split; [discriminate|intros [Hmany _]; lia]|].
      split; [now right|]. reflexivity.
Qed.

(** X6 on a wallet with seven transfers to one recipient. *)
Lemma monitor_wallet_report_witness :
  exists recent,
    CryptoAgent.executeTask
      {| market_getPrice := fun _ => throw_new_Error "unused";
         market_getTopCryptos := fun _ => throw_new_Error "unused";
         market_getMarketStats := throw_new_Error "unused";
         wallet_getBalance := fun _ => Ok "3.5";
         transactionManager_getTransactionHistory := fun _ =>
           Ok (map (fun h => {| tx_hash := h; tx_to := Some "0xabc"; tx_value := "2" |})
                 ["1"; "2"; "3"; "4"; "5"; "6"; "7"]);
         transactionManager_getTransactionStatus := fun _ => throw_new_Error "unused";
         transactionManager_getGasPrice := throw_new_Error "unused";
         contractManager_estimateContractGas := fun _ _ _ _ => throw_new_Error "unused";
         Date_toISOString := "";
         number_digits := fun _ => "" |}
      "monitor_wallet" (monitor_wallet_params (Some "0xabc"))
    = Ok {| success := true;
            data := Some (WalletReport "3.5" recent "Normal Activity");
            error := None |}
    /\ map tx_hash recent = ["3"; "4"; "5"; "6"; "7"].
Proof.
  match goal with
  | |- exists recent, CryptoAgent.executeTask ?env _ ?p = _ /\ _ =>
      destruct (proj2 (proj2 (monitor_wallet_report env p)) "3.5" _ eq_refl eq_refl)
        as (older & recent & status & Hrun & Hsplit & Hlen & _ & _ & Hsmall)
  end.
  exists recent. rewrite Hrun, (Hsmall ltac:(cbn; lia)).
  split; [reflexivity|].
  cbn in Hlen. destruct older as [|o1 [|o2 [|o3 older]]];
    [apply (f_equal length) in Hsplit; cbn in Hsplit; lia
    |apply (f_equal length) in Hsplit; cbn in Hsplit; lia
    | |apply (f_equal length) in Hsplit; cbn in Hsplit;
       rewrite length_app in Hsplit; lia].
  cbn in Hsplit. injection Hsplit as _ _ <-. reflexivity.
Defined.

(** X7. [track_transaction] suggests a higher gas price only for a status
    that is exactly "Pending" together with a gas price above 100; every
    other status, "Failed" and "Not Found" included, is reported as
    "Transaction progressing normally".  A failing status lookup, or a
    failing gas-price lookup after it, is reported with its own message. *)
Theorem track_transaction_report (env : Env) (p : TaskParams) :
  (forall status gasPrice,
     (CryptoAgent.provideTransactionInsights status gasPrice
        = "Consider increasing gas price for faster confirmation"
      <-> status = "Pending" /\ gt (parseFloat gasPrice) (num 100) = true) /\
     (CryptoAgent.provideTransactionInsights status gasPrice
        = "Consider increasing gas price for faster confirmation"
      \/ CryptoAgent.provideTransactionInsights status gasPrice
        = "Transaction progressing normally")) /\
  (forall status gasPrice,
     transactionManager_getTransactionStatus env (txHash p) = Ok status ->
     transactionManager_getGasPrice env = Ok gasPrice ->
     CryptoAgent.executeTask env "track_transaction" p
       = Ok {| success := true;
               data := Some (TransactionTracking status gasPrice
                               (CryptoAgent.provideTransactionInsights status gasPrice));
               error := None |}) /\
  (forall e,
     transactionManager_getTransactionStatus env (txHash p) = Throw e ->
     CryptoAgent.executeTask env "track_transaction" p
       = Ok {| success := false; data := None; error := Some (message e) |}) /\
  (forall status e,
     transactionManager_getTransactionStatus env (txHash p) = Ok status ->
     transactionManager_getGasPrice env = Throw e ->
     CryptoAgent.executeTask env "track_transaction" p
       = Ok {| success := false; data := None; error := Some (message e) |}).
Proof.
  assert (CryptoAgent.tasks env !! "track_transaction"
          = Some (CryptoAgent.trackTransaction env)) as Hreg by reflexivity.
  rewrite (executeTask_handler env "track_transaction" p _ Hreg).
  unfold CryptoAgent.trackTransaction.
  split; [|split; [|split]].
  - intros status gasPrice. unfold CryptoAgent.provideTransactionInsights.
    destruct (String.eqb_spec status "Pending") as [->|Hne];
      destruct (gt (parseFloat gasPrice) (num 100)); cbn [andb];
      (split; [split; [try discriminate; tauto|intros [Hs Hg]; congruence]|auto]).
  - intros status gasPrice Hstatus Hgas. rewrite Hstatus. cbn [mbind Exc_bind].
    now rewrite Hgas.
  - intros e Hstatus. now rewrite Hstatus.
  - intros status e Hstatus Hgas. rewrite Hstatus. cbn [mbind Exc_bind].
    now rewrite Hgas.
Qed.

(** X7 on a failed transaction at a gas price of 250. *)
Lemma track_transaction_report_witness :
  CryptoAgent.executeTask
    {| market_getPrice := fun _ => throw_new_Error "unused";
       market_getTopCryptos := fun _ => throw_new_Error "unused";
       market_getMarketStats := throw_new_Error "unused";
       wallet_getBalance := fun _ => throw_new_Error "unused";
       transactionManager_getTransactionHistory := fun _ => throw_new_Error "unused";
       transactionManager_getTransactionStatus := fun _ => Ok "Failed";
       transactionManager_getGasPrice := Ok "250.0";
       contractManager_estimateContractGas := fun _ _ _ _ => throw_new_Error "unused";
       Date_toISOString := "";
       number_digits := fun _ => "" |}
    "track_transaction" no_params
  = Ok {| success := true;
          data := Some (TransactionTracking "Failed" "250.0"
                          "Transaction progressing normally");
          error := None |}.
Proof.
  match goal with
  | |- CryptoAgent.executeTask ?env _ ?p = _ =>
      rewrite (proj1 (proj2 (track_transaction_report env p))
                 "Failed" "250.0" eq_refl eq_refl)
  end.
  reflexivity.
Defined.

(** X8. The safety check of [smart_contract_interaction] rejects exactly one
    shape of call: method "approve" with the 40-digit all-f string as second
    argument.  Every other call, [transfer] and [mint] included, passes it,
    so whenever the gas estimate succeeds the task reports the estimate with
    safetyCheck "Passed" and the cost line built from it.  A call without
    an argument array fails before any estimate is requested. *)
Theorem contract_safety_check (env : Env) (p : TaskParams) :
  (forall method args,
     (exists e, CryptoAgent.validateContractInteraction method args = Throw e)
     <-> method = Some "approve"
         /\ args !! 1%nat = Some (VString CryptoAgent.infinite_approval)) /\
  (forall args gas,
     params p = Some args ->
     contractManager_estimateContractGas env (address p) (abi p) (method p) args
       = Ok gas ->
     ~ (method p = Some "approve"
        /\ args !! 1%nat = Some (VString CryptoAgent.infinite_approval)) ->
     CryptoAgent.executeTask env "smart_contract_interaction" p
       = Ok {| success := true;
               data := Some (ContractInteraction gas "Passed"
                               ("Estimated cost: " +:+ gas +:+ " gas units"));
               error := None |}) /\
  (params p = None ->
     CryptoAgent.executeTask env "smart_contract_interaction" p
       = Ok {| success := false; data := None;
               error := Some (message CryptoAgent.spread_error) |}).
Proof.
  assert (forall method args,
            (exists e, CryptoAgent.validateContractInteraction method args = Throw e)
            <-> method = Some "approve"
                /\ args !! 1%nat = Some (VString CryptoAgent.infinite_approval))
    as Hcheck.
  { intros method args. split.
    - intros [e He]. unfold CryptoAgent.validateContractInteraction in He.
      destruct (includes CryptoAgent.riskyMethods method); [|discriminate He].
      unfold CryptoAgent.validateHighRiskOperation in He.
      destruct (bool_decide_reflect (method = Some "approve")) as [Hm|Hm];
        [|discriminate He].
      split; [exact Hm|]. cbn [andb] in He.
      unfold strict_eq_string in He.
      destruct (args !! 1%nat) as [v|]; [|discriminate He].
      destruct v as [s|n|b| |]; try discriminate He.
      destruct (String.eqb_spec s CryptoAgent.infinite_approval) as [Heq|Hne];
        [now rewrite Heq|discriminate He].
    - intros [-> Harg]. rewrite (validateContractInteraction_infinite args Harg).
      eexists. reflexivity. }
  split; [exact Hcheck|]. 
  rewrite (executeTask_handler env "smart_contract_interaction" p _
             (tasks_smart_contract_interaction env)).
  unfold CryptoAgent.interactWithContract. split.
  - intros args gas Hparams Hgas Hsafe. rewrite Hparams. cbn [mbind mret Exc_bind Exc_ret].
    rewrite Hgas. cbn [mbind Exc_bind].
    destruct (CryptoAgent.validateContractInteraction (method p) args) as [[]|e] eqn:Hv.
    + reflexivity.
    + exfalso. apply Hsafe, Hcheck. eauto.
  - intros Hparams. now rewrite Hparams.
Qed.

(** X8 on three calls: a [transfer] of the all-f value and an [approve] of
    the 64-digit maximum both pass; a call without arguments fails. *)
Lemma contract_safety_check_witness :
  CryptoAgent.executeTask (sample_env (sample_price (num 100) (num 0)))
    "smart_contract_interaction"
    (contract_params "0xdac17f958d2ee523a2206206994597c13d831ec7" "transfer"
       [VString "0x1111111111111111111111111111111111111111";
        VString CryptoAgent.infinite_approval])
  = Ok {| success := true;
          data := Some (ContractInteraction "21000" "Passed"
                          "Estimated cost: 21000 gas units");
          error := None |} /\
  CryptoAgent.executeTask (sample_env (sample_price (num 100) (num 0)))
    "smart_contract_interaction"
    (contract_params "0xdac17f958d2ee523a2206206994597c13d831ec7" "approve"
       [VString "0x1111111111111111111111111111111111111111";
        VString "0xffffffffffffffffffffffffffffffffffffffffffffffffffffffffffffffff"])
  = Ok {| success := true;
          data := Some (ContractInteraction "21000" "Passed"
                          "Estimated cost: 21000 gas units");
          error := None |}.
Proof.
  split.
  - apply (proj1 (proj2 (contract_safety_check
             (sample_env (sample_price (num 100) (num 0)))
             (contract_params "0xdac17f958d2ee523a2206206994597c13d831ec7" "transfer"
                [VString "0x1111111111111111111111111111111111111111";
                 VString CryptoAgent.infinite_approval])))
             _ "21000" eq_refl eq_refl).
    intros [Hm _]. discriminate Hm.
  - apply (proj1 (proj2 (contract_safety_check
             (sample_env (sample_price (num 100) (num 0)))
             (contract_params "0xdac17f958d2ee523a2206206994597c13d831ec7" "approve"
                [VString "0x1111111111111111111111111111111111111111";
                 VString "0xffffffffffffffffffffffffffffffffffffffffffffffffffffffffffffffff"])))
             _ "21000" eq_refl eq_refl).
    intros [_ Harg]. discriminate Harg.
Defined.

(** ** Numbers in rule conditions *)

Section NumberStrings.

Lemma digits2_pos_iter_xO (p k : positive) :
  digits2_pos (Pos.iter xO p k) = (digits2_pos p + k)%positive.
Proof.
  induction k as [|k IH] using Pos.peano_ind.
  - cbn. lia.
  - rewrite Pos.iter_succ. cbn [digits2_pos]. rewrite IH. lia.
Qed.

(** A mantissa of exactly 53 digits within the exponent range is stored as
    it is. *)
Lemma binary_round_aux_exact (s : bool) (m : positive) (e : Z) :
  digits2_pos m = 53%positive -> -1074 <= e <= 971 ->
  binary_round_aux prec emax s (Zpos m) e loc_Exact = S754_finite s m e.
Proof.
  intros Hd He.
  assert (shr_fexp prec emax (Zpos m) e loc_Exact
          = ({| shr_m := Zpos m; shr_r := false; shr_s := false |}, e)) as Hshr.
  { unfold shr_fexp. cbn [Zdigits2]. rewrite Hd.
    replace (fexp prec emax (53 + e) - e) with 0
      by (unfold fexp, emin, prec, emax; lia).
    reflexivity. }
  unfold binary_round_aux. rewrite Hshr. cbn [shr_m loc_of_shr_record round_nearest_even].
  rewrite Hshr. cbn [shr_m].
  destruct (Z.leb_spec e (emax - prec)) as [_|Hbad]; [reflexivity|].
  unfold emax, prec in Hbad. lia.
Qed.

(** An integer below 2^53 is stored exactly, its mantissa shifted up to 53
    digits. *)
Lemma binary_round_small (s : bool) (p : positive) :
  Zpos p < 2 ^ 53 ->
  exists k, 0 <= k /\
    binary_round prec emax s p 0 = S754_finite s (Z.to_pos (Zpos p * 2 ^ k)) (- k).
Proof.
  intros Hsmall.
  pose proof (digits2_pos_bounds p) as [Hlo Hhi].
  set (d := Zpos (digits2_pos p)) in *.
  assert (d <= 53) as Hd.
  { destruct (Z.le_gt_cases d 53) as [Hle|Hgt]; [exact Hle|exfalso].
    assert (2 ^ 53 <= 2 ^ (d - 1)) by (apply Z.pow_le_mono_r; lia). lia. }
  exists (53 - d). split; [lia|].
  unfold binary_round.
  replace (fexp prec emax (Zpos (digits2_pos p) + 0)) with (d - 53)
    by (unfold fexp, emin, prec, emax; fold d; lia).
  unfold shl_align.
  destruct (d - 53 - 0) as [|q|q] eqn:Hq; try lia.
  - replace (53 - d) with 0 by lia. rewrite Z.mul_1_r. cbn [Z.to_pos].
    rewrite binary_round_aux_exact; [reflexivity| |lia].
    apply Pos2Z.inj. fold d. lia.
  - rewrite binary_round_aux_exact.
    + f_equal; [|lia]. apply Pos2Z.inj. rewrite iter_xO, Z2Pos.id by lia.
      f_equal. f_equal. lia.
    + rewrite digits2_pos_iter_xO. apply Pos2Z.inj.
      rewrite Pos2Z.inj_add. fold d. lia.
    + lia.
Qed.


(** [num] on a nonzero integer. *)
Lemma num_pos (p : positive) : num (Zpos p) = binary_round prec emax false p 0.
Proof. reflexivity. Qed.

Lemma num_neg (p : positive) : num (Zneg p) = binary_round prec emax true p 0.
Proof. reflexivity. Qed.

Lemma integer_value_round_small (s : bool) (p : positive) :
  Zpos p < 2 ^ 53 ->
  integer_value (binary_round prec emax s p 0) = Some (cond_Zopp s (Zpos p)).
Proof.
  intros Hsmall. destruct (binary_round_small s p Hsmall) as (k & Hk & ->).
  unfold integer_value.
  assert (0 < 2 ^ k) as Hpow by (apply Z.pow_pos_nonneg; lia).
  rewrite Z2Pos.id by nia.
  destruct (Z.leb_spec 0 (- k)) as [Hle|Hgt].
  - replace k with 0 by lia. cbn [Z.opp Z.pow]. now rewrite !Z.mul_1_r.
  - rewrite Z.opp_involutive, Z.mod_mul by lia. cbn [Z.eqb].
    now rewrite Z.div_mul by lia.
Qed.

(** Integers of magnitude below 2^53 print as their decimal digits. *)
Lemma Number_toString_integer (digits : number -> string) (z : Z) :
  Z.abs z < 2 ^ 53 -> Number_toString digits (num z) = pretty z.
Proof.
  intros Hsmall. destruct z as [|p|p].
  - reflexivity.
  - rewrite num_pos.
    pose proof (integer_value_round_small false p ltac:(lia)) as Hval.
    destruct (binary_round_small false p ltac:(lia)) as (k & Hk & Hround).
    rewrite Hround in *. unfold Number_toString. rewrite Hval. cbn [cond_Zopp].
    destruct (Z.ltb_spec (Z.abs (Zpos p)) (10 ^ 21)) as [_|Hbig]; [reflexivity|].
    exfalso. assert (2 ^ 53 < 10 ^ 21) by reflexivity. lia.
  - rewrite num_neg.
    pose proof (integer_value_round_small true p ltac:(lia)) as Hval.
    destruct (binary_round_small true p ltac:(lia)) as (k & Hk & Hround).
    rewrite Hround in *. change (cond_Zopp true (Zpos p)) with (Zneg p) in Hval.
    unfold Number_toString. rewrite Hval.
    destruct (Z.ltb_spec (Z.abs (Zneg p)) (10 ^ 21)) as [_|Hbig]; [reflexivity|].
    exfalso. assert (2 ^ 53 < 10 ^ 21) by reflexivity. lia.
Qed.

(** The digit characters. *)
Lemma digit_of_pretty_N_char (d : N) :
  (d < 10)%N -> digit_of (pretty_N_char d) = Some (Z.of_N d).
Proof.
  intros Hd. destruct d as [|p]; [reflexivity|].
  do 4 (destruct p as [p|p|]; try reflexivity; try lia).
Qed.

(** Reading back the digits that [pretty] wrote in front of [s]. *)
Lemma read_digits_pretty_N_go (x : N) :
  (0 < x)%N ->
  exists k, 0 < k /\ forall s acc count,
    read_digits (pretty_N_go x s) acc count
    = read_digits s (acc * 10 ^ k + Z.of_N x) (count + k).
Proof.
  induction x as [x IH] using (well_founded_induction N.lt_wf_0). intros Hx.
  pose proof (N.mod_lt x 10 ltac:(lia)) as Hmod.
  assert (Z.of_N x = 10 * Z.of_N (x / 10) + Z.of_N (x mod 10)) as Hdiv.
  { rewrite (N.div_mod x 10) at 1 by lia. now rewrite N2Z.inj_add, N2Z.inj_mul. }
  destruct (N.eq_dec (x / 10)%N 0%N) as [Hzero|Hnz].
  - exists 1. split; [lia|]. intros s acc count.
    rewrite pretty_N_go_step, Hzero, pretty_N_go_0 by exact Hx.
    cbn [read_digits]. rewrite digit_of_pretty_N_char by exact Hmod.
    f_equal. rewrite Z.pow_1_r, Hdiv, Hzero. cbn [Z.of_N]. ring.
  - destruct (IH (x / 10)%N) as (k & Hk & Hread).
    { apply N.div_lt; lia. }
    { now apply N.neq_0_lt_0. }
    exists (k + 1). split; [lia|]. intros s acc count.
    rewrite pretty_N_go_step, Hread by exact Hx.
    cbn [read_digits]. rewrite digit_of_pretty_N_char by exact Hmod.
    f_equal; [|lia]. rewrite Z.pow_add_r, Z.pow_1_r, Hdiv by lia. ring.
Qed.

(** The digits [pretty] writes start with a digit. *)
Lemma pretty_N_go_head (x : N) (s : string) :
  (0 < x)%N ->
  exists d r, (d < 10)%N /\ pretty_N_go x s = String (pretty_N_char d) r.
Proof.
  revert s. induction x as [x IH] using (well_founded_induction N.lt_wf_0).
  intros s Hx. rewrite pretty_N_go_step by exact Hx.
  destruct (N.eq_dec (x / 10)%N 0%N) as [Hzero|Hnz].
  - rewrite Hzero, pretty_N_go_0. eexists _, _. split; [|reflexivity].
    apply N.mod_lt. lia.
  - apply IH; [apply N.div_lt; lia|now apply N.neq_0_lt_0].
Qed.

(** [parseFloat] on a string that starts with a digit reads the digits. *)
Lemma parseFloat_digit_head (d : N) (r : string) :
  (d < 10)%N ->
  parseFloat (String (pretty_N_char d) r)
  = let '(ip, n_ip, s3) := read_digits (String (pretty_N_char d) r) 0 0 in
    let '(mant, n_fp, s4) :=
      match s3 with
      | String "." r => read_digits r ip 0
      | _ => (ip, 0, s3)
      end in
    if n_ip + n_fp =? 0 then NaN
    else decimal_to_number false mant (read_exponent s4 - n_fp).
Proof.
  intros Hd. destruct d as [|p]; [reflexivity|].
  do 4 (destruct p as [p|p|]; try reflexivity; try lia).
Qed.

Lemma parseFloat_minus_digit_head (d : N) (r : string) :
  (d < 10)%N ->
  parseFloat (String "-" (String (pretty_N_char d) r))
  = let '(ip, n_ip, s3) := read_digits (String (pretty_N_char d) r) 0 0 in
    let '(mant, n_fp, s4) :=
      match s3 with
      | String "." r => read_digits r ip 0
      | _ => (ip, 0, s3)
      end in
    if n_ip + n_fp =? 0 then NaN
    else decimal_to_number true mant (read_exponent s4 - n_fp).
Proof.
  intros Hd. destruct d as [|p]; [reflexivity|].
  do 4 (destruct p as [p|p|]; try reflexivity; try lia).
Qed.

(** [parseFloat] reads the decimal digits of an integer back to the same
    number. *)
Lemma parseFloat_pretty (z : Z) : parseFloat (pretty z) = num z.
Proof.
  destruct z as [|p|p].
  - reflexivity.
  - change (pretty (Zpos p)) with (pretty_N_go (Npos p) "").
    destruct (pretty_N_go_head (Npos p) "" ltac:(lia)) as (d & r & Hd & Hhead).
    destruct (read_digits_pretty_N_go (Npos p) ltac:(lia)) as (k & Hk & Hread).
    rewrite Hhead, (parseFloat_digit_head d r Hd), <- Hhead, Hread.
    cbn [read_digits Z.of_N read_exponent].
    replace (0 * 10 ^ k + Zpos p) with (Zpos p) by lia.
    destruct (Z.eqb_spec (0 + k + 0) 0) as [Hbad|_]; [lia|].
    unfold decimal_to_number.
    change (0 <=? 0 - 0) with true. change (Z.to_pos (10 ^ (0 - 0))) with 1%positive.
    now rewrite Pos.mul_1_r.
  - change (pretty (Zneg p)) with ("-" +:+ pretty_N_go (Npos p) "").
    destruct (pretty_N_go_head (Npos p) "" ltac:(lia)) as (d & r & Hd & Hhead).
    destruct (read_digits_pretty_N_go (Npos p) ltac:(lia)) as (k & Hk & Hread).
    rewrite Hhead.
    change ("-" +:+ String (pretty_N_char d) r)
      with (String "-" (String (pretty_N_char d) r)).
    rewrite (parseFloat_minus_digit_head d r Hd), <- Hhead, Hread.
    cbn [read_digits Z.of_N read_exponent].
    replace (0 * 10 ^ k + Zpos p) with (Zpos p) by lia.
    destruct (Z.eqb_spec (0 + k + 0) 0) as [Hbad|_]; [lia|].
    unfold decimal_to_number.
    change (0 <=? 0 - 0) with true. change (Z.to_pos (10 ^ (0 - 0))) with 1%positive.
    now rewrite Pos.mul_1_r.
Qed.

(** The decimal digits of an integer hold no colon. *)
Lemma colon_free_pretty_N_go (x : N) (s : string) :
  colon_free (pretty_N_go x s) = colon_free s.
Proof.
  revert s. induction x as [x IH] using (well_founded_induction N.lt_wf_0).
  intros s. destruct (N.eq_dec x 0%N) as [->|Hx]; [reflexivity|].
  rewrite pretty_N_go_step, IH by (try apply N.div_lt; lia).
  cbn [colon_free].
  replace (Ascii.eqb (pretty_N_char (x mod 10)) ":") with false; [reflexivity|].
  unfold pretty_N_char. symmetry. repeat case_match; reflexivity.
Qed.

Lemma colon_free_pretty (z : Z) : colon_free (pretty z) = true.
Proof.
  destruct z as [|p|p]; [reflexivity| |].
  - change (pretty (Zpos p)) with (pretty_N_go (Npos p) "").
    now rewrite colon_free_pretty_N_go.
  - change (pretty (Zneg p)) with (String "-" (pretty_N_go (Npos p) "")).
    cbn [colon_free]. now rewrite colon_free_pretty_N_go.
Qed.

(** A strict comparison cannot hold in both directions. *)
Lemma lt_asym (a b : number) : lt a b = true -> lt b a = false.
Proof.
  unfold lt, SFltb, SFcompare.
  destruct a as [sa|sa| |sa ma ea], b as [sb|sb| |sb mb eb];
    try destruct sa; try destruct sb; try discriminate; try reflexivity.
  - destruct (Z.compare_spec ea eb) as [->|Hlt|Hgt]; try discriminate.
    + rewrite Z.compare_refl. 
      change (Pos.compare_cont Eq ma mb) with (Pos.compare ma mb).
      change (Pos.compare_cont Eq mb ma) with (Pos.compare mb ma).
      rewrite (Pos.compare_antisym ma mb).
      destruct (Pos.compare ma mb); try discriminate; reflexivity.
    + intros _. now rewrite (proj2 (Z.compare_lt_iff eb ea) Hgt).
  - destruct (Z.compare_spec ea eb) as [->|Hlt|Hgt]; try discriminate.
    + rewrite Z.compare_refl.
      change (Pos.compare_cont Eq ma mb) with (Pos.compare ma mb).
      change (Pos.compare_cont Eq mb ma) with (Pos.compare mb ma).
      rewrite (Pos.compare_antisym ma mb).
      destruct (Pos.compare ma mb); try discriminate; reflexivity.
    + intros _. now rewrite (proj2 (Z.compare_gt_iff eb ea) Hlt).
Qed.

End NumberStrings.

(** ** The rules the setup helpers install *)

Section SetupRules.
Import AutomationAgent.
Variable env : Env.

(** A rule added with a truthy interval: its slot, its monitor and its
    timer. *)
Lemma addRule_monitored (rule : AutomationRule) (period : number) (st : State) :
  interval rule = Some period -> truthy period = true ->
  rules_at (snd (addRule rule st)) (fst (addRule rule st)) = Some (Some rule) /\
  activeMonitors (snd (addRule rule st)) !! fst (addRule rule st)
    = Some (next_timeout st) /\
  timers (snd (addRule rule st)) !! next_timeout st = Some (rule, period).
Proof.
  intros Hinterval Htruthy.
  assert (truthy_opt (interval rule) = true) as Hopt by now rewrite Hinterval.
  split; [|split].
  - apply rules_at_appended, addRule_rules.
  - rewrite addRule_monitors, Hopt. apply lookup_insert_eq.
  - unfold addRule. cbn [snd fst]. rewrite Hopt. unfold startMonitoring.
    erewrite rules_at_appended by reflexivity.
    rewrite Hopt. cbn [timers next_timeout]. rewrite Hinterval.
    apply lookup_insert_eq.
Qed.

(** A rule added with a falsy interval is stored without a monitor. *)
Lemma addRule_unmonitored (rule : AutomationRule) (st : State) :
  truthy_opt (interval rule) = false ->
  rules_at (snd (addRule rule st)) (fst (addRule rule st)) = Some (Some rule) /\
  activeMonitors (snd (addRule rule st)) = activeMonitors st /\
  timers (snd (addRule rule st)) = timers st.
Proof.
  intros Hfalsy. split; [apply rules_at_appended, addRule_rules|].
  unfold addRule. cbn [snd]. now rewrite Hfalsy.
Qed.

End SetupRules.

Section SetupTheorems.
Import AutomationAgent.

Lemma addRule_monitored_with (rule : AutomationRule) (period : number) (st : State) :
  interval rule = Some period -> truthy period = true ->
  monitored_with period st (addRule rule st).
Proof.
  intros Hinterval Htruthy.
  destruct (addRule_monitored rule period st Hinterval Htruthy) as (Hslot & Hmon & Htimer).
  split; [reflexivity|]. exists rule. auto.
Qed.

Lemma addRule_stored_unmonitored (rule : AutomationRule) (period : number) (st : State) :
  interval rule = Some period -> truthy period = false ->
  stored_unmonitored period st (addRule rule st).
Proof.
  intros Hinterval Hfalsy.
  destruct (addRule_unmonitored rule st) as (Hslot & Hmon & Htimer);
    [now rewrite Hinterval|].
  split; [reflexivity|]. split; [exists rule; auto|]. auto.
Qed.

(** X9. A price alert set at an integer threshold of magnitude below 2^53
    stores a rule whose condition names the symbol and the decimal digits of
    the threshold, and evaluating that condition compares the fetched price
    with the very threshold the alert was set at: it is true exactly when
    the price is strictly below it, and false when the price cannot be
    fetched.  When the condition holds, the rule's action at the same price
    is the buy of 0.1 of the symbol, executed at that price. *)
Theorem price_alert_round_trip (env : Env) (sym : string) (z : Z)
    (period : option number) (st : State) :
  colon_free sym = true -> Z.abs z < 2 ^ 53 ->
  exists rule,
    rules_at (snd (setupPriceAlert env sym (num z) period st))
      (fst (setupPriceAlert env sym (num z) period st)) = Some (Some rule) /\
    condition rule = "price_below_threshold:" +:+ sym +:+ ":" +:+ pretty z /\
    action rule = "execute_trade" /\
    rule_params rule = trade_params "buy" sym "0.1" (Some (num z)) /\
    (forall pd, market_getPrice env (Some sym) = Ok pd ->
       evaluateCondition env (condition rule) = Ok (lt (price pd) (num z)) /\
       (lt (price pd) (num z) = true ->
        executeAction env (action rule) (rule_params rule)
        = Ok {| success := true;
                data := Some (TradeExecution (Some "buy") (Some "0.1") (Some sym)
                                (price pd) (Date_toISOString env));
                error := None |})) /\
    (forall e, market_getPrice env (Some sym) = Throw e ->
       evaluateCondition env (condition rule) = Ok false).
Proof.
  intros Hsym Hsmall. unfold setupPriceAlert.
  rewrite (Number_toString_integer (number_digits env) z Hsmall).
  exists {| condition := "price_below_threshold:" +:+ sym +:+ ":" +:+ pretty z;
            action := "execute_trade";
            rule_params := trade_params "buy" sym "0.1" (Some (num z));
            interval := Some (default (num 60000) period) |}.
  split; [apply rules_at_appended, addRule_rules|].
  cbn [condition action rule_params].
  split; [reflexivity|]. split; [reflexivity|]. split; [reflexivity|].
  assert (split ":" ("price_below_threshold:" +:+ sym +:+ ":" +:+ pretty z)
          = ["price_below_threshold"; sym; pretty z]) as Hsplit.
  { change ("price_below_threshold:" +:+ sym +:+ ":" +:+ pretty z)
      with ("price_below_threshold" +:+ String ":" (sym +:+ String ":" (pretty z))).
    apply split_condition; [reflexivity|exact Hsym|apply colon_free_pretty]. }
  rewrite (evaluateCondition_price env _ _ Hsplit).
  cbn [lookup list_lookup parseFloat_opt ToString_opt].
  change (parseFloat_opt (Some (pretty z))) with (parseFloat (pretty z)).
  rewrite parseFloat_pretty.
  split.
  - intros pd Hget. rewrite Hget. split; [reflexivity|]. intros Hbelow.
    unfold executeAction.
    rewrite (executeTask_handler env "execute_trade" _ _ (tasks_execute_trade env)).
    destruct (truthy (num z)) eqn:Htruthy.
    + rewrite (executeTrade_guarded env (trade_params "buy" sym "0.1" (Some (num z)))
                 (num z) pd eq_refl Htruthy Hget).
      cbn [type trade_params].
      change (gt (price pd) (num z)) with (lt (num z) (price pd)).
      rewrite (lt_asym _ _ Hbelow), andb_false_r.
      rewrite (bool_decide_eq_false_2 (Some "buy" = Some "sell")) by discriminate.
      reflexivity.
    + rewrite (executeTrade_unguarded env (trade_params "buy" sym "0.1" (Some (num z))) pd);
        [reflexivity| |exact Hget].
      cbn [priceThreshold truthy_opt]. exact Htruthy.
  - intros e Hget. now rewrite Hget.
Qed.

(** X9 on an alert for [eth] at 3000 while the price is 2500. *)
Lemma price_alert_round_trip_witness :
  exists rule,
    rules_at (snd (setupPriceAlert (sample_env (sample_price (num 2500) (num 0)))
                     "eth" (num 3000) None init)) 0
      = Some (Some rule) /\
    condition rule = "price_below_threshold:eth:3000" /\
    evaluateCondition (sample_env (sample_price (num 2500) (num 0))) (condition rule)
      = Ok true.
Proof.
  destruct (price_alert_round_trip (sample_env (sample_price (num 2500) (num 0)))
              "eth" 3000 None init eq_refl eq_refl)
    as (rule & Hslot & Hcond & _ & _ & Hfire & _).
  exists rule. split; [exact Hslot|]. split; [exact Hcond|].
  exact (proj1 (Hfire (sample_price (num 2500) (num 0)) eq_refl)).
Defined.

(** X10. Called without an interval, [setupPriceAlert], [setupWalletMonitor]
    and [setupMarketAnalysis] store their rule under the next id and start a
    fresh timer for it with the default period of 60000, 300000 and 3600000
    milliseconds.  With an explicit interval the timer has that period when
    the interval is truthy; an explicit interval of 0 or NaN stores the rule
    and starts nothing. *)
Theorem setup_rules_monitoring (env : Env) (st : State) :
  (forall sym th,
     monitored_with (num 60000) st (setupPriceAlert env sym th None st)) /\
  (forall addr minBalance,
     monitored_with (num 300000) st (setupWalletMonitor addr minBalance None st)) /\
  monitored_with (num 3600000) st (setupMarketAnalysis None st) /\
  (forall period, truthy period = true ->
     (forall sym th,
        monitored_with period st (setupPriceAlert env sym th (Some period) st)) /\
     (forall addr minBalance,
        monitored_with period st (setupWalletMonitor addr minBalance (Some period) st)) /\
     monitored_with period st (setupMarketAnalysis (Some period) st)) /\
  (forall period, truthy period = false ->
     (forall sym th,
        stored_unmonitored period st (setupPriceAlert env sym th (Some period) st)) /\
     (forall addr minBalance,
        stored_unmonitored period st
          (setupWalletMonitor addr minBalance (Some period) st)) /\
     stored_unmonitored period st (setupMarketAnalysis (Some period) st)).
Proof.
  split; [|split; [|split; [|split]]].
  - intros sym th. now apply addRule_monitored_with.
  - intros addr minBalance. now apply addRule_monitored_with.
  - now apply addRule_monitored_with.
  - intros period Htruthy. split; [|split].
    + intros sym th. now apply addRule_monitored_with.
    + intros addr minBalance. now apply addRule_monitored_with.
    + now apply addRule_monitored_with.
  - intros period Hfalsy. split; [|split].
    + intros sym th. now apply addRule_stored_unmonitored.
    + intros addr minBalance. now apply addRule_stored_unmonitored.
    + now apply addRule_stored_unmonitored.
Qed.

(** X10 on a wallet monitor with an explicit interval of 0. *)
Lemma setup_rules_monitoring_witness :
  stored_unmonitored (num 0) init (setupWalletMonitor "0xabc" "1.0" (Some (num 0)) init) /\
  monitored_with (num 1000) init (setupMarketAnalysis (Some (num 1000)) init).
Proof.
  destruct (setup_rules_monitoring (sample_env (sample_price (num 0) (num 0))) init)
    as (_ & _ & _ & Hon & Hoff).
  split.
  - exact (proj1 (proj2 (Hoff (num 0) eq_refl)) "0xabc" "1.0").
  - exact (proj2 (proj2 (Hon (num 1000) eq_refl))).
Defined.

(** X11. The rule [setupMarketAnalysis] installs never acts: its condition
    "market_analysis" is of no known type, so every evaluation yields false,
    whatever the market clients answer.  The rule [setupWalletMonitor]
    installs for a colon-free address and minimum evaluates to true exactly
    when balance and history can be fetched and the balance is strictly
    above the minimum. *)
Theorem setup_rule_conditions (env : Env) (period : option number) (st : State) :
  (exists rule,
     rules_at (snd (setupMarketAnalysis period st))
       (fst (setupMarketAnalysis period st)) = Some (Some rule) /\
     action rule = "analyze_market" /\
     evaluateCondition env (condition rule) = Ok false) /\
  (forall addr minBalance,
     colon_free addr = true -> colon_free minBalance = true ->
     exists rule,
       rules_at (snd (setupWalletMonitor addr minBalance period st))
         (fst (setupWalletMonitor addr minBalance period st)) = Some (Some rule) /\
       action rule = "monitor_wallet" /\
       rule_params rule = monitor_wallet_params (Some addr) /\
       exists b,
         evaluateCondition env (condition rule) = Ok b /\
         (b = true <->
          exists balance txs,
            wallet_getBalance env (Some addr) = Ok balance
            /\ transactionManager_getTransactionHistory env (Some addr) = Ok txs
            /\ gt (parseFloat balance) (parseFloat minBalance) = true)).
Proof.
  split.
  - unfold setupMarketAnalysis. eexists.
    split; [apply rules_at_appended, addRule_rules|]. split; [reflexivity|].
    cbn [condition].
    apply (evaluateCondition_unknown env "market_analysis" "market_analysis" [] eq_refl);
      discriminate.
  - intros addr minBalance Haddr Hmin. unfold setupWalletMonitor. eexists.
    split; [apply rules_at_appended, addRule_rules|]. split; [reflexivity|].
    split; [reflexivity|]. cbn [condition].
    assert (split ":" ("wallet_balance_above:" +:+ addr +:+ ":" +:+ minBalance)
            = ["wallet_balance_above"; addr; minBalance]) as Hsplit.
    { change ("wallet_balance_above:" +:+ addr +:+ ":" +:+ minBalance)
        with ("wallet_balance_above" +:+ String ":" (addr +:+ String ":" minBalance)).
      now apply split_condition. }
    rewrite (evaluateCondition_wallet env _ _ Hsplit).
    cbn [lookup list_lookup parseFloat_opt ToString_opt].
    destruct (wallet_getBalance env (Some addr)) as [balance|e].
    + destruct (transactionManager_getTransactionHistory env (Some addr)) as [txs|e].
      * eexists. split; [reflexivity|]. split.
        -- intros Hgt. exists balance, txs. auto.
        -- intros (b & t & [= <-] & _ & Hgt). exact Hgt.
      * exists false. split; [reflexivity|]. split; [discriminate|].
        intros (b & t & _ & Hbad & _). discriminate Hbad.
    + exists false. split; [reflexivity|]. split; [discriminate|].
      intros (b & t & Hbad & _). discriminate Hbad.
Qed.

(** X11 on a wallet holding 1.5 with a minimum of 1.0. *)
Lemma setup_rule_conditions_witness :
  exists rule,
    rules_at (snd (setupWalletMonitor "0xabc" "1.0" None init)) 0 = Some (Some rule) /\
    evaluateCondition (sample_env (sample_price (num 0) (num 0))) (condition rule)
      = Ok true.
Proof.
  destruct (proj2 (setup_rule_conditions (sample_env (sample_price (num 0) (num 0)))
                     None init) "0xabc" "1.0" eq_refl eq_refl)
    as (rule & Hslot & _ & _ & b & Hrun & Hiff).
  exists rule. split; [exact Hslot|].
  transitivity (Ok b); [exact Hrun|]. f_equal. apply Hiff.
  exists "1.5", []. split; [reflexivity|]. split; reflexivity.
Defined.

End SetupTheorems.

(** ** The blockchain clients *)

Section Clients.
Variable provider : Provider.

(** The scanning loop from block [i] with enough fuel, when every block up
    to [currentBlock] can be fetched. *)
Lemma for_blocks_all (address : option string) (blocks : Z -> Block)
    (currentBlock : Z) (fuel : nat) (i : Z) (history : list TransactionResponse) :
  (forall j, i <= j <= currentBlock ->
     provider_getBlockWithTransactions provider j = Ok (blocks j)) ->
  Z.of_nat fuel = Z.max 0 (currentBlock - i + 1) ->
  TransactionManager.for_blocks provider fuel address currentBlock i history
  = Ok (history ++ relevant_history address blocks i currentBlock).
Proof.
  revert i history. induction fuel as [|fuel IH]; intros i history Hblocks Hfuel.
  - unfold relevant_history. rewrite (seqZ_nil i) by lia. cbn.
    now rewrite app_nil_r.
  - cbn [TransactionManager.for_blocks].
    destruct (Z.leb_spec i currentBlock) as [Hle|Hgt]; [|lia].
    rewrite (Hblocks i) by lia. cbn [mbind Exc_bind].
    rewrite (IH (i + 1)); [|intros j Hj; apply Hblocks; lia|lia].
    f_equal. rewrite <- app_assoc. f_equal.
    unfold relevant_history.
    rewrite (seqZ_cons i (currentBlock - i + 1)) by lia. cbn [flat_map].
    f_equal. f_equal. f_equal; lia.
Qed.

(** The scanning loop stops at the first block that cannot be fetched. *)
Lemma for_blocks_fails (address : option string) (currentBlock bad : Z) (e : Error)
    (fuel : nat) (i : Z) (history : list TransactionResponse) :
  i <= bad <= currentBlock ->
  (forall j, i <= j < bad ->
     exists block, provider_getBlockWithTransactions provider j = Ok block) ->
  provider_getBlockWithTransactions provider bad = Throw e ->
  Z.of_nat fuel = Z.max 0 (currentBlock - i + 1) ->
  TransactionManager.for_blocks provider fuel address currentBlock i history
  = Throw e.
Proof.
  revert i history. induction fuel as [|fuel IH]; intros i history Hbad Hbefore He Hfuel.
  - lia.
  - cbn [TransactionManager.for_blocks].
    destruct (Z.leb_spec i currentBlock) as [Hle|Hgt]; [|lia].
    destruct (Z.eq_dec i bad) as [->|Hne].
    + now rewrite He.
    + destruct (Hbefore i ltac:(lia)) as [block Hblock]. rewrite Hblock.
      cbn [mbind Exc_bind].
      apply IH; [lia|intros j Hj; apply Hbefore; lia|exact He|lia].
Qed.

(** Whatever the loop returns extends its history by relevant
    transactions only. *)
Lemma for_blocks_relevant (address : option string) (currentBlock : Z)
    (fuel : nat) (i : Z) (history result : list TransactionResponse) :
  TransactionManager.for_blocks provider fuel address currentBlock i history
    = Ok result ->
  exists more, result = history ++ more
    /\ Forall (fun tx => TransactionManager.relevant address tx = true) more.
Proof.
  revert i history. induction fuel as [|fuel IH]; intros i history Hrun.
  - injection Hrun as <-. exists []. now rewrite app_nil_r.
  - cbn [TransactionManager.for_blocks] in Hrun.
    destruct (i <=? currentBlock).
    + destruct (provider_getBlockWithTransactions provider i) as [block|e];
        [|discriminate Hrun].
      cbn [mbind Exc_bind] in Hrun.
      destruct (IH _ _ Hrun) as (more & -> & Hmore).
      eexists. rewrite <- app_assoc. split; [reflexivity|].
      apply Forall_app. split; [|exact Hmore].
      rewrite Forall_forall. intros tx Htx.
      apply list_elem_of_In, filter_In in Htx. tauto.
    + injection Hrun as <-. exists []. now rewrite app_nil_r.
Qed.

Lemma relevant_spec (address : option string) (tx : TransactionResponse) :
  TransactionManager.relevant address tx = true
  <-> exists a, address = Some a /\ (tr_from tx = a \/ tr_to tx = Some a).
Proof.
  unfold TransactionManager.relevant. destruct address as [a|].
  - rewrite orb_true_iff, String.eqb_eq. split.
    + intros [Hfrom|Hto]; exists a; split; auto.
      destruct (tr_to tx) as [to|]; [|discriminate Hto].
      apply String.eqb_eq in Hto. right. now rewrite Hto.
    + intros (a' & [= <-] & [Hfrom|Hto]); [now left|right].
      rewrite Hto. apply String.eqb_refl.
  - split; [discriminate|]. intros (a & Hbad & _). discriminate Hbad.
Qed.

End Clients.

(** X12. [getTransactionHistory(address, startBlock)] fetches the blocks
    [startBlock .. currentBlock] in order.  When all of them can be fetched
    it returns exactly their transactions sent from or to [address], in
    block order; an empty range returns the empty history.  When a block in
    the range cannot be fetched the call fails with the error of the first
    such block and no partial history is returned.  Every transaction of a
    returned history has [address] as its sender or recipient. *)
Theorem transaction_history_scan (provider : Provider) (address : option string)
    (startBlock currentBlock : Z) :
  provider_getBlockNumber provider = Ok currentBlock ->
  (forall blocks,
     (forall i, startBlock <= i <= currentBlock ->
        provider_getBlockWithTransactions provider i = Ok (blocks i)) ->
     TransactionManager.getTransactionHistory provider address startBlock
     = Ok (relevant_history address blocks startBlock currentBlock)) /\
  (currentBlock < startBlock ->
     TransactionManager.getTransactionHistory provider address startBlock = Ok []) /\
  (forall bad e,
     startBlock <= bad <= currentBlock ->
     (forall i, startBlock <= i < bad ->
        exists block, provider_getBlockWithTransactions provider i = Ok block) ->
     provider_getBlockWithTransactions provider bad = Throw e ->
     TransactionManager.getTransactionHistory provider address startBlock = Throw e) /\
  (forall history tx,
     TransactionManager.getTransactionHistory provider address startBlock
       = Ok history ->
     tx ∈ history ->
     exists a, address = Some a /\ (tr_from tx = a \/ tr_to tx = Some a)).
Proof.
  intros Hcurrent. unfold TransactionManager.getTransactionHistory.
  rewrite Hcurrent. cbn [mbind Exc_bind].
  split; [|split; [|split]].
  - intros blocks Hblocks.
    rewrite (for_blocks_all provider address blocks); [reflexivity|exact Hblocks|lia].
  - intros Hempty. replace (Z.to_nat (currentBlock - startBlock + 1)) with 0%nat by lia.
    reflexivity.
  - intros bad e Hbad Hbefore He.
    apply (for_blocks_fails provider address currentBlock bad e); auto. lia.
  - intros history tx Hrun Htx.
    destruct (for_blocks_relevant provider _ _ _ _ _ _ Hrun) as (more & -> & Hmore).
    rewrite app_nil_l in Htx. rewrite Forall_forall in Hmore.
    apply relevant_spec, Hmore, Htx.
Qed.

(** X12 on the sample chain: the history of [0xa1] from block 0 holds the
    transfer it sent in block 0 and the one it received in block 2. *)
Lemma transaction_history_scan_witness :
  exists history,
    TransactionManager.getTransactionHistory sample_provider (Some "0xa1") 0
      = Ok history
    /\ map tr_hash history = ["0xt0"; "0xt2"].
Proof.
  eexists. split.
  - exact (proj1 (transaction_history_scan sample_provider (Some "0xa1") 0 2 eq_refl)
             sample_block (fun i _ => eq_refl)).
  - reflexivity.
Defined.

(** X13. [getTransactionStatus] answers one of "Not Found", "Pending",
    "Confirmed" and "Failed": "Not Found" exactly when the provider knows no
    such transaction, "Pending" exactly when it knows the transaction but has
    no receipt, "Confirmed" exactly when the receipt's status is truthy, and
    "Failed" for every other receipt, one without a status included.  On an
    agent whose transaction client is this one, [track_transaction] advises
    a higher gas price only for a known transaction without receipt. *)
Theorem transaction_status_outcomes (provider : Provider) (hash : option string) :
  (forall s, TransactionManager.getTransactionStatus provider hash = Ok s ->
     s ∈ transaction_statuses) /\
  (TransactionManager.getTransactionStatus provider hash = Ok "Not Found"
   <-> provider_getTransaction provider hash = Ok None) /\
  (TransactionManager.getTransactionStatus provider hash = Ok "Pending"
   <-> (exists tx, provider_getTransaction provider hash = Ok (Some tx))
       /\ provider_getTransactionReceipt provider hash = Ok None) /\
  (TransactionManager.getTransactionStatus provider hash = Ok "Confirmed"
   <-> (exists tx, provider_getTransaction provider hash = Ok (Some tx))
       /\ exists receipt,
            provider_getTransactionReceipt provider hash = Ok (Some receipt)
            /\ truthy_opt (receipt_status receipt) = true) /\
  (TransactionManager.getTransactionStatus provider hash = Ok "Failed"
   <-> (exists tx, provider_getTransaction provider hash = Ok (Some tx))
       /\ exists receipt,
            provider_getTransactionReceipt provider hash = Ok (Some receipt)
            /\ truthy_opt (receipt_status receipt) = false) /\
  (forall env p r status gas,
     agent_transaction_status provider env -> txHash p = hash ->
     CryptoAgent.executeTask env "track_transaction" p = Ok r ->
     data r = Some (TransactionTracking status gas increase_gas_price) ->
     (exists tx, provider_getTransaction provider hash = Ok (Some tx))
     /\ provider_getTransactionReceipt provider hash = Ok None
     /\ gt (parseFloat gas) (num 100) = true).
Proof.
  assert (TransactionManager.getTransactionStatus provider hash = Ok "Pending"
          <-> (exists tx, provider_getTransaction provider hash = Ok (Some tx))
              /\ provider_getTransactionReceipt provider hash = Ok None) as Hpending.
  { unfold TransactionManager.getTransactionStatus.
    destruct (provider_getTransaction provider hash) as [[tx|]|e];
      cbn [mbind mret Exc_bind Exc_ret].
    - destruct (provider_getTransactionReceipt provider hash) as [[receipt|]|e'];
        cbn [mbind mret Exc_bind Exc_ret].
      + destruct (truthy_opt (receipt_status receipt));
          (split; [discriminate|intros [_ Hbad]; discriminate Hbad]).
      + split; [eauto|reflexivity].
      + split; [discriminate|intros [_ Hbad]; discriminate Hbad].
    - split; [discriminate|intros [[tx Hbad] _]; discriminate Hbad].
    - split; [discriminate|intros [[tx Hbad] _]; discriminate Hbad]. }
  split; [|split; [|split; [exact Hpending|split; [|split]]]].
  - intros s. unfold TransactionManager.getTransactionStatus, transaction_statuses.
    destruct (provider_getTransaction provider hash) as [[tx|]|e];
      cbn [mbind mret Exc_bind Exc_ret]; [| |discriminate].
    + destruct (provider_getTransactionReceipt provider hash) as [[receipt|]|e'];
        cbn [mbind mret Exc_bind Exc_ret]; [| |discriminate].
      * destruct (truthy_opt (receipt_status receipt)); intros [= <-];
          rewrite !elem_of_cons; auto.
      * intros [= <-]. rewrite !elem_of_cons; auto.
    + intros [= <-]. rewrite !elem_of_cons; auto.
  - unfold TransactionManager.getTransactionStatus.
    destruct (provider_getTransaction provider hash) as [[tx|]|e];
      cbn [mbind mret Exc_bind Exc_ret]; [|tauto|split; discriminate].
    destruct (provider_getTransactionReceipt provider hash) as [[receipt|]|e'];
      cbn [mbind mret Exc_bind Exc_ret]; try (split; discriminate).
    destruct (truthy_opt (receipt_status receipt)); split; discriminate.
  - unfold TransactionManager.getTransactionStatus.
    destruct (provider_getTransaction provider hash) as [[tx|]|e];
      cbn [mbind mret Exc_bind Exc_ret].
    + destruct (provider_getTransactionReceipt provider hash) as [[receipt|]|e'];
        cbn [mbind mret Exc_bind Exc_ret].
      * destruct (truthy_opt (receipt_status receipt)) eqn:Hstatus.
        -- split; [intros _; eauto|reflexivity].
        -- split; [discriminate|].
           intros (_ & receipt' & [= <-] & Hbad). congruence.
      * split; [discriminate|intros (_ & receipt' & Hbad & _); discriminate Hbad].
      * split; [discriminate|intros (_ & receipt' & Hbad & _); discriminate Hbad].
    + split; [discriminate|intros [[tx Hbad] _]; discriminate Hbad].
    + split; [discriminate|intros [[tx Hbad] _]; discriminate Hbad].
  - unfold TransactionManager.getTransactionStatus.
    destruct (provider_getTransaction provider hash) as [[tx|]|e];
      cbn [mbind mret Exc_bind Exc_ret].
    + destruct (provider_getTransactionReceipt provider hash) as [[receipt|]|e'];
        cbn [mbind mret Exc_bind Exc_ret].
      * destruct (truthy_opt (receipt_status receipt)) eqn:Hstatus.
        -- split; [discriminate|].
           intros (_ & receipt' & [= <-] & Hbad). congruence.
        -- split; [intros _; eauto|reflexivity].
      * split; [discriminate|intros (_ & receipt' & Hbad & _); discriminate Hbad].
      * split; [discriminate|intros (_ & receipt' & Hbad & _); discriminate Hbad].
    + split; [discriminate|intros [[tx Hbad] _]; discriminate Hbad].
    + split; [discriminate|intros [[tx Hbad] _]; discriminate Hbad].
  - intros env p r status gas Hclient Hhash Hrun Hdata.
    assert (CryptoAgent.tasks env !! "track_transaction"
            = Some (CryptoAgent.trackTransaction env)) as Hreg by reflexivity.
    rewrite (executeTask_handler env "track_transaction" p _ Hreg) in Hrun.
    unfold CryptoAgent.trackTransaction in Hrun.
    rewrite Hclient, Hhash in Hrun.
    destruct (TransactionManager.getTransactionStatus provider hash) as [s|e] eqn:Hs;
      cbn [mbind mret Exc_bind Exc_ret] in Hrun;
      [|injection Hrun as <-; discriminate Hdata].
    destruct (transactionManager_getGasPrice env) as [g|e];
      cbn [mbind mret Exc_bind Exc_ret] in Hrun;
      injection Hrun as <-; [|discriminate Hdata].
    cbn [data] in Hdata. injection Hdata as -> -> Hrec.
    unfold CryptoAgent.provideTransactionInsights, increase_gas_price in Hrec.
    destruct (String.eqb_spec status "Pending") as [->|Hne];
      [|discriminate Hrec].
    destruct (gt (parseFloat gas) (num 100)) eqn:Hgas; [|discriminate Hrec].
    destruct (proj1 Hpending eq_refl) as [Htx Hreceipt]. auto.
Qed.

(** X13 on the sample provider: [0xt1] is pending at a gas price of 150
    gwei, and an unknown hash is "Not Found". *)
Lemma transaction_status_outcomes_witness :
  TransactionManager.getTransactionStatus sample_provider (Some "0xt1") = Ok "Pending" /\
  TransactionManager.getTransactionStatus sample_provider (Some "0xzz") = Ok "Not Found".
Proof.
  split.
  - apply (proj1 (proj2 (proj2 (transaction_status_outcomes sample_provider
                                  (Some "0xt1"))))).
    split; [eexists; reflexivity|reflexivity].
  - apply (proj1 (proj2 (transaction_status_outcomes sample_provider (Some "0xzz")))).
    reflexivity.
Defined.

(** X14. [getBalance(address)] asks the provider for the balance of
    [address] when it is a non-empty string, whatever wallet is held; for a
    missing or empty [address] it uses the held wallet's address, and with
    no wallet either it fails with "No wallet address specified".  On an
    agent, whose wallet client never holds a wallet, [monitor_wallet]
    without an address therefore always fails with that message. *)
Theorem wallet_balance_target (provider : Provider) (wallet addr : option string) :
  (forall a, addr = Some a -> a <> "" ->
     CryptoWallet.getBalance provider wallet addr
     = (balance ← provider_getBalance provider a;
        mret (utils_formatEther provider balance))) /\
  (forall w, truthy_string addr = false -> wallet = Some w -> w <> "" ->
     CryptoWallet.getBalance provider wallet addr
     = (balance ← provider_getBalance provider w;
        mret (utils_formatEther provider balance))) /\
  (truthy_string addr = false -> truthy_string wallet = false ->
     CryptoWallet.getBalance provider wallet addr
     = throw_new_Error "No wallet address specified") /\
  (forall env p,
     agent_wallet_balance provider env -> address p = addr ->
     truthy_string addr = false ->
     CryptoAgent.executeTask env "monitor_wallet" p
     = Ok {| success := false; data := None;
             error := Some "No wallet address specified" |}).
Proof.
  assert (forall w, truthy_string addr = false -> truthy_string w = false ->
            CryptoWallet.getBalance provider w addr
            = throw_new_Error "No wallet address specified") as Hnone.
  { intros w Haddr Hw. unfold CryptoWallet.getBalance. rewrite Haddr.
    destruct w as [w|]; [|reflexivity].
    cbn [truthy_string] in Hw. apply negb_false_iff in Hw. now rewrite Hw. }
  split; [|split; [|split]].
  - intros a -> Ha. unfold CryptoWallet.getBalance. cbn [truthy_string].
    apply String.eqb_neq in Ha. rewrite Ha. cbn [negb]. now rewrite Ha.
  - intros w Haddr -> Hw. unfold CryptoWallet.getBalance. rewrite Haddr.
    apply String.eqb_neq in Hw. now rewrite Hw.
  - apply Hnone.
  - intros env p Hclient Hp Haddr.
    rewrite (executeTask_handler env "monitor_wallet" p _ (tasks_monitor_wallet env)).
    unfold CryptoAgent.monitorWallet. rewrite Hclient, Hp, (Hnone None Haddr eq_refl).
    reflexivity.
Qed.

(** X14 on the sample provider: a wallet check without an address fails,
    one with an address reports the formatted balance. *)
Lemma wallet_balance_target_witness :
  CryptoAgent.executeTask (provider_env sample_provider) "monitor_wallet" no_params
  = Ok {| success := false; data := None;
          error := Some "No wallet address specified" |} /\
  CryptoWallet.getBalance sample_provider None (Some "0xa1") = Ok "1.5".
Proof.
  split.
  - exact (proj2 (proj2 (proj2 (wallet_balance_target sample_provider None None)))
             (provider_env sample_provider) no_params eq_refl eq_refl eq_refl).
  - rewrite (proj1 (wallet_balance_target sample_provider None (Some "0xa1"))
               "0xa1" eq_refl); [reflexivity|discriminate].
Defined.

(** ** The routers' alerts, orders and market analysis *)

Section RouterHandlers.
Import AutomationAgent.
Variable env : Env.

(** No number is below NaN. *)
Lemma lt_NaN_r (x : number) : lt x NaN = false.
Proof. now destruct x as [s|s| |s m e]. Qed.

Lemma lt_irrefl (x : number) : lt x x = false.
Proof.
  destruct (lt x x) eqn:Hlt; [|reflexivity].
  pose proof (lt_asym x x Hlt) as Hno. congruence.
Qed.

(** What the condition of a price alert at threshold [th] evaluates to,
    when the digits of [th] hold no colon. *)
Lemma evaluateCondition_price_alert (sym : string) (th : number) :
  colon_free sym = true ->
  colon_free (Number_toString (number_digits env) th) = true ->
  evaluateCondition env
    ("price_below_threshold:" +:+ sym +:+ ":"
       +:+ Number_toString (number_digits env) th)
  = match market_getPrice env (Some sym) with
    | Ok pd => Ok (lt (price pd) (parseFloat (Number_toString (number_digits env) th)))
    | Throw _ => Ok false
    end.
Proof.
  intros Hsym Hth.
  assert (split ":" ("price_below_threshold:" +:+ sym +:+ ":"
                       +:+ Number_toString (number_digits env) th)
          = ["price_below_threshold"; sym; Number_toString (number_digits env) th])
    as Hsplit.
  { change ("price_below_threshold:" +:+ sym +:+ ":"
              +:+ Number_toString (number_digits env) th)
      with ("price_below_threshold"
              +:+ String ":" (sym +:+ String ":"
                                (Number_toString (number_digits env) th))).
    now apply split_condition. }
  rewrite (evaluateCondition_price env _ _ Hsplit). reflexivity.
Qed.

(** The rule a chat alert installs, for either router: the state after the
    handler is that of [setupPriceAlert] at the parsed price with the
    default interval. *)
Lemma price_alert_installed (sym : string) (th : number) (st : State) :
  colon_free sym = true ->
  exists rule,
    rules_at (snd (setupPriceAlert env sym th None st))
      (Z.of_nat (length (rules st))) = Some (Some rule) /\
    activeMonitors (snd (setupPriceAlert env sym th None st))
      !! Z.of_nat (length (rules st)) = Some (next_timeout st) /\
    timers (snd (setupPriceAlert env sym th None st)) !! next_timeout st
      = Some (rule, num 60000) /\
    (th = NaN -> evaluateCondition env (condition rule) = Ok false) /\
    (forall z pd,
       Z.abs z < 2 ^ 53 -> th = num z ->
       market_getPrice env (Some sym) = Ok pd ->
       evaluateCondition env (condition rule) = Ok (lt (price pd) (num z))).
Proof.
  intros Hsym. unfold setupPriceAlert.
  match goal with
  | |- context [addRule ?r st] =>
      destruct (addRule_monitored r (num 60000) st eq_refl eq_refl)
        as (Hslot & Hmon & Htimer); exists r
  end.
  split; [exact Hslot|]. split; [exact Hmon|]. split; [exact Htimer|].
  cbn [condition]. split.
  - intros ->. rewrite (evaluateCondition_price_alert sym NaN Hsym eq_refl).
    destruct (market_getPrice env (Some sym)) as [pd|e]; [|reflexivity].
    change (parseFloat (Number_toString (number_digits env) NaN)) with NaN.
    now rewrite lt_NaN_r.
  - intros z pd Hsmall -> Hget.
    rewrite (evaluateCondition_price_alert sym (num z) Hsym),
      (Number_toString_integer _ z Hsmall), parseFloat_pretty, Hget;
      [reflexivity|].
    rewrite (Number_toString_integer _ z Hsmall). apply colon_free_pretty.
Qed.

End RouterHandlers.

Section RouterTheorems.
Import AutomationAgent.

(** X15. Either router's price-alert handler always confirms the alert with
    the id of the new rule, and always installs the rule with a timer of
    60000 ms, whatever the price text.  When the price text is the decimal
    digits of an integer below 2^53 the rule's condition compares the fetched
    price with that integer; when the text parses to NaN, as a lone "."
    does, the condition is false on every evaluation although the alert was
    confirmed. *)
Theorem chat_price_alert (env : Env)
    (handler : Env -> string -> string -> State -> Exc ChatResponse * State)
    (sym text : string) (st : State) :
  handler = ChatAgent.handlePriceAlert
  \/ handler = CryptoMessageHandler.handlePriceAlert ->
  colon_free sym = true ->
  (exists response,
     fst (handler env sym text st) = Ok response /\
     response_message response
       = price_alert_text sym text (Z.of_nat (length (rules st)))) /\
  exists rule,
    rules_at (snd (handler env sym text st)) (Z.of_nat (length (rules st)))
      = Some (Some rule) /\
    activeMonitors (snd (handler env sym text st)) !! Z.of_nat (length (rules st))
      = Some (next_timeout st) /\
    timers (snd (handler env sym text st)) !! next_timeout st
      = Some (rule, num 60000) /\
    (parseFloat text = NaN -> evaluateCondition env (condition rule) = Ok false) /\
    (forall z pd,
       Z.abs z < 2 ^ 53 -> text = pretty z ->
       market_getPrice env (Some sym) = Ok pd ->
       evaluateCondition env (condition rule) = Ok (lt (price pd) (num z))).
Proof.
  intros Hhandler Hsym.
  destruct (price_alert_installed env sym (parseFloat text) st Hsym)
    as (rule & Hslot & Hmon & Htimer & Hnan & Hint).
  assert (snd (handler env sym text st)
          = snd (setupPriceAlert env sym (parseFloat text) None st)) as Hstate
    by (destruct Hhandler as [->| ->]; reflexivity).
  split.
  - destruct Hhandler as [->| ->]; eexists; split; reflexivity.
  - exists rule. rewrite Hstate.
    split; [exact Hslot|]. split; [exact Hmon|]. split; [exact Htimer|].
    split; [exact Hnan|].
    intros z pd Hsmall -> Hget. apply Hint; [exact Hsmall| |exact Hget].
    apply parseFloat_pretty.
Qed.

(** X15 on "set price alert for btc at ." *)
Lemma chat_price_alert_witness :
  exists rule,
    rules_at (snd (ChatAgent.handlePriceAlert
                     (sample_env (sample_price (num 1) (num 0))) "btc" "." init)) 0
      = Some (Some rule) /\
    is_Some (activeMonitors
               (snd (ChatAgent.handlePriceAlert
                       (sample_env (sample_price (num 1) (num 0))) "btc" "." init))
               !! 0) /\
    evaluateCondition (sample_env (sample_price (num 1) (num 0))) (condition rule)
      = Ok false.
Proof.
  destruct (proj2 (chat_price_alert (sample_env (sample_price (num 1) (num 0)))
                     ChatAgent.handlePriceAlert "btc" "." init
                     (or_introl eq_refl) eq_refl))
    as (rule & Hslot & Hmon & _ & Hnan & _).
  exists rule. split; [exact Hslot|]. split; [exact (ex_intro _ _ Hmon)|].
  apply Hnan. reflexivity.
Defined.

(** The trade task on an order of the routers: no threshold is passed, so
    the outcome is that of the price lookup. *)
Lemma executeTask_order (env : Env) (kind sym amount : option string) :
  CryptoAgent.executeTask env "execute_trade" (order_params kind sym amount)
  = match market_getPrice env sym with
    | Ok pd =>
        Ok {| success := true;
              data := Some (TradeExecution kind amount sym (price pd)
                              (Date_toISOString env));
              error := None |}
    | Throw e => Ok {| success := false; data := None; error := Some (message e) |}
    end.
Proof.
  rewrite (executeTask_handler env "execute_trade" _ _ (tasks_execute_trade env)).
  unfold CryptoAgent.executeTrade, order_params. cbn.
  destruct (market_getPrice env sym); reflexivity.
Qed.

(** X16. An order placed through either router carries no price threshold:
    for a matched symbol it is executed at whatever price the market client
    reports, with the amount text passed on as it was typed, and the
    response carries the trade record; it fails only when the price cannot
    be fetched, and then the response quotes that error.  The handlers
    themselves never raise on a matched symbol. *)
Theorem chat_orders_unguarded (env : Env)
    (handler : Env -> list string -> Exc ChatResponse) (kind : string)
    (match_ : list string) (sym : string) :
  (handler = ChatAgent.handleBuyOrder \/ handler = CryptoMessageHandler.handleBuyOrder)
  /\ kind = "buy"
  \/ (handler = ChatAgent.handleSellOrder
      \/ handler = CryptoMessageHandler.handleSellOrder)
     /\ kind = "sell" ->
  match_ !! 1%nat = Some sym ->
  (forall pd, market_getPrice env (Some sym) = Ok pd ->
     exists response,
       handler env match_ = Ok response /\
       response_data response
         = Some (TradeExecution (Some kind) (match_ !! 2%nat) (Some sym) (price pd)
                   (Date_toISOString env))) /\
  (forall e, market_getPrice env (Some sym) = Throw e ->
     exists response,
       handler env match_ = Ok response /\
       response_data response = None /\
       response_message response
         = "Failed to execute " +:+ kind +:+ " order: " +:+ message e).
Proof.
  intros Hhandler Hsym. split.
  - intros pd Hget.
    destruct Hhandler as [[[->| ->] ->]|[[->| ->] ->]];
      unfold ChatAgent.handleBuyOrder, CryptoMessageHandler.handleBuyOrder,
        ChatAgent.handleSellOrder, CryptoMessageHandler.handleSellOrder;
      rewrite executeTask_order, Hsym, Hget; eexists; (split; reflexivity).
  - intros e Hget.
    destruct Hhandler as [[[->| ->] ->]|[[->| ->] ->]];
      unfold ChatAgent.handleBuyOrder, CryptoMessageHandler.handleBuyOrder,
        ChatAgent.handleSellOrder, CryptoMessageHandler.handleSellOrder;
      rewrite executeTask_order, Hsym, Hget; eexists;
      (split; [reflexivity|split; reflexivity]).
Qed.

(** X16 on "buy btc for ." at a price of 100. *)
Lemma chat_orders_unguarded_witness :
  exists response,
    ChatAgent.handleBuyOrder (sample_env (sample_price (num 100) (num 0)))
      ["buy btc for ."; "btc"; "."] = Ok response /\
    response_data response
      = Some (TradeExecution (Some "buy") (Some ".") (Some "btc") (num 100)
                "2024-01-01T00:00:00.000Z").
Proof.
  exact (proj1 (chat_orders_unguarded (sample_env (sample_price (num 100) (num 0)))
                  ChatAgent.handleBuyOrder "buy" ["buy btc for ."; "btc"; "."] "btc"
                  (or_introl (conj (or_introl eq_refl) eq_refl)) eq_refl)
           (sample_price (num 100) (num 0)) eq_refl).
Defined.

(** The head of the sorted positives is not below any of them. *)
Lemma top_performer_best (cryptos : list Crypto) (best : Crypto) :
  valid_changes cryptos ->
  CryptoAgent.identifyTopPerformers cryptos !! 0%nat = Some best ->
  forall c, c ∈ positive_changes cryptos -> change_not_below best c.
Proof.
  intros Hvalid Hbest c Hc.
  pose proof (identifyTopPerformers_sorted cryptos Hvalid) as Hsorted.
  pose proof (sort_Permutation CryptoAgent.cmp_change_desc (positive_changes cryptos))
    as Hperm.
  unfold CryptoAgent.identifyTopPerformers in Hbest.
  fold (positive_changes cryptos) in Hbest.
  rewrite <- Hperm in Hc.
  destruct (sort CryptoAgent.cmp_change_desc (positive_changes cryptos))
    as [|x l]; [discriminate Hbest|].
  cbn in Hbest. injection Hbest as ->.
  apply StronglySorted_inv in Hsorted as [_ Hhead].
  apply elem_of_cons in Hc as [->|Hc].
  - apply lt_irrefl.
  - rewrite Forall_forall in Hhead. apply Hhead, Hc.
Qed.

(** X17. After a successful market analysis either router suggests a price
    check of the best performer: the asset of the listing with a positive
    24h change that no other positive asset exceeds.  When no asset of the
    listing has a positive change the suggestion reads "... undefined". *)
Theorem market_analysis_suggestion (env : Env)
    (handler : Env -> Exc ChatResponse) (command : string)
    (cryptos : list Crypto) (stats : MarketStats) :
  handler = ChatAgent.handleMarketAnalysis /\ command = "check price of "
  \/ handler = CryptoMessageHandler.handleMarketAnalysis /\ command = "crypto price " ->
  market_getTopCryptos env 10 = Ok cryptos ->
  market_getMarketStats env = Ok stats ->
  exists response,
    handler env = Ok response /\
    response_data response
      = Some (MarketAnalysis (CryptoAgent.identifyTopPerformers cryptos)
                (CryptoAgent.calculateMarketSentiment stats)
                (CryptoAgent.generateMarketRecommendations cryptos stats)) /\
    (positive_changes cryptos = [] ->
     suggestions response !! 0%nat = Some (command +:+ "undefined")) /\
    (positive_changes cryptos <> [] ->
     exists best,
       suggestions response !! 0%nat = Some (command +:+ coin_symbol best) /\
       best ∈ positive_changes cryptos /\
       (valid_changes cryptos ->
        forall c, c ∈ positive_changes cryptos -> change_not_below best c)).
Proof.
  intros Hhandler Htop Hstats.
  assert (CryptoAgent.executeTask env "analyze_market" no_params
          = Ok {| success := true;
                  data := Some (MarketAnalysis (CryptoAgent.identifyTopPerformers cryptos)
                                  (CryptoAgent.calculateMarketSentiment stats)
                                  (CryptoAgent.generateMarketRecommendations cryptos stats));
                  error := None |}) as Hrun.
  { rewrite (executeTask_handler env "analyze_market" _ _ (tasks_analyze_market env)).
    unfold CryptoAgent.analyzeMarket. now rewrite Htop, Hstats. }
  pose proof (sort_Permutation CryptoAgent.cmp_change_desc (positive_changes cryptos))
    as Hperm.
  assert (exists response,
            handler env = Ok response /\
            response_data response
              = Some (MarketAnalysis (CryptoAgent.identifyTopPerformers cryptos)
                        (CryptoAgent.calculateMarketSentiment stats)
                        (CryptoAgent.generateMarketRecommendations cryptos stats)) /\
            suggestions response !! 0%nat
              = Some (command +:+ ToString_opt
                        (coin_symbol <$> CryptoAgent.identifyTopPerformers cryptos
                                           !! 0%nat))) as (response & Hok & Hdata & Hfirst).
  { destruct Hhandler as [[-> ->]|[-> ->]];
      unfold ChatAgent.handleMarketAnalysis, CryptoMessageHandler.handleMarketAnalysis;
      rewrite Hrun; eexists; (split; [reflexivity|split; reflexivity]). }
  exists response. split; [exact Hok|]. split; [exact Hdata|]. split.
  - intros Hnone. rewrite Hfirst. unfold CryptoAgent.identifyTopPerformers.
    fold (positive_changes cryptos). rewrite Hnone. reflexivity.
  - intros Hsome.
    destruct (CryptoAgent.identifyTopPerformers cryptos !! 0%nat) as [best|] eqn:Hbest.
    + exists best. split; [exact Hfirst|]. split.
      * apply list_elem_of_lookup_2 in Hbest.
        unfold CryptoAgent.identifyTopPerformers in Hbest.
        fold (positive_changes cryptos) in Hbest.
        apply elem_of_take in Hbest as (i & Hi & _).
        apply list_elem_of_lookup_2 in Hi. now rewrite Hperm in Hi.
      * intros Hvalid. now apply top_performer_best.
    + exfalso. unfold CryptoAgent.identifyTopPerformers in Hbest.
      fold (positive_changes cryptos) in Hbest.
      apply Hsome, Permutation_nil. rewrite <- Hperm.
      destruct (sort CryptoAgent.cmp_change_desc (positive_changes cryptos));
        [reflexivity|discriminate Hbest].
Qed.

(** X17 on a listing in which every asset fell. *)
Lemma market_analysis_suggestion_witness :
  exists response,
    CryptoMessageHandler.handleMarketAnalysis
      (market_env [crypto "btc" (num (-2)); crypto "eth" (num 0)] (num 0))
    = Ok response /\
    suggestions response !! 0%nat = Some "crypto price undefined".
Proof.
  destruct (market_analysis_suggestion
              (market_env [crypto "btc" (num (-2)); crypto "eth" (num 0)] (num 0))
              CryptoMessageHandler.handleMarketAnalysis "crypto price "
              _ _ (or_intror (conj eq_refl eq_refl)) eq_refl eq_refl)
    as (response & Hok & _ & Hnone & _).
  exists response. split; [exact Hok|]. apply Hnone. reflexivity.
Defined.

End RouterTheorems.

(** ** The suggested alert threshold is floored *)

Section Flooring.








(** A number has one floor only. *)
Lemma floor_of_unique (x : number) (z1 z2 : Z) :
  floor_of x z1 -> floor_of x z2 -> z1 = z2.
Proof.
  destruct x as [s|s| |s m e]; cbn [floor_of]; try contradiction; [lia|].
  assert (0 < 2 ^ Z.max 0 (- e)) as Hpow by (apply Z.pow_pos_nonneg; lia).
  intros H1 H2. nia.
Qed.

End Flooring.


